(** * Excel data sync service: a shallow embedding and its verified properties

    The first part embeds the sync service in the order of its source: the
    data model, the helper functions ([generateSemanticText],
    [transformRecords], [extractFkTargets], [updateKnowledgeGraph]) and the
    entry points [syncExcelData] and [syncAllExcelData]; the simple schema
    converter follows in a module of its own.  The second part gives the
    notions that the statements use and the sample data; the third part
    proves the properties, claim by claim, and is followed by further
    properties of the service and of the converter.

    Modelling conventions.
    - A JavaScript value is a [value]; numbers are the integer-valued ones
      (spreadsheet ids and counters), written as [Z].
    - A [Record<string, unknown>] is a [gmap string value]; reading a key that
      is absent gives [VUndefined], as in JavaScript.
    - [Set<number>] is [gset Z]; the [Map] built by [extractFkTargets] is an
      association list in insertion order, the order in which JavaScript
      iterates it.
    - The collaborating services (schema registry, spreadsheet reader,
      embedding service, vector store, graph store, index service, clock) and
      the two helpers of the repository whose source is elsewhere
      ([buildDataUuidV2], [extractFkValueBySchema]) are the fields of an
      environment [Env]; the properties hold for every environment.
    - Every call to a service is recorded in a chronological trace of
      [event]s, and so is the entry of every call of [syncExcelData]; the
      services that write, or that can fail from one call to the next, answer
      as a function of that trace, and so does the clock.  The schema
      registry and the file system are read-only: they answer as functions of
      their arguments.
    - An awaited call either returns, throws (the message of the error), or
      the model runs out of recursion fuel; [try]/[catch] only intercepts a
      throw.
    - Console output is not part of the model. *)

From Stdlib Require Import ZArith List String Ascii Lia.
From stdpp Require Import base option list strings pretty gmap fin_maps.

Local Open Scope string_scope.
Local Open Scope list_scope.
Local Open Scope Z_scope.

(** ** JavaScript values *)

#[local] Set Warnings "-register-all,-clear-no-such-hyp".

Inductive value : Type :=
  | VUndefined
  | VNull
  | VBool (b : bool)
  | VNum (n : Z)
  | VStr (s : string)
  | VArr (xs : list value)
  | VObj (kvs : list (string * value)).

(** [String(v)] and template-literal interpolation. *)
Fixpoint js_String (v : value) : string :=
  match v with
  | VUndefined => "undefined"
  | VNull => "null"
  | VBool true => "true"
  | VBool false => "false"
  | VNum n => pretty n
  | VStr s => s
  | VArr xs =>
      String.concat ","
        (List.map (fun x => match x with
                            | VUndefined | VNull => EmptyString
                            | _ => js_String x
                            end) xs)
  | VObj _ => "[object Object]"
  end.

(** Truthiness, as tested by [!x], [x || y] and [if (x)]. *)
Definition js_truthy (v : value) : bool :=
  match v with
  | VUndefined | VNull => false
  | VBool b => b
  | VNum n => negb (n =? 0)
  | VStr s => negb (String.eqb s EmptyString)
  | VArr _ | VObj _ => true
  end.

(** [v === null || v === undefined] *)
Definition is_nullish (v : value) : bool :=
  match v with
  | VUndefined | VNull => true
  | _ => false
  end.

(** [v === null || v === undefined || v === ''] *)
Definition is_blank (v : value) : bool :=
  match v with
  | VUndefined | VNull => true
  | VStr s => String.eqb s EmptyString
  | _ => false
  end.

(** [record[key]] *)
Definition prop (record : gmap string value) (key : string) : value :=
  default VUndefined (record !! key).

(** Truthiness of an optional string and of an optional number. *)
Definition truthy_str (o : option string) : bool :=
  match o with
  | Some s => negb (String.eqb s EmptyString)
  | None => false
  end.

Definition truthy_num (o : option Z) : bool :=
  match o with
  | Some n => negb (n =? 0)
  | None => false
  end.

(** ** Types of the service *)

(** [PipelineField], the schema's description of one field. *)
Record PipelineField : Type := {
  field_id : option Z;
  field_name : string;
  field_label : string;
  field_type : string;
  fk_location_model : option string;
  fk_location_model_id : option Z;
}.

(** The descriptor handed to the FK extractor. *)
Record FkFieldDescriptor : Type := {
  fd_field_id : Z;
  fd_field_name : string;
  fd_field_type : string;
}.

Inductive FkSource : Type := scalar | tuple | expanded.

Record FkExtractionResult : Type := {
  fkId : option Z;
  displayName : option string;
  source : FkSource;
}.

(** [field.field_id || 0] and the descriptor built at every call site. *)
Definition descriptor (f : PipelineField) : FkFieldDescriptor :=
  {| fd_field_id := default 0 (field_id f);
     fd_field_name := field_name f;
     fd_field_type := field_type f |}.

Record ExcelDataSyncOptions : Type := {
  filePath : option string;
  skipCascade : bool;
  dryRun : bool;
  force : bool;
}.

Record CascadedModel : Type := {
  cm_model_name : string;
  cm_records_synced : Z;
}.

Record ExcelDataSyncResult : Type := {
  success : bool;
  model_name : string;
  model_id : Z;
  file_path : string;
  records_read : Z;
  records_synced : Z;
  records_failed : Z;
  duration_ms : Z;
  errors : list string;
  cascaded_models : option (list CascadedModel);
}.

Record TransformedRecord : Type := {
  tr_record_id : value;
  tr_model_name : string;
  tr_model_id : Z;
  tr_vector_text : string;
  tr_payload : gmap string value;
}.

(** An embedding vector; the service never looks inside one. *)
Definition embedding : Type := list Z.

(** [PipelineDataPoint]; [pt_vector] is [embeddings[idx]], which JavaScript
    leaves undefined past the end of the array. *)
Record PipelineDataPoint : Type := {
  pt_id : string;
  pt_vector : option embedding;
  pt_payload : gmap string value;
}.

(** The argument of [upsertRelationship]. *)
Record Relationship : Type := {
  source_model : string;
  source_model_id : Z;
  rel_field_id : option Z;
  rel_field_name : string;
  rel_field_label : string;
  rel_field_type : string;
  target_model : string;
  target_model_id : Z;
  edge_count : Z;
  unique_targets : Z;
  cascade_source : string;
}.

(** ** Effects: the trace of service calls and the outcome of a call *)

Inductive event : Type :=
  | ESyncStart (modelName : string) (options : ExcelDataSyncOptions)
  | EModelExists (modelName : string)
  | EGetModelId (modelName : string)
  | EReadExcel (path : string)
  | EGetModelFields (modelName : string)
  | EGetFkFields (modelName : string)
  | EEmbedBatch (texts : list string)
  | EUpsertPoints (points : list PipelineDataPoint)
  | EUpsertRelationship (rel : Relationship)
  | EEnsureIndexes (modelName : string) (fields : list PipelineField).

Definition trace : Type := list event.

Inductive outcome (A : Type) : Type :=
  | Return (a : A)
  | Throw (msg : string)
  | OutOfFuel.
Arguments Return {A} a.
Arguments Throw {A} msg.
Arguments OutOfFuel {A}.

(** What a service answers: a value or a thrown error message. *)
Inductive answer (A : Type) : Type :=
  | Ok (a : A)
  | Fail (msg : string).
Arguments Ok {A} a.
Arguments Fail {A} msg.

Definition M (A : Type) : Type := trace -> outcome A * trace.

Definition ret {A} (a : A) : M A := fun t => (Return a, t).

Definition throw {A} (msg : string) : M A := fun t => (Throw msg, t).

Definition bind {A B} (m : M A) (k : A -> M B) : M B :=
  fun t =>
    match m t with
    | (Return a, t') => k a t'
    | (Throw msg, t') => (Throw msg, t')
    | (OutOfFuel, t') => (OutOfFuel, t')
    end.

(** [try { m } catch (error) { handler(message of error) }] *)
Definition try_catch {A} (m : M A) (handler : string -> M A) : M A :=
  fun t =>
    match m t with
    | (Return a, t') => (Return a, t')
    | (Throw msg, t') => handler msg t'
    | (OutOfFuel, t') => (OutOfFuel, t')
    end.

(** Record a call, then deliver the service's answer to it. *)
Definition call {A} (e : event) (ans : trace -> answer A) : M A :=
  fun t =>
    match ans t with
    | Ok a => (Return a, t ++ [e])
    | Fail msg => (Throw msg, t ++ [e])
    end.

(** Read the trace without changing it (the clock looks at it). *)
Definition observe {A} (f : trace -> A) : M A := fun t => (Return (f t), t).

Declare Scope sync_scope.
Delimit Scope sync_scope with sync.
Notation "x <- m ;; k" := (bind m (fun x => k))
  (at level 100, m at next level, right associativity) : sync_scope.
Local Open Scope sync_scope.

(** ** The environment: collaborating services and library functions *)

Record Env : Type := {
  (** [process.env.DATA_DIR || 'samples'] *)
  DATA_DIR : string;
  (** [path.join] *)
  path_join : string -> string -> string;
  (** schema registry (read-only) *)
  modelExistsInSchema : string -> bool;
  getModelIdFromSchema : string -> option Z;
  getModelFieldsFromSchema : string -> option (list PipelineField);
  getFkFieldsFromSchema : string -> option (list PipelineField);
  (** [fs.existsSync] and the two spreadsheet calls that follow it *)
  existsSync : string -> bool;
  readSheet : string -> answer (list (gmap string value));
  (** pure helpers of the repository *)
  buildDataUuidV2 : Z -> value -> string;
  extractFkValueBySchema : gmap string value -> FkFieldDescriptor -> FkExtractionResult;
  (** services that write, or that may fail from one call to the next *)
  embedBatch : trace -> list string -> answer (list embedding);
  upsertToUnifiedCollection : trace -> list PipelineDataPoint -> answer unit;
  upsertRelationship : trace -> Relationship -> answer unit;
  ensureModelIndexes : trace -> string -> list PipelineField -> answer Z;
  (** [Date.now()] and [new Date().toISOString()] *)
  dateNow : trace -> Z;
  isoNow : trace -> string;
}.

(** ** Constants *)

Definition EMBEDDING_BATCH_SIZE : nat := 50.

(** ** Helper functions *)

Definition getDefaultDataFilePath (E : Env) (modelName : string) : string :=
  path_join E (DATA_DIR E) ("SAMPLE_" +:+ modelName +:+ "_data.xlsx").

Definition readExcelData (E : Env) (filePath : string) : M (list (gmap string value)) :=
  call (EReadExcel filePath)
       (fun _ => if existsSync E filePath
                 then readSheet E filePath
                 else Fail ("Data file not found: " +:+ filePath)).

(** [field.field_label || field.field_name] *)
Definition labelOf (field : PipelineField) : string :=
  if String.eqb (field_label field) EmptyString
  then field_name field else field_label field.

(** One iteration of the field loop of [generateSemanticText]: [parts] is
    the array being pushed to. *)
Definition semanticTextField (E : Env) (record : gmap string value)
    (parts : list string) (field : PipelineField) : list string :=
  if String.eqb (field_name field) "id" then parts
  else
    let value := prop record (field_name field) in
    if is_blank value then parts
    else
      let displayValue :=
        if String.eqb (field_type field) "many2one" then
          let fkResult := extractFkValueBySchema E record (descriptor field) in
          match fkId fkResult with
          | Some n =>
              if truthy_str (displayName fkResult)
              then default EmptyString (displayName fkResult) +:+ " (id: " +:+ pretty n +:+ ")"
              else "id: " +:+ pretty n
          | None => js_String value
          end
        else js_String value in
      parts ++ [labelOf field +:+ " - " +:+ displayValue].

Definition generateSemanticText (E : Env) (record : gmap string value)
    (modelName : string) (schemaFields : list PipelineField) : string :=
  let parts := [] in
  let parts := parts ++ ["In model " +:+ modelName] in
  let recordId := prop record "id" in
  let parts := parts ++ ["record " +:+ js_String recordId] in
  let parts := foldl (semanticTextField E record) parts schemaFields in
  String.concat ", " parts.

(** The payload starts as a copy of the record's entries that are neither
    [null] nor [undefined]. *)
Definition copyFields (record : gmap string value) : gmap string value :=
  map_fold (fun key value payload =>
              if is_nullish value then payload else <[key := value]> payload)
           ∅ record.

(** One iteration of the loop that adds the FK identifiers to the payload. *)
Definition addFkFields (E : Env) (record : gmap string value)
    (payload : gmap string value) (field : PipelineField) : gmap string value :=
  if String.eqb (field_type field) "many2one" && truthy_num (fk_location_model_id field) then
    let fkResult := extractFkValueBySchema E record (descriptor field) in
    match fkId fkResult with
    | Some n =>
        let fkQdrantId :=
          buildDataUuidV2 E (default 0 (fk_location_model_id field)) (VNum n) in
        let payload := <[field_name field +:+ "_qdrant" := VStr fkQdrantId]> payload in
        match source fkResult with
        | scalar => <[field_name field +:+ "_id" := VNum n]> payload
        | _ => payload
        end
    | None => payload
    end
  else payload.

(** One iteration of the record loop of [transformRecords]: [transformed] is
    the array being pushed to. *)
Definition transformRecord (E : Env) (modelName : string) (modelId : Z)
    (schemaFields : list PipelineField)
    (transformed : list TransformedRecord) (record : gmap string value)
    : list TransformedRecord :=
  let recordId := prop record "id" in
  if negb (js_truthy recordId) then transformed
  else
    let vectorText := generateSemanticText E record modelName schemaFields in
    let payload := copyFields record in
    let payload := foldl (addFkFields E record) payload schemaFields in
    transformed ++ [ {| tr_record_id := recordId;
                        tr_model_name := modelName;
                        tr_model_id := modelId;
                        tr_vector_text := vectorText;
                        tr_payload := payload |} ].

Definition transformRecords (E : Env) (records : list (gmap string value))
    (modelName : string) (modelId : Z) : M (list TransformedRecord) :=
  schemaFields <- call (EGetModelFields modelName)
                       (fun _ => Ok (getModelFieldsFromSchema E modelName)) ;;
  match schemaFields with
  | None | Some [] => throw ("No schema fields found for model: " +:+ modelName)
  | Some schemaFields =>
      ret (foldl (transformRecord E modelName modelId schemaFields) [] records)
  end.

(** The distinct FK ids that the records carry for one field. *)
Definition collectFkIds (E : Env) (records : list (gmap string value))
    (fkField : PipelineField) : gset Z :=
  foldl (fun ids record =>
           match fkId (extractFkValueBySchema E record (descriptor fkField)) with
           | Some n => {[ n ]} ∪ ids
           | None => ids
           end) ∅ records.

(** [Map.get] and [Map.set] on a map kept in insertion order. *)
Fixpoint Map_get {V} (m : list (string * V)) (key : string) : option V :=
  match m with
  | [] => None
  | (k, v) :: rest => if String.eqb k key then Some v else Map_get rest key
  end.

Fixpoint Map_set {V} (m : list (string * V)) (key : string) (v : V) : list (string * V) :=
  match m with
  | [] => [(key, v)]
  | (k, w) :: rest =>
      if String.eqb k key then (k, v) :: rest else (k, w) :: Map_set rest key v
  end.

Definition extractFkTargetsField (E : Env) (records : list (gmap string value))
    (fkTargets : list (string * gset Z)) (fkField : PipelineField)
    : list (string * gset Z) :=
  if negb (truthy_str (fk_location_model fkField)) then fkTargets
  else
    let targetModel := default EmptyString (fk_location_model fkField) in
    let targetIds := collectFkIds E records fkField in
    if (0 <? size targetIds)%nat then
      let existing := default ∅ (Map_get fkTargets targetModel) in
      Map_set fkTargets targetModel (existing ∪ targetIds)
    else fkTargets.

Definition extractFkTargets (E : Env) (records : list (gmap string value))
    (modelName : string) : M (list (string * gset Z)) :=
  let fkTargets := [] in
  fkFields <- call (EGetFkFields modelName)
                   (fun _ => Ok (getFkFieldsFromSchema E modelName)) ;;
  match fkFields with
  | None | Some [] => ret fkTargets
  | Some fkFields => ret (foldl (extractFkTargetsField E records) fkTargets fkFields)
  end.

(** A sequential [for ... of] loop with awaited calls in its body. *)
Fixpoint forOf {A B} (body : A -> B -> M A) (acc : A) (items : list B) : M A :=
  match items with
  | [] => ret acc
  | x :: rest => acc' <- body acc x ;; forOf body acc' rest
  end.

Definition isGraphFkField (f : PipelineField) : bool :=
  String.eqb (field_type f) "many2one"
  && truthy_str (fk_location_model f)
  && truthy_num (fk_location_model_id f).

Definition relationshipOf (E : Env) (modelName : string) (modelId : Z)
    (records : list (gmap string value)) (fkField : PipelineField)
    (fkIds : gset Z) : Relationship :=
  {| source_model := modelName;
     source_model_id := modelId;
     rel_field_id := field_id fkField;
     rel_field_name := field_name fkField;
     rel_field_label := field_label fkField;
     rel_field_type := field_type fkField;
     target_model := default EmptyString (fk_location_model fkField);
     target_model_id := default 0 (fk_location_model_id fkField);
     edge_count := Z.of_nat (length records);
     unique_targets := Z.of_nat (size fkIds);
     cascade_source := modelName |}.

(** One iteration of the field loop of [updateKnowledgeGraph]. *)
Definition graphEdgeStep (E : Env) (modelName : string) (modelId : Z)
    (records : list (gmap string value))
    (edgesCreated : Z) (fkField : PipelineField) : M Z :=
  let fkIds := collectFkIds E records fkField in
  if (0 <? size fkIds)%nat then
    let rel := relationshipOf E modelName modelId records fkField fkIds in
    try_catch
      (_ <- call (EUpsertRelationship rel) (fun t => upsertRelationship E t rel) ;;
       ret (edgesCreated + 1))
      (fun _ => ret edgesCreated)
  else ret edgesCreated.

Definition updateKnowledgeGraph (E : Env) (modelName : string) (modelId : Z)
    (records : list (gmap string value)) (schemaFields : list PipelineField) : M Z :=
  let edgesCreated := 0 in
  let fkFields := List.filter isGraphFkField schemaFields in
  forOf (graphEdgeStep E modelName modelId records) edgesCreated fkFields.

(** ** Main sync function *)

(** The payload of a stored point: the system fields, then the spread of the
    transformed record's payload, whose entries therefore win. *)
Definition systemFields (pointId : string) (record : TransformedRecord)
    (syncTimestamp : string) : gmap string value :=
  <["sync_timestamp" := VStr syncTimestamp]>
  (<["vector_text" := VStr (tr_vector_text record)]>
  (<["model_id" := VNum (tr_model_id record)]>
  (<["model_name" := VStr (tr_model_name record)]>
  (<["record_id" := tr_record_id record]>
  (<["point_type" := VStr "data"]>
  (<["point_id" := VStr pointId]> ∅)))))).

Definition buildPoint (E : Env) (embeddings : list embedding) (syncTimestamp : string)
    (idx : nat) (record : TransformedRecord) : PipelineDataPoint :=
  let pointId := buildDataUuidV2 E (tr_model_id record) (tr_record_id record) in
  {| pt_id := pointId;
     pt_vector := embeddings !! idx;
     pt_payload := tr_payload record ∪ systemFields pointId record syncTimestamp |}.

(** The body of the [try] block of one batch, up to the store write. *)
Definition processBatch (E : Env) (batch : list TransformedRecord) : M unit :=
  let texts := List.map tr_vector_text batch in
  embeddings <- call (EEmbedBatch texts) (fun t => embedBatch E t texts) ;;
  if negb (length embeddings =? length batch)%nat then
    throw ("Embedding count mismatch: " +:+ pretty (length embeddings)
           +:+ " vs " +:+ pretty (length batch))
  else
    points <- observe (fun t => imap (buildPoint E embeddings (isoNow E t)) batch) ;;
    call (EUpsertPoints points) (fun t => upsertToUnifiedCollection E t points).

(** [transformed.slice(i, j)] *)
Definition slice {A} (l : list A) (i j : nat) : list A :=
  take (j - i) (drop i l).

(** The counters and the error list that the batch loop updates. *)
Record BatchTotals : Type := {
  recordsSynced : Z;
  recordsFailed : Z;
  batchErrors : list string;
}.

(** [for (let i = ...; i < transformed.length; i += EMBEDDING_BATCH_SIZE)];
    [fuel] bounds the number of iterations. *)
Fixpoint batchLoop (E : Env) (fuel : nat) (transformed : list TransformedRecord)
    (i : nat) (totals : BatchTotals) : M BatchTotals :=
  if (i <? length transformed)%nat then
    match fuel with
    | O => fun t => (OutOfFuel, t)
    | S fuel' =>
        let batch := slice transformed i (i + EMBEDDING_BATCH_SIZE) in
        let batchNum := (i / EMBEDDING_BATCH_SIZE + 1)%nat in
        totals' <-
          try_catch
            (_ <- processBatch E batch ;;
             ret {| recordsSynced := recordsSynced totals + Z.of_nat (length batch);
                    recordsFailed := recordsFailed totals;
                    batchErrors := batchErrors totals |})
            (fun errorMsg =>
               ret {| recordsSynced := recordsSynced totals;
                      recordsFailed := recordsFailed totals + Z.of_nat (length batch);
                      batchErrors := batchErrors totals ++
                        ["Batch " +:+ pretty batchNum +:+ " failed: " +:+ errorMsg] |}) ;;
        batchLoop E fuel' transformed (i + EMBEDDING_BATCH_SIZE) totals'
    end
  else ret totals.

(** The whole loop; one iteration per record is more than it ever needs. *)
Definition runBatches (E : Env) (transformed : list TransformedRecord) : M BatchTotals :=
  batchLoop E (length transformed) transformed 0
            {| recordsSynced := 0; recordsFailed := 0; batchErrors := [] |}.

(** One iteration of the cascade loop; [self] is [syncExcelData]. *)
Definition cascadeStep (self : string -> ExcelDataSyncOptions -> M ExcelDataSyncResult)
    (dryRun force : bool)
    (cascadedModels : list CascadedModel) (target : string * gset Z)
    : M (list CascadedModel) :=
  let targetModel := target.1 in
  try_catch
    (cascadeResult <- self targetModel {| filePath := None;
                                          skipCascade := true;
                                          dryRun := dryRun;
                                          force := force |} ;;
     if success cascadeResult then
       ret (cascadedModels ++ [ {| cm_model_name := targetModel;
                                   cm_records_synced := records_synced cascadeResult |} ])
     else ret cascadedModels)
    (fun _ => ret cascadedModels).

(** The FK cascade of a call, once its records are in hand: nothing when
    it is skipped, else one nested sync per FK target model. *)
Definition cascadeOf (self : string -> ExcelDataSyncOptions -> M ExcelDataSyncResult)
    (E : Env) (modelName : string) (options : ExcelDataSyncOptions)
    (records : list (gmap string value)) : M (list CascadedModel) :=
  if negb (skipCascade options) then
    fkTargets <- extractFkTargets E records modelName ;;
    if (0 <? length fkTargets)%nat then
      forOf (cascadeStep self (dryRun options) (force options)) [] fkTargets
    else ret []
  else ret [].

(** The result returned on the three fatal paths, on an empty file and on a
    dry run. *)
Definition earlyResult (E : Env) (startTime : Z) (ok : bool) (modelName : string)
    (modelId : Z) (dataFilePath : string) (recordsRead : Z) (errs : list string)
    : M ExcelDataSyncResult :=
  now <- observe (dateNow E) ;;
  ret {| success := ok;
         model_name := modelName;
         model_id := modelId;
         file_path := dataFilePath;
         records_read := recordsRead;
         records_synced := 0;
         records_failed := 0;
         duration_ms := now - startTime;
         errors := errs;
         cascaded_models := None |}.

(** [filePath || getDefaultDataFilePath(modelName)] *)
Definition dataFilePathOf (E : Env) (modelName : string)
    (options : ExcelDataSyncOptions) : string :=
  if truthy_str (filePath options)
  then default EmptyString (filePath options)
  else getDefaultDataFilePath E modelName.

(** The body of [syncExcelData]; [self] stands for the function itself in
    the cascade. *)
Definition syncExcelData_body (E : Env)
    (self : string -> ExcelDataSyncOptions -> M ExcelDataSyncResult)
    (modelName : string) (options : ExcelDataSyncOptions) : M ExcelDataSyncResult :=
  _ <- call (ESyncStart modelName options) (fun _ => Ok tt) ;;
  startTime <- observe (dateNow E) ;;
  let dataFilePath := dataFilePathOf E modelName options in
  modelExists <- call (EModelExists modelName)
                      (fun _ => Ok (modelExistsInSchema E modelName)) ;;
  if negb modelExists then
    earlyResult E startTime false modelName 0 dataFilePath 0
      ["Model '" +:+ modelName +:+ "' not found in schema. Run schema sync first."]
  else
  modelId <- call (EGetModelId modelName)
                  (fun _ => Ok (getModelIdFromSchema E modelName)) ;;
  if negb (truthy_num modelId) then
    earlyResult E startTime false modelName 0 dataFilePath 0
      ["Could not get model ID for: " +:+ modelName]
  else
  let modelId := default 0 modelId in
  readResult <- try_catch (records <- readExcelData E dataFilePath ;; ret (Ok records))
                          (fun errorMsg => ret (Fail errorMsg)) ;;
  match readResult with
  | Fail errorMsg =>
      earlyResult E startTime false modelName modelId dataFilePath 0 [errorMsg]
  | Ok records =>
  if (length records =? 0)%nat then
    earlyResult E startTime true modelName modelId dataFilePath 0 []
  else if dryRun options then
    earlyResult E startTime true modelName modelId dataFilePath
      (Z.of_nat (length records)) []
  else
  transformed <- transformRecords E records modelName modelId ;;
  totals <- runBatches E transformed ;;
  schemaFields <- call (EGetModelFields modelName)
                       (fun _ => Ok (getModelFieldsFromSchema E modelName)) ;;
  _ <- match schemaFields with
       | None | Some [] => ret tt
       | Some schemaFields =>
           _ <- updateKnowledgeGraph E modelName modelId records schemaFields ;;
           _ <- call (EEnsureIndexes modelName schemaFields)
                     (fun t => ensureModelIndexes E t modelName schemaFields) ;;
           ret tt
       end ;;
  cascadedModels <- cascadeOf self E modelName options records ;;
  now <- observe (dateNow E) ;;
  ret {| success := (length (batchErrors totals) =? 0)%nat;
         model_name := modelName;
         model_id := modelId;
         file_path := dataFilePath;
         records_read := Z.of_nat (length records);
         records_synced := recordsSynced totals;
         records_failed := recordsFailed totals;
         duration_ms := now - startTime;
         errors := batchErrors totals;
         cascaded_models :=
           if (0 <? length cascadedModels)%nat then Some cascadedModels else None |}
  end.

(** [syncExcelData]: the recursion of the cascade is unfolded [fuel] times. *)
Fixpoint syncExcelData (E : Env) (fuel : nat)
    (modelName : string) (options : ExcelDataSyncOptions) : M ExcelDataSyncResult :=
  match fuel with
  | O => fun t => (OutOfFuel, t)
  | S fuel' => syncExcelData_body E (syncExcelData E fuel') modelName options
  end.

(** ** Sync of every data file *)

(** File names are byte strings (UTF-8).  [stripPrefix p s] is the rest of
    [s] after the prefix [p], [stripSuffix suf s] what precedes the suffix
    [suf]. *)
Fixpoint stripPrefix (p s : string) : option string :=
  match p with
  | EmptyString => Some s
  | String a p' =>
      match s with
      | String b s' => if Ascii.eqb a b then stripPrefix p' s' else None
      | EmptyString => None
      end
  end.

Fixpoint stripSuffix (suf s : string) : option string :=
  if String.eqb s suf then Some EmptyString
  else match s with
       | EmptyString => None
       | String a s' => option_map (String a) (stripSuffix suf s')
       end.

(** The characters that [.] does not match in a regular expression without
    the [s] flag: LF, CR, U+2028 and U+2029 (three bytes each in UTF-8). *)
Definition lineSeparator : string :=
  String (ascii_of_nat 226) (String (ascii_of_nat 128) (String (ascii_of_nat 168) EmptyString)).

Definition paragraphSeparator : string :=
  String (ascii_of_nat 226) (String (ascii_of_nat 128) (String (ascii_of_nat 169) EmptyString)).

Fixpoint hasLineTerminator (s : string) : bool :=
  match s with
  | EmptyString => false
  | String c rest =>
      Ascii.eqb c (ascii_of_nat 10) || Ascii.eqb c (ascii_of_nat 13)
      || String.prefix lineSeparator s || String.prefix paragraphSeparator s
      || hasLineTerminator rest
  end.

(** What lies between [SAMPLE_] and [_data.xlsx] in a file name. *)
Definition middleOf (file : string) : option string :=
  match stripPrefix "SAMPLE_" file with
  | Some rest => stripSuffix "_data.xlsx" rest
  | None => None
  end.

(** [f.match(/^SAMPLE_.*_data\.xlsx$/)], as a truth value *)
Definition matchesDataFile (file : string) : bool :=
  match middleOf file with
  | Some mid => negb (hasLineTerminator mid)
  | None => false
  end.

(** [file.match(/^SAMPLE_(.+)_data\.xlsx$/)]: the first group, if the name
    matches. *)
Definition captureModelName (file : string) : option string :=
  match middleOf file with
  | Some mid =>
      if hasLineTerminator mid || String.eqb mid EmptyString then None else Some mid
  | None => None
  end.

(** [{ ...options, skipCascade: true }] *)
Definition independentOptions (options : ExcelDataSyncOptions) : ExcelDataSyncOptions :=
  {| filePath := filePath options;
     skipCascade := true;
     dryRun := dryRun options;
     force := force options |}.

(** One iteration of the file loop; [self] is [syncExcelData]. *)
Definition syncAllStep (self : string -> ExcelDataSyncOptions -> M ExcelDataSyncResult)
    (options : ExcelDataSyncOptions)
    (results : list ExcelDataSyncResult) (file : string) : M (list ExcelDataSyncResult) :=
  match captureModelName file with
  | None => ret results
  | Some modelName =>
      result <- self modelName (independentOptions options) ;;
      ret (results ++ [result])
  end.

(** [syncAllExcelData]; [readdirSync] is [fs.readdirSync], which the helper
    functions above do not use, and [fuel] is that of each [syncExcelData]
    call. *)
Definition syncAllExcelData (E : Env) (readdirSync : string -> answer (list string))
    (fuel : nat) (options : ExcelDataSyncOptions) : M (list ExcelDataSyncResult) :=
  let dataDir := DATA_DIR E in
  if negb (existsSync E dataDir) then ret []
  else
    match readdirSync dataDir with
    | Fail msg => throw msg
    | Ok files =>
        let dataFiles := List.filter matchesDataFile files in
        forOf (syncAllStep (syncExcelData E fuel) options) [] dataFiles
    end.

(** ** The FK value extractor and a reference environment *)

Definition digit_of (c : ascii) : option Z :=
  let n := nat_of_ascii c in
  if ((48 <=? n) && (n <=? 57))%nat then Some (Z.of_nat (n - 48)) else None.

Fixpoint parse_digits (acc : Z) (s : string) : option Z :=
  match s with
  | EmptyString => Some acc
  | String c rest =>
      match digit_of c with
      | Some d => parse_digits (10 * acc + d) rest
      | None => None
      end
  end.

(** A numeric string: a non-empty run of decimal digits. *)
Definition numeric_string (s : string) : option Z :=
  match s with
  | EmptyString => None
  | _ => parse_digits 0 s
  end.

Definition noFk : FkExtractionResult :=
  {| fkId := None; displayName := None; source := scalar |}.

(** Modelled from the spec: [extractFkValueBySchema] lives in
    [utils/fk-value-extractor], which is not among the sources.  The spec
    gives its resolution order: a scalar number or numeric string; a pair
    [[id, label]]; a pre-expanded object with an [id] and a label (read here
    under the field's own name, with the label in [name]); otherwise no
    [fkId].  The field is read under its exact name, then under the name
    preceded by one space. *)
Definition specExtractFkValue (record : gmap string value)
    (field : FkFieldDescriptor) : FkExtractionResult :=
  let value :=
    match record !! fd_field_name field with
    | Some v => v
    | None => prop record (" " +:+ fd_field_name field)
    end in
  match value with
  | VNum n => {| fkId := Some n; displayName := None; source := scalar |}
  | VStr s =>
      match numeric_string s with
      | Some n => {| fkId := Some n; displayName := None; source := scalar |}
      | None => noFk
      end
  | VArr [VNum n; VStr label] =>
      {| fkId := Some n; displayName := Some label; source := tuple |}
  | VObj kvs =>
      match Map_get kvs "id", Map_get kvs "name" with
      | Some (VNum n), Some (VStr label) =>
          {| fkId := Some n; displayName := Some label; source := expanded |}
      | _, _ => noFk
      end
  | _ => noFk
  end.

(** One model of a reference schema: name, id, fields. *)
Record ModelDecl : Type := {
  md_name : string;
  md_id : Z;
  md_fields : list PipelineField;
}.

Definition findModel (schema : list ModelDecl) (modelName : string) : option ModelDecl :=
  List.find (fun m => String.eqb (md_name m) modelName) schema.

(** A reference environment over a schema and a set of spreadsheet files;
    the four writing services are given by the caller.  It is used for the
    sample runs only: its identifier function is a stand-in for
    [buildDataUuidV2], its FK fields are the many2one fields of the model,
    and its clock counts the events of the trace. *)
Definition referenceEnv (schema : list ModelDecl)
    (files : list (string * answer (list (gmap string value))))
    (embed : trace -> list string -> answer (list embedding))
    (upsertPoints : trace -> list PipelineDataPoint -> answer unit)
    (upsertRel : trace -> Relationship -> answer unit)
    (ensureIdx : trace -> string -> list PipelineField -> answer Z) : Env :=
  {| DATA_DIR := "samples";
     path_join := fun dir file => dir +:+ "/" +:+ file;
     modelExistsInSchema := fun name => bool_decide (is_Some (findModel schema name));
     getModelIdFromSchema := fun name => md_id <$> findModel schema name;
     getModelFieldsFromSchema := fun name => md_fields <$> findModel schema name;
     getFkFieldsFromSchema := fun name =>
       (fun m => List.filter (fun f => String.eqb (field_type f) "many2one") (md_fields m))
         <$> findModel schema name;
     existsSync := fun path => bool_decide (is_Some (Map_get files path));
     readSheet := fun path => default (Fail "unreadable") (Map_get files path);
     buildDataUuidV2 := fun modelId recordId =>
       "00000002-" +:+ pretty modelId +:+ "-" +:+ js_String recordId;
     extractFkValueBySchema := specExtractFkValue;
     embedBatch := embed;
     upsertToUnifiedCollection := upsertPoints;
     upsertRelationship := upsertRel;
     ensureModelIndexes := ensureIdx;
     dateNow := fun t => Z.of_nat (length t);
     isoNow := fun t => "T" +:+ pretty (length t) |}.

(** Services that always succeed. *)
Definition embedOk : trace -> list string -> answer (list embedding) :=
  fun _ texts => Ok (List.map (fun _ => [0]) texts).
Definition upsertPointsOk : trace -> list PipelineDataPoint -> answer unit :=
  fun _ _ => Ok tt.
Definition upsertRelOk : trace -> Relationship -> answer unit :=
  fun _ _ => Ok tt.
Definition ensureIdxOk : trace -> string -> list PipelineField -> answer Z :=
  fun _ _ _ => Ok 0.

Definition dataField (name label : string) : PipelineField :=
  {| field_id := Some 1; field_name := name; field_label := label;
     field_type := "char"; fk_location_model := None; fk_location_model_id := None |}.

Definition fkField (fid : Z) (name label target : string) (targetId : Z) : PipelineField :=
  {| field_id := Some fid; field_name := name; field_label := label;
     field_type := "many2one"; fk_location_model := Some target;
     fk_location_model_id := Some targetId |}.

Definition defaultOptions : ExcelDataSyncOptions :=
  {| filePath := None; skipCascade := false; dryRun := false; force := false |}.

(** ** Simple schema converter *)

(** The converter of [simple-schema-converter.ts].  A [SimpleSchemaRow] is a
    row object of the parsed sheet, a [gmap string value] as the records
    above; the argument of the two entry points is an array (the case of an
    argument that is [undefined] is not modelled).  A function that can throw
    returns an [answer]. *)
Module SimpleSchema.

(** What the converter takes from its surroundings: the built-ins [isNaN],
    [String.prototype.trim] and [String.prototype.toLowerCase], and the two
    identifier helpers of [utils/uuid-v2], whose source is elsewhere and
    which may throw. *)
Record Runtime : Type := {
  isNaN : value -> bool;
  trim : string -> string;
  toLowerCase : string -> string;
  buildSchemaUuidV2Simple : value -> value -> answer string;
  buildSchemaFkRefUuidV2 : value -> value -> answer string;
}.

Record ValidationResult : Type := {
  valid : bool;
  errors : list string;
  warnings : list string;
}.

Record NexsusSchemaRow : Type := {
  qdrant_id : string;
  semantic_text : string;
  raw_payload : string;
  field_id : value;
  model_id : value;
  field_name : value;
  field_label : value;
  field_type : value;
  model_name : value;
  stored : bool;
  fk_location_model : option value;
  fk_location_model_id : option value;
  fk_location_record_id : option value;
  fk_qdrant_id : option string;
}.

(** [m >>= k] on answers: a throw ends the computation. *)
Definition andThen {A B} (m : answer A) (k : A -> answer B) : answer B :=
  match m with
  | Ok a => k a
  | Fail msg => Fail msg
  end.

(** [v !== undefined], negated *)
Definition is_undefined (v : value) : bool :=
  match v with
  | VUndefined => true
  | _ => false
  end.

(** The double quote, a line feed and the cross mark (U+274C) of the error
    messages. *)
Definition dq : string := String (ascii_of_nat 34) EmptyString.

Definition lf : string := String (ascii_of_nat 10) EmptyString.

Definition crossMark : string :=
  String (ascii_of_nat 226) (String (ascii_of_nat 157) (String (ascii_of_nat 140) EmptyString)).

Definition getFkField (row : gmap string value) (fieldName : string) : value :=
  if negb (is_undefined (prop row fieldName)) then prop row fieldName
  else if negb (is_undefined (prop row (" " +:+ fieldName)))
       then prop row (" " +:+ fieldName)
       else VUndefined.

(** Key equality of a [Map] (SameValueZero): primitives are compared by
    value; arrays and objects are compared by identity, and two cells of a
    sheet never hold the same object. *)
Definition sameValueZero (a b : value) : bool :=
  match a, b with
  | VUndefined, VUndefined | VNull, VNull => true
  | VBool x, VBool y => Bool.eqb x y
  | VNum x, VNum y => x =? y
  | VStr x, VStr y => String.eqb x y
  | _, _ => false
  end.

(** [fieldIdMap.get(key)]; [None] when [fieldIdMap.has(key)] is false.  The
    map is the list of its entries in insertion order. *)
Fixpoint Map_find (m : list (value * nat)) (key : value) : option nat :=
  match m with
  | [] => None
  | (k, v) :: rest => if sameValueZero k key then Some v else Map_find rest key
  end.

(** The two variables that the callback of [rows.forEach] updates. *)
Record ValidationState : Type := {
  result : ValidationResult;
  fieldIdMap : list (value * nat);
}.

(** [result.valid = false; result.errors.push(msg)] *)
Definition addError (msg : string) (st : ValidationState) : ValidationState :=
  {| result := {| valid := false;
                  errors := errors (result st) ++ [msg];
                  warnings := warnings (result st) |};
     fieldIdMap := fieldIdMap st |}.

(** [result.warnings.push(msg)] *)
Definition addWarning (msg : string) (st : ValidationState) : ValidationState :=
  {| result := {| valid := valid (result st);
                  errors := errors (result st);
                  warnings := warnings (result st) ++ [msg] |};
     fieldIdMap := fieldIdMap st |}.

Definition checkFieldId (rt : Runtime) (rowNum : nat) (row : gmap string value)
    (st : ValidationState) : ValidationState :=
  let Field_ID := prop row "Field_ID" in
  if is_nullish Field_ID then
    addError ("Row " +:+ pretty rowNum +:+ ": Field_ID is missing") st
  else if isNaN rt Field_ID then
    addError ("Row " +:+ pretty rowNum +:+ ": Field_ID " +:+ dq +:+ js_String Field_ID
              +:+ dq +:+ " is not a valid number") st
  else
    match Map_find (fieldIdMap st) Field_ID with
    | Some firstRow =>
        addError ("Duplicate Field_ID " +:+ js_String Field_ID +:+ " found in rows "
                  +:+ pretty firstRow +:+ " and " +:+ pretty rowNum) st
    | None =>
        {| result := result st;
           fieldIdMap := fieldIdMap st ++ [(Field_ID, rowNum)] |}
    end.

Definition checkModelId (rt : Runtime) (rowNum : nat) (row : gmap string value)
    (st : ValidationState) : ValidationState :=
  let Model_ID := prop row "Model_ID" in
  if is_nullish Model_ID then
    addError ("Row " +:+ pretty rowNum +:+ ": Model_ID is missing") st
  else if isNaN rt Model_ID then
    addError ("Row " +:+ pretty rowNum +:+ ": Model_ID " +:+ dq +:+ js_String Model_ID
              +:+ dq +:+ " is not a valid number") st
  else st.

(** [!v || v.trim() === ''] for the cell [v] read by the expression [expr];
    calling [trim] on a truthy value that is not a string throws. *)
Definition missingOrEmpty (rt : Runtime) (expr : string) (v : value) : answer bool :=
  if negb (js_truthy v) then Ok true
  else match v with
       | VStr s => Ok (String.eqb (trim rt s) EmptyString)
       | _ => Fail ("TypeError: " +:+ expr +:+ ".trim is not a function")
       end.

(** [row.Field_Type?.toLowerCase() || ''] *)
Definition lowerFieldType (rt : Runtime) (v : value) : answer string :=
  if is_nullish v then Ok EmptyString
  else match v with
       | VStr s =>
           Ok (if negb (String.eqb (toLowerCase rt s) EmptyString)
               then toLowerCase rt s else EmptyString)
       | _ => Fail "TypeError: row.Field_Type?.toLowerCase is not a function"
       end.

(** [['many2one', 'many2many', 'one2many'].includes(s)] *)
Definition isFkType (s : string) : bool :=
  String.eqb "many2one" s || String.eqb "many2many" s || String.eqb "one2many" s.

Definition checkFkMetadata (rowNum : nat) (row : gmap string value)
    (st : ValidationState) : ValidationState :=
  let fkModel := getFkField row "FK location field model" in
  let fkModelId := getFkField row "FK location field model id" in
  let fkRecordId := getFkField row "FK location record Id" in
  let st :=
    if negb (js_truthy fkModel) then
      addWarning ("Row " +:+ pretty rowNum +:+ ": FK field " +:+ dq
                  +:+ js_String (prop row "Field_Name") +:+ dq
                  +:+ " missing FK location field model") st
    else st in
  let st :=
    if is_nullish fkModelId then
      addWarning ("Row " +:+ pretty rowNum +:+ ": FK field " +:+ dq
                  +:+ js_String (prop row "Field_Name") +:+ dq
                  +:+ " missing FK location field model id") st
    else st in
  if is_nullish fkRecordId then
    addWarning ("Row " +:+ pretty rowNum +:+ ": FK field " +:+ dq
                +:+ js_String (prop row "Field_Name") +:+ dq
                +:+ " missing FK location record Id") st
  else st.

(** The callback of [rows.forEach]. *)
Definition validateRow (rt : Runtime) (st : ValidationState)
    (row : gmap string value) (index : nat) : answer ValidationState :=
  let rowNum := (index + 2)%nat in
  let st := checkFieldId rt rowNum row st in
  let st := checkModelId rt rowNum row st in
  andThen (missingOrEmpty rt "row.Field_Name" (prop row "Field_Name")) (fun missing =>
  let st :=
    if missing
    then addError ("Row " +:+ pretty rowNum +:+ ": Field_Name is missing or empty") st
    else st in
  andThen (missingOrEmpty rt "row.Field_Type" (prop row "Field_Type")) (fun missing =>
  let st :=
    if missing
    then addError ("Row " +:+ pretty rowNum +:+ ": Field_Type is missing or empty") st
    else st in
  andThen (missingOrEmpty rt "row.Model_Name" (prop row "Model_Name")) (fun missing =>
  let st :=
    if missing
    then addError ("Row " +:+ pretty rowNum +:+ ": Model_Name is missing or empty") st
    else st in
  andThen (lowerFieldType rt (prop row "Field_Type")) (fun fieldType =>
  let isFkField := isFkType fieldType in
  Ok (if isFkField then checkFkMetadata rowNum row st else st))))).

(** [rows.forEach((row, index) => ...)], from [index] on. *)
Fixpoint forEach (body : ValidationState -> gmap string value -> nat -> answer ValidationState)
    (rows : list (gmap string value)) (index : nat) (st : ValidationState)
    : answer ValidationState :=
  match rows with
  | [] => Ok st
  | row :: rest => andThen (body st row index) (forEach body rest (S index))
  end.

Definition validateSimpleSchema (rt : Runtime) (rows : list (gmap string value))
    : answer ValidationResult :=
  if (length rows =? 0)%nat then
    Ok {| valid := false;
          errors := ["Schema is empty or undefined"];
          warnings := [] |}
  else
    andThen (forEach (validateRow rt) rows 0
               {| result := {| valid := true; errors := []; warnings := [] |};
                  fieldIdMap := [] |})
            (fun st => Ok (result st)).

Definition generateSemanticText (row : gmap string value) (fkUuid : option string)
    : string :=
  let text :=
    ("In model " +:+ js_String (prop row "Model_Name") +:+ ", ")
    +:+ ("Field_ID - " +:+ js_String (prop row "Field_ID") +:+ ", ")
    +:+ ("Model_ID - " +:+ js_String (prop row "Model_ID") +:+ ", ")
    +:+ ("Field_Name - " +:+ js_String (prop row "Field_Name") +:+ ", ")
    +:+ ("Field_Label - " +:+ js_String (prop row "Field_Label") +:+ ", ")
    +:+ ("Field_Type - " +:+ js_String (prop row "Field_Type") +:+ ", ")
    +:+ ("Model_Name - " +:+ js_String (prop row "Model_Name") +:+ ", ")
    +:+ ("Stored - " +:+ js_String (prop row "Stored")) in
  let fkModel := getFkField row "FK location field model" in
  let fkModelId := getFkField row "FK location field model id" in
  let fkRecordId := getFkField row "FK location record Id" in
  let text :=
    if js_truthy fkModel
    then text +:+ (", FK location field model - " +:+ js_String fkModel)
    else text in
  let text :=
    if negb (is_undefined fkModelId) && negb (is_nullish fkModelId)
    then text +:+ (", FK location field model id - " +:+ js_String fkModelId)
    else text in
  let text :=
    if negb (is_undefined fkRecordId) && negb (is_nullish fkRecordId)
    then text +:+ (", FK location record Id - " +:+ js_String fkRecordId)
    else text in
  if truthy_str fkUuid
  then text +:+ (", Qdrant ID for FK - " +:+ default EmptyString fkUuid)
  else text.

Definition generatePayloadString (row : gmap string value) (uuid : string) : string :=
  let payload :=
    ("point_id - " +:+ uuid +:+ ", ")
    +:+ "Data_type - 3, "
    +:+ ("Field_ID - " +:+ js_String (prop row "Field_ID") +:+ ", ")
    +:+ ("Model_ID - " +:+ js_String (prop row "Model_ID") +:+ ", ")
    +:+ ("Field_Name - " +:+ js_String (prop row "Field_Name") +:+ ", ")
    +:+ ("Field_Label - " +:+ js_String (prop row "Field_Label") +:+ ", ")
    +:+ ("Field_Type - " +:+ js_String (prop row "Field_Type") +:+ ", ")
    +:+ ("Model_Name - " +:+ js_String (prop row "Model_Name") +:+ ", ")
    +:+ ("Stored - " +:+ js_String (prop row "Stored")) in
  let fkModel := getFkField row "FK location field model" in
  let fkModelId := getFkField row "FK location field model id" in
  let fkRecordId := getFkField row "FK location record Id" in
  let payload :=
    if js_truthy fkModel
    then payload +:+ (", FK location field model - " +:+ js_String fkModel)
    else payload in
  let payload :=
    if negb (is_undefined fkModelId) && negb (is_nullish fkModelId)
    then payload +:+ (", FK location field model id - " +:+ js_String fkModelId)
    else payload in
  if negb (is_undefined fkRecordId) && negb (is_nullish fkRecordId)
  then payload +:+ (", FK location record Id - " +:+ js_String fkRecordId)
  else payload.

(** [row.Stored?.toLowerCase() === 'yes'] *)
Definition storedOf (rt : Runtime) (v : value) : answer bool :=
  if is_nullish v then Ok false
  else match v with
       | VStr s => Ok (String.eqb (toLowerCase rt s) "yes")
       | _ => Fail "TypeError: row.Stored?.toLowerCase is not a function"
       end.

(** The callback of [rows.map] in [convertSimpleSchemaToNexsus]. *)
Definition convertRow (rt : Runtime) (row : gmap string value) : answer NexsusSchemaRow :=
  andThen (buildSchemaUuidV2Simple rt (prop row "Field_ID") (prop row "Model_ID"))
          (fun uuid =>
  let fkModelId := getFkField row "FK location field model id" in
  let fkRecordId := getFkField row "FK location record Id" in
  andThen (if negb (is_undefined fkModelId) && negb (is_undefined fkRecordId)
           then andThen (buildSchemaFkRefUuidV2 rt fkModelId fkRecordId)
                        (fun fkUuid => Ok (Some fkUuid))
           else Ok None)
          (fun fkUuid =>
  let semanticText := generateSemanticText row fkUuid in
  let payloadString := generatePayloadString row uuid in
  andThen (storedOf rt (prop row "Stored")) (fun isStored =>
  let fkModel := getFkField row "FK location field model" in
  Ok {| qdrant_id := uuid;
        semantic_text := semanticText;
        raw_payload := payloadString;
        field_id := prop row "Field_ID";
        model_id := prop row "Model_ID";
        field_name := prop row "Field_Name";
        field_label := prop row "Field_Label";
        field_type := prop row "Field_Type";
        model_name := prop row "Model_Name";
        stored := isStored;
        fk_location_model := if js_truthy fkModel then Some fkModel else None;
        fk_location_model_id :=
          if negb (is_undefined fkModelId) then Some fkModelId else None;
        fk_location_record_id :=
          if negb (is_undefined fkRecordId) then Some fkRecordId else None;
        fk_qdrant_id := if truthy_str fkUuid then fkUuid else None |}))).

(** [rows.map(callback)]: the first throw ends the loop. *)
Fixpoint mapRows {A} (callback : gmap string value -> answer A)
    (rows : list (gmap string value)) : answer (list A) :=
  match rows with
  | [] => Ok []
  | row :: rest =>
      andThen (callback row) (fun a =>
      andThen (mapRows callback rest) (fun others => Ok (a :: others)))
  end.

Definition convertSimpleSchemaToNexsus (rt : Runtime) (rows : list (gmap string value))
    : answer (list NexsusSchemaRow) :=
  andThen (validateSimpleSchema rt rows) (fun validation =>
  if negb (valid validation) then
    Fail (crossMark +:+ " Schema validation failed:" +:+ lf
          +:+ String.concat lf (List.map (fun e => "  - " +:+ e) (errors validation)))
  else mapRows (convertRow rt) rows).

(** Notions used in the statements about the converter. *)

(** The cell passes the two checks of an id: it is neither [null] nor
    [undefined], and [isNaN] is false of it. *)
Definition isNumber (rt : Runtime) (v : value) : bool :=
  negb (is_nullish v) && negb (isNaN rt v).

(** The cell passes the check of a required string: it is a string that is
    not empty, also after [trim]. *)
Definition isFilled (rt : Runtime) (v : value) : bool :=
  match v with
  | VStr s => negb (String.eqb s EmptyString) && negb (String.eqb (trim rt s) EmptyString)
  | _ => false
  end.

(** The row passes the five checks that do not depend on the other rows. *)
Definition rowOk (rt : Runtime) (row : gmap string value) : bool :=
  isNumber rt (prop row "Field_ID") && isNumber rt (prop row "Model_ID")
  && isFilled rt (prop row "Field_Name") && isFilled rt (prop row "Field_Type")
  && isFilled rt (prop row "Model_Name").

(** No two rows carry the same [Field_ID]. *)
Definition distinctFieldIds (rows : list (gmap string value)) : Prop :=
  forall i j rowi rowj,
    (i < j)%nat -> rows !! i = Some rowi -> rows !! j = Some rowj ->
    sameValueZero (prop rowi "Field_ID") (prop rowj "Field_ID") = false.

(** Row [k] is the first row with a usable [Field_ID] equal to [key]. *)
Definition firstWithId (rt : Runtime) (rows : list (gmap string value))
    (key : value) (k : nat) : Prop :=
  (exists row, rows !! k = Some row
               /\ isNumber rt (prop row "Field_ID") = true
               /\ sameValueZero (prop row "Field_ID") key = true)
  /\ forall k' row', (k' < k)%nat -> rows !! k' = Some row' ->
                     isNumber rt (prop row' "Field_ID") = true ->
                     sameValueZero (prop row' "Field_ID") key = false.

(** The map of [validateSimpleSchema] once the rows [done] are processed:
    it sends an id to the sheet row of the first row that carries it. *)
Definition tracksFirstRows (rt : Runtime) (done : list (gmap string value))
    (m : list (value * nat)) : Prop :=
  forall key,
    match Map_find m key with
    | Some firstRow => exists k, firstRow = (k + 2)%nat /\ firstWithId rt done key k
    | None =>
        forall k row, done !! k = Some row ->
                      isNumber rt (prop row "Field_ID") = true ->
                      sameValueZero (prop row "Field_ID") key = false
    end.

(** [!fieldIdMap.has(key)] *)
Definition isFresh (m : list (value * nat)) (key : value) : bool :=
  match Map_find m key with
  | None => true
  | Some _ => false
  end.

(** From [st] to [st'] the errors have grown by [new]; the result stays as
    valid as it was exactly when [ok], which is when nothing was added. *)
Definition grows (ok : bool) (st st' : ValidationState) : Prop :=
  exists new,
    errors (result st') = errors (result st) ++ new
    /\ valid (result st') = valid (result st) && ok
    /\ (ok = true <-> new = []).

(** The state of the loop of [validateSimpleSchema] agrees with the rows
    [done] that it has processed. *)
Definition agrees (rt : Runtime) (done : list (gmap string value))
    (st : ValidationState) : Prop :=
  (valid (result st) = true <-> errors (result st) = [])
  /\ (valid (result st) = true
      <-> forallb (rowOk rt) done = true /\ distinctFieldIds done)
  /\ tracksFirstRows rt done (fieldIdMap st).

(** The message of a duplicate. *)
Definition duplicateMessage (id : value) (firstRow rowNum : nat) : string :=
  "Duplicate Field_ID " +:+ js_String id +:+ " found in rows "
  +:+ pretty firstRow +:+ " and " +:+ pretty rowNum.

(** What the text and the payload of a row have in common: the description
    of the field and its FK metadata. *)
Definition fieldDescription (row : gmap string value) : string :=
  let fkModel := getFkField row "FK location field model" in
  let fkModelId := getFkField row "FK location field model id" in
  let fkRecordId := getFkField row "FK location record Id" in
  "Field_ID - " +:+ js_String (prop row "Field_ID")
  +:+ ", Model_ID - " +:+ js_String (prop row "Model_ID")
  +:+ ", Field_Name - " +:+ js_String (prop row "Field_Name")
  +:+ ", Field_Label - " +:+ js_String (prop row "Field_Label")
  +:+ ", Field_Type - " +:+ js_String (prop row "Field_Type")
  +:+ ", Model_Name - " +:+ js_String (prop row "Model_Name")
  +:+ ", Stored - " +:+ js_String (prop row "Stored")
  +:+ (if js_truthy fkModel
       then ", FK location field model - " +:+ js_String fkModel else EmptyString)
  +:+ (if is_nullish fkModelId then EmptyString
       else ", FK location field model id - " +:+ js_String fkModelId)
  +:+ (if is_nullish fkRecordId then EmptyString
       else ", FK location record Id - " +:+ js_String fkRecordId).

(** The row is an FK field for the validator: its [Field_Type] is a string
    that [toLowerCase] sends to one of the three relational types. *)
Definition isFkRow (rt : Runtime) (row : gmap string value) : bool :=
  match prop row "Field_Type" with
  | VStr s => isFkType (toLowerCase rt s)
  | _ => false
  end.

(** The row carries its three items of FK metadata. *)
Definition fkComplete (row : gmap string value) : bool :=
  js_truthy (getFkField row "FK location field model")
  && negb (is_nullish (getFkField row "FK location field model id"))
  && negb (is_nullish (getFkField row "FK location record Id")).

(** The cell is truthy and not a string, so that calling [trim] on it
    throws. *)
Definition isTruthyNonString (v : value) : bool :=
  js_truthy v && match v with VStr _ => false | _ => true end.

(** The cell is neither null, undefined nor a string, so that calling
    [toLowerCase] on it throws. *)
Definition isDefinedNonString (v : value) : bool :=
  negb (is_nullish v) && match v with VStr _ => false | _ => true end.

(** A runtime for the sample runs: [isNaN] knows the decimal numerals,
    [trim] and [toLowerCase] know the ASCII characters, and the identifiers
    are stand-ins for those of [utils/uuid-v2]. *)
Fixpoint trimStart (s : string) : string :=
  match s with
  | String c rest => if Ascii.eqb c " " then trimStart rest else s
  | EmptyString => EmptyString
  end.

Definition asciiLower (c : ascii) : ascii :=
  let n := nat_of_ascii c in
  if ((65 <=? n) && (n <=? 90))%nat then ascii_of_nat (n + 32) else c.

Fixpoint mapString (f : ascii -> ascii) (s : string) : string :=
  match s with
  | String c rest => String (f c) (mapString f rest)
  | EmptyString => EmptyString
  end.

Definition sampleRuntime : Runtime :=
  {| isNaN := fun v =>
       match v with
       | VNum _ | VBool _ | VNull => false
       | VStr s => negb (bool_decide (is_Some (numeric_string s)))
       | _ => true
       end;
     trim := fun s => String.rev (trimStart (String.rev (trimStart s)));
     toLowerCase := mapString asciiLower;
     buildSchemaUuidV2Simple := fun fieldId modelId =>
       Ok ("00000003-" +:+ js_String modelId +:+ "-" +:+ js_String fieldId);
     buildSchemaFkRefUuidV2 := fun modelId recordId =>
       Ok ("00000002-" +:+ js_String modelId +:+ "-" +:+ js_String recordId) |}.

Definition schemaRow (fieldId modelId : Z) (name type model : string)
    : gmap string value :=
  <["Field_ID" := VNum fieldId]> (<["Model_ID" := VNum modelId]>
  (<["Field_Name" := VStr name]> (<["Field_Label" := VStr name]>
  (<["Field_Type" := VStr type]> (<["Model_Name" := VStr model]>
  (<["Stored" := VStr "Yes"]> ∅)))))).

(** A partner field with its FK metadata under column names that carry a
    leading space. *)
Definition partnerFieldRow : gmap string value :=
  <[" FK location field model" := VStr "partner"]>
  (<[" FK location field model id" := VNum 3]>
  (<[" FK location record Id" := VNum 301]>
  (schemaRow 202 2 "partner_id" "Many2one" "order"))).

(** A row that passes every check and whose [Stored] cell holds a number. *)
Definition numericStoredRow : gmap string value :=
  <["Stored" := VNum 1]> (schemaRow 203 2 "total" "float" "order").

(** A row whose [Field_ID] cell holds the numeral of 201 as text. *)
Definition numeralIdRow : gmap string value :=
  <["Field_ID" := VStr "201"]> (schemaRow 201 2 "total" "float" "order").

(** A relational field without FK metadata. *)
Definition bareFkRow : gmap string value :=
  schemaRow 204 2 "tag_ids" "many2many" "order".

(** Three rows; the third repeats the [Field_ID] of the first. *)
Definition repeatedIdRows : list (gmap string value) :=
  [schemaRow 201 2 "name" "char" "order"; partnerFieldRow;
   schemaRow 201 2 "total" "float" "order"].

End SimpleSchema.

(** * Notions used in the statements, and sample data *)

(** [runs m P Q]: from any trace, [m] does not run out of fuel, the events
    it appends all satisfy [P], and a value it returns satisfies [Q]. *)
Definition runs {A} (m : M A) (P : event -> Prop) (Q : A -> Prop) : Prop :=
  forall t,
    (m t).1 <> OutOfFuel
    /\ (exists d, (m t).2 = t ++ d /\ Forall P d)
    /\ (forall a, (m t).1 = Return a -> Q a).

(** A sample record whose FK column holds free text, and its field. *)
Definition textFkRecord : gmap string value :=
  <["id" := VNum 1]> (<["partner" := VStr "abc"]> ∅).

Definition tupleFkRecord : gmap string value :=
  <["id" := VNum 1]> (<["partner" := VArr [VNum 5; VStr "Acme"]]> ∅).

Definition partnerField : PipelineField := fkField 7 "partner" "Partner" "partner" 3.

Definition plainEnv : Env :=
  referenceEnv [] [] embedOk upsertPointsOk upsertRelOk ensureIdxOk.

(** [!!record['id']] *)
Definition hasId (record : gmap string value) : bool :=
  js_truthy (prop record "id").

(** The transformed record that one raw record with an id gives. *)
Definition transformedOf (E : Env) (modelName : string) (modelId : Z)
    (schemaFields : list PipelineField) (record : gmap string value)
    : TransformedRecord :=
  {| tr_record_id := prop record "id";
     tr_model_name := modelName;
     tr_model_id := modelId;
     tr_vector_text := generateSemanticText E record modelName schemaFields;
     tr_payload := foldl (addFkFields E record) (copyFields record) schemaFields |}.

(** Three rows: the second has no [id] column, the third an [id] of zero. *)
Definition sparseRecords : list (gmap string value) :=
  [ <["id" := VNum 4]> (<["name" := VStr "Ann"]> ∅);
    <["name" := VStr "Bob"]> ∅;
    <["id" := VNum 0]> (<["name" := VStr "Cid"]> ∅);
    <["id" := VNum 9]> (<["name" := VStr "Dee"]> ∅) ].

Definition customerSchema : list ModelDecl :=
  [ {| md_name := "customer"; md_id := 2;
       md_fields := [dataField "id" "ID"; dataField "name" "Name"] |} ].

(** The conditions that are fatal to a call. *)
Definition fatalToCall (E : Env) (modelName : string)
    (options : ExcelDataSyncOptions) : Prop :=
  modelExistsInSchema E modelName = false
  \/ truthy_num (getModelIdFromSchema E modelName) = false
  \/ existsSync E (dataFilePathOf E modelName options) = false
  \/ exists msg, readSheet E (dataFilePathOf E modelName options) = Fail msg.

(** The model is known, its id resolves and its file yields [records]. *)
Definition loads (E : Env) (modelName : string) (options : ExcelDataSyncOptions)
    (records : list (gmap string value)) : Prop :=
  modelExistsInSchema E modelName = true
  /\ truthy_num (getModelIdFromSchema E modelName) = true
  /\ existsSync E (dataFilePathOf E modelName options) = true
  /\ readSheet E (dataFilePathOf E modelName options) = Ok records.

(** Rows [1..n] of a sample sheet. *)
Definition numberedRecords (n : nat) : list (gmap string value) :=
  List.map (fun i => <["id" := VNum (Z.of_nat i)]> (<["name" := VStr "row"]> ∅))
           (seq 1 n).

Definition customerFile (n : nat) : list (string * answer (list (gmap string value))) :=
  [("samples/SAMPLE_customer_data.xlsx", Ok (numberedRecords n))].

Definition fieldlessSchema : list ModelDecl :=
  [ {| md_name := "customer"; md_id := 2; md_fields := [] |} ].

(** The FK ids that the records resolve for a field, one per record that has
    one, in record order. *)
Definition resolvedIds (E : Env) (records : list (gmap string value))
    (field : PipelineField) : list Z :=
  omap (fun record => fkId (extractFkValueBySchema E record (descriptor field))) records.

(** The edge that the updater owes to one schema field: none unless the field
    is a many2one field with a target model name and id and some record
    resolves an FK id for it. *)
Definition edgeFor (E : Env) (modelName : string) (modelId : Z)
    (records : list (gmap string value)) (field : PipelineField) : list Relationship :=
  if isGraphFkField field then
    match resolvedIds E records field with
    | [] => []
    | ids =>
        [ {| source_model := modelName;
             source_model_id := modelId;
             rel_field_id := field_id field;
             rel_field_name := field_name field;
             rel_field_label := field_label field;
             rel_field_type := field_type field;
             target_model := default EmptyString (fk_location_model field);
             target_model_id := default 0 (fk_location_model_id field);
             edge_count := Z.of_nat (length records);
             unique_targets := Z.of_nat (length (remove_dups ids));
             cascade_source := modelName |} ]
    end
  else [].

(** How many of a sequence of edge upserts the graph store accepts, when
    they are issued one after the other from trace [t]. *)
Fixpoint acceptedUpserts (E : Env) (t : trace) (rels : list Relationship) : Z :=
  match rels with
  | [] => 0
  | rel :: rest =>
      (match upsertRelationship E t rel with Ok _ => 1 | Fail _ => 0 end)
      + acceptedUpserts E (t ++ [EUpsertRelationship rel]) rest
  end.

(** The edges that a trace shows being upserted. *)
Definition upsertedEdges (t : trace) : list Relationship :=
  omap (fun e => match e with EUpsertRelationship rel => Some rel | _ => None end) t.

(** A graph store that refuses the edge of the [owner] field. *)
Definition refuseOwner : trace -> Relationship -> answer unit :=
  fun _ rel => if String.eqb (rel_field_name rel) "owner"
               then Fail "graph store unavailable" else Ok tt.

Definition ownerEnv : Env :=
  referenceEnv [] [] embedOk upsertPointsOk refuseOwner ensureIdxOk.

Definition orderRecords : list (gmap string value) :=
  [ <["id" := VNum 1]> (<["partner" := VNum 5]> (<["owner" := VNum 2]> ∅));
    <["id" := VNum 2]> (<["partner" := VNum 5]> ∅);
    <["id" := VNum 3]> (<["partner" := VArr [VNum 7; VStr "Acme"]]> ∅) ].

Definition orderFields : list PipelineField :=
  [ dataField "id" "ID";
    fkField 11 "partner" "Partner" "partner" 3;
    fkField 12 "owner" "Owner" "user" 4;
    fkField 13 "agent" "Agent" "user" 4 ].

Definition systemKeys : list string :=
  ["point_id"; "point_type"; "record_id"; "model_name"; "model_id";
   "vector_text"; "sync_timestamp"].

(** The keys that the FK loop may write for a field. *)
Definition derivedKeys (field : PipelineField) : list string :=
  [field_name field +:+ "_qdrant"; field_name field +:+ "_id"].

(** A row whose [model_name] column holds text, and one where it is null. *)
Definition collidingRecord : gmap string value :=
  <["id" := VNum 1]> (<["model_name" := VStr "legacy"]> ∅).

Definition nullCollidingRecord : gmap string value :=
  <["id" := VNum 1]> (<["model_name" := VNull]> ∅).

(** What the transformer makes of each of them. *)
Definition collidingTransformed : TransformedRecord :=
  transformedOf plainEnv "customer" 2 [dataField "name" "Name"] collidingRecord.

Definition nullCollidingTransformed : TransformedRecord :=
  transformedOf plainEnv "customer" 2 [dataField "name" "Name"] nullCollidingRecord.

(** [Math.ceil(n / EMBEDDING_BATCH_SIZE)], the number of batches. *)
Definition batchCount (n : nat) : nat :=
  ((n + (EMBEDDING_BATCH_SIZE - 1)) / EMBEDDING_BATCH_SIZE)%nat.

(** The [j]-th contiguous batch of a list, counting from zero. *)
Definition batchAt {A} (l : list A) (j : nat) : list A :=
  slice l (j * EMBEDDING_BATCH_SIZE) (j * EMBEDDING_BATCH_SIZE + EMBEDDING_BATCH_SIZE).

Definition batchesFrom {A} (l : list A) (j count : nat) : list (list A) :=
  List.map (batchAt l) (seq j count).

(** The partition of a list into contiguous batches. *)
Definition batchesOf {A} (l : list A) : list (list A) :=
  batchesFrom l 0 (batchCount (length l)).

(** What happens to each batch when they are processed one after the other
    from trace [t]: [None] for a batch that is stored, [Some msg] for a batch
    that fails with [msg]. *)
Fixpoint batchOutcomes (E : Env) (bs : list (list TransformedRecord)) (t : trace)
    : list (option string) :=
  match bs with
  | [] => []
  | b :: rest =>
      (match (processBatch E b t).1 with Throw msg => Some msg | _ => None end)
      :: batchOutcomes E rest (processBatch E b t).2
  end.

(** The trace once every batch has been processed. *)
Fixpoint batchTrace (E : Env) (bs : list (list TransformedRecord)) (t : trace) : trace :=
  match bs with
  | [] => t
  | b :: rest => batchTrace E rest (processBatch E b t).2
  end.

(** Records in stored batches, records in failed batches, and one error
    entry per failed batch, numbered from [k]. *)
Fixpoint syncedCount {A} (bs : list (list A)) (outs : list (option string)) : nat :=
  match bs, outs with
  | b :: bs', None :: outs' => (length b + syncedCount bs' outs')%nat
  | _ :: bs', Some _ :: outs' => syncedCount bs' outs'
  | _, _ => 0%nat
  end.

Fixpoint failedCount {A} (bs : list (list A)) (outs : list (option string)) : nat :=
  match bs, outs with
  | _ :: bs', None :: outs' => failedCount bs' outs'
  | b :: bs', Some _ :: outs' => (length b + failedCount bs' outs')%nat
  | _, _ => 0%nat
  end.

Fixpoint errorEntries (k : nat) (outs : list (option string)) : list string :=
  match outs with
  | [] => []
  | None :: outs' => errorEntries (S k) outs'
  | Some msg :: outs' =>
      ("Batch " +:+ pretty k +:+ " failed: " +:+ msg) :: errorEntries (S k) outs'
  end.

(** The five lookups that precede the batches of a call that loads and
    transforms records. *)
Definition preamble (E : Env) (modelName : string)
    (options : ExcelDataSyncOptions) : trace :=
  [ESyncStart modelName options; EModelExists modelName; EGetModelId modelName;
   EReadExcel (dataFilePathOf E modelName options); EGetModelFields modelName].

(** An embedding service that is down for its [k]-th call (counting from
    zero) and answers every other call. *)
Definition isEmbedCall (e : event) : bool :=
  match e with EEmbedBatch _ => true | _ => false end.

Definition embedFailsOnCall (k : nat) : trace -> list string -> answer (list embedding) :=
  fun t texts =>
    if (length (List.filter isEmbedCall t) =? k)%nat
    then Fail "embedding service unavailable"
    else embedOk t texts.

(** 120 customer rows, and an embedding service that fails for batch 2 only. *)
Definition batch2Env : Env :=
  referenceEnv customerSchema (customerFile 120)
               (embedFailsOnCall 1) upsertPointsOk upsertRelOk ensureIdxOk.

Definition batch2Transformed : list TransformedRecord :=
  List.map (transformedOf batch2Env "customer" 2
              [dataField "id" "ID"; dataField "name" "Name"])
           (List.filter hasId (numberedRecords 120)).

(** The options of every nested call of the cascade. *)
Definition cascadeOptions (options : ExcelDataSyncOptions) : ExcelDataSyncOptions :=
  {| filePath := None; skipCascade := true;
     dryRun := dryRun options; force := force options |}.

(** Events other than the entry of a sync call and the lookup of a model's
    FK fields, which is how FK targets start being computed. *)
Definition leafEvent (e : event) : Prop :=
  match e with
  | ESyncStart _ _ | EGetFkFields _ => False
  | _ => True
  end.

(** [target] is the target model of one of the FK fields that the schema
    declares for [modelName]. *)
Definition fkTargetOf (E : Env) (modelName target : string) : Prop :=
  exists f, f ∈ default [] (getFkFieldsFromSchema E modelName)
            /\ fk_location_model f = Some target.

(** What a call for [modelName] may do after its own entry: leaf work, and,
    if its cascade is enabled, the lookup of its own FK fields and the entry
    of cascade-disabled calls for its FK targets. *)
Definition rootEvent (E : Env) (modelName : string)
    (options : ExcelDataSyncOptions) (e : event) : Prop :=
  leafEvent e
  \/ (skipCascade options = false
      /\ (e = EGetFkFields modelName
          \/ exists target, fkTargetOf E modelName target
                            /\ e = ESyncStart target (cascadeOptions options))).

(** The sync entries of a trace, each with its [skipCascade] flag. *)
Definition syncStarts (t : trace) : list (string * bool) :=
  omap (fun e => match e with
                 | ESyncStart model o => Some (model, skipCascade o)
                 | _ => None
                 end) t.

(** Three models in a chain: A refers to B, B refers to C. *)
Definition chainSchema : list ModelDecl :=
  [ {| md_name := "A"; md_id := 1;
       md_fields := [dataField "id" "ID"; fkField 11 "b_id" "B" "B" 2] |};
    {| md_name := "B"; md_id := 2;
       md_fields := [dataField "id" "ID"; fkField 21 "c_id" "C" "C" 3] |};
    {| md_name := "C"; md_id := 3;
       md_fields := [dataField "id" "ID"; dataField "name" "Name"] |} ].

Definition chainFiles : list (string * answer (list (gmap string value))) :=
  [ ("samples/SAMPLE_A_data.xlsx",
     Ok [ <["id" := VNum 1]> (<["b_id" := VNum 10]> ∅) ]);
    ("samples/SAMPLE_B_data.xlsx",
     Ok [ <["id" := VNum 10]> (<["c_id" := VNum 20]> ∅) ]);
    ("samples/SAMPLE_C_data.xlsx",
     Ok [ <["id" := VNum 20]> (<["name" := VStr "leaf"]> ∅) ]) ].

Definition chainEnv : Env :=
  referenceEnv chainSchema chainFiles embedOk upsertPointsOk upsertRelOk ensureIdxOk.

(** Orders refer to a partner, to a user the schema does not know, and to an
    agent whose model has no fields; the graph store refuses the edge of the
    [owner] field. *)
Definition advisorySchema : list ModelDecl :=
  [ {| md_name := "order"; md_id := 9;
       md_fields := [ dataField "id" "ID";
                      fkField 11 "partner" "Partner" "partner" 3;
                      fkField 12 "owner" "Owner" "user" 4;
                      fkField 13 "agent" "Agent" "agent" 5 ] |};
    {| md_name := "partner"; md_id := 3;
       md_fields := [dataField "id" "ID"; dataField "name" "Name"] |};
    {| md_name := "agent"; md_id := 5; md_fields := [] |} ].

Definition advisoryFiles : list (string * answer (list (gmap string value))) :=
  [ ("samples/SAMPLE_order_data.xlsx",
     Ok [ <["id" := VNum 1]>
            (<["partner" := VNum 5]> (<["owner" := VNum 2]> (<["agent" := VNum 8]> ∅)));
          <["id" := VNum 2]> (<["partner" := VNum 6]> ∅) ]);
    ("samples/SAMPLE_partner_data.xlsx",
     Ok [ <["id" := VNum 5]> (<["name" := VStr "Acme"]> ∅);
          <["id" := VNum 6]> (<["name" := VStr "Bolt"]> ∅) ]);
    ("samples/SAMPLE_agent_data.xlsx",
     Ok [ <["id" := VNum 8]> ∅ ]) ].

Definition advisoryEnv : Env :=
  referenceEnv advisorySchema advisoryFiles embedOk upsertPointsOk refuseOwner ensureIdxOk.

(** The same data with an index service that throws. *)
Definition indexDownEnv : Env :=
  referenceEnv advisorySchema advisoryFiles embedOk upsertPointsOk upsertRelOk
               (fun _ _ _ => Fail "index service unavailable").

(** The FK field refers to [target], by a model name that is not empty. *)
Definition refersTo (target : string) (f : PipelineField) : bool :=
  match fk_location_model f with
  | Some s => String.eqb s target && negb (String.eqb s EmptyString)
  | None => false
  end.

(** The ids that the records resolve through the FK fields that refer to
    [target]. *)
Definition fkIdsFor (E : Env) (records : list (gmap string value))
    (fkFields : list PipelineField) (target : string) : gset Z :=
  list_to_set
    (concat (List.map (resolvedIds E records) (List.filter (refersTo target) fkFields))).

(** What a map built by [extractFkTargets] holds for [target]. *)
Definition targetEntry (E : Env) (records : list (gmap string value))
    (fkFields : list PipelineField) (target : string) : option (gset Z) :=
  if decide (fkIdsFor E records fkFields target = ∅) then None
  else Some (fkIdsFor E records fkFields target).

(** A B row without a [c_id]: nothing resolves, whatever the schema says. *)
Definition unlinkedRows : list (gmap string value) :=
  [ <["id" := VNum 10]> (<["name" := VStr "b"]> ∅) ].

(** The texts of the embedding calls of a trace, call by call. *)
Definition embedCalls (t : trace) : list (list string) :=
  omap (fun e => match e with EEmbedBatch texts => Some texts | _ => None end) t.

(** The point lists of the store writes of a trace, call by call. *)
Definition upsertCalls (t : trace) : list (list PipelineDataPoint) :=
  omap (fun e => match e with EUpsertPoints points => Some points | _ => None end) t.

(** An order that refers to partner 5 and the partner row it refers to. *)
Definition linkedOrder : gmap string value :=
  <["id" := VNum 1]> (<["partner" := VNum 5]> ∅).

Definition partnerRow : gmap string value :=
  <["id" := VNum 5]> (<["name" := VStr "Acme"]> ∅).

(** The edges that the call owes to its schema fields, in schema order. *)
Definition graphEdges (E : Env) (modelName : string)
    (records : list (gmap string value)) (fields : list PipelineField)
    : list Relationship :=
  concat (List.map (edgeFor E modelName (default 0 (getModelIdFromSchema E modelName))
                            records) fields).

(** The records that reach the batches. *)
Definition transformedRecords (E : Env) (modelName : string)
    (records : list (gmap string value)) (fields : list PipelineField)
    : list TransformedRecord :=
  List.map (transformedOf E modelName (default 0 (getModelIdFromSchema E modelName)) fields)
           (List.filter hasId records).

(** The trace of a call once it has loaded and transformed its records,
    processed its batches, looked up the schema fields again and upserted its
    edges. *)
Definition writtenTrace (E : Env) (modelName : string) (options : ExcelDataSyncOptions)
    (records : list (gmap string value)) (fields : list PipelineField) (t : trace)
    : trace :=
  batchTrace E (batchesOf (transformedRecords E modelName records fields))
             (t ++ preamble E modelName options)
  ++ EGetModelFields modelName
     :: List.map EUpsertRelationship (graphEdges E modelName records fields).

(** The result that the main path returns. *)
Definition mainResult (E : Env) (modelName : string) (options : ExcelDataSyncOptions)
    (records : list (gmap string value)) (fields : list PipelineField) (t : trace)
    (cascadedModels : list CascadedModel) (now : Z) : ExcelDataSyncResult :=
  let bs := batchesOf (transformedRecords E modelName records fields) in
  let outs := batchOutcomes E bs (t ++ preamble E modelName options) in
  {| success := (length (errorEntries 1 outs) =? 0)%nat;
     model_name := modelName;
     model_id := default 0 (getModelIdFromSchema E modelName);
     file_path := dataFilePathOf E modelName options;
     records_read := Z.of_nat (length records);
     records_synced := Z.of_nat (syncedCount bs outs);
     records_failed := Z.of_nat (failedCount bs outs);
     duration_ms := now - dateNow E (t ++ [ESyncStart modelName options]);
     errors := errorEntries 1 outs;
     cascaded_models :=
       if (0 <? length cascadedModels)%nat then Some cascadedModels else None |}.

(** A sheet with rows that have no usable [id]. *)
Definition sparseEnv : Env :=
  referenceEnv customerSchema [("samples/SAMPLE_customer_data.xlsx", Ok sparseRecords)]
               embedOk upsertPointsOk upsertRelOk ensureIdxOk.

(** A model whose schema has no fields and whose sheet has no rows. *)
Definition emptySheetEnv : Env :=
  referenceEnv fieldlessSchema (customerFile 0) embedOk upsertPointsOk upsertRelOk
               ensureIdxOk.

(** Events of the batch loop. *)
Definition isBatchEvent (e : event) : bool :=
  match e with
  | EEmbedBatch _ | EUpsertPoints _ => true
  | _ => false
  end.

(** The keys of the map that [extractFkTargets] builds. *)
Definition fkTargetNames (E : Env) (modelName : string)
    (records : list (gmap string value)) : list string :=
  List.map fst (foldl (extractFkTargetsField E records) []
                      (default [] (getFkFieldsFromSchema E modelName))).

(** The models of a directory listing, in listing order. *)
Definition dataFileModels (files : list string) : list string :=
  omap captureModelName files.

(** A data directory over the advisory data: the directory exists, and its
    listing holds a file that is no data file, a data file without a model
    name and the data file of a model that the schema does not know. *)
Definition directoryEnv : Env :=
  referenceEnv advisorySchema (("samples", Fail "EISDIR") :: advisoryFiles)
               embedOk upsertPointsOk upsertRelOk ensureIdxOk.

Definition sampleListing (dir : string) : answer (list string) :=
  if String.eqb dir "samples"
  then Ok ["notes.txt"; "SAMPLE_partner_data.xlsx"; "SAMPLE__data.xlsx";
           "SAMPLE_user_data.xlsx"; "SAMPLE_order_data.xlsx"]
  else Fail "ENOENT".

(** The same directory with the data file of a model without schema fields
    listed second. *)
Definition agentListing (dir : string) : answer (list string) :=
  if String.eqb dir "samples"
  then Ok ["SAMPLE_partner_data.xlsx"; "SAMPLE_agent_data.xlsx";
           "SAMPLE_order_data.xlsx"]
  else Fail "ENOENT".

Definition strayListing (dir : string) : answer (list string) :=
  Ok ["notes.txt"; "SAMPLE__data.xlsx"; "sample_order_data.xlsx";
      "SAMPLE_order_data.xlsx.bak"].

(** The events of a call that only reads: the entry of a sync, the two model
    lookups and the file read. *)
Definition isReadOnlyEvent (e : event) : bool :=
  match e with
  | ESyncStart _ _ | EModelExists _ | EGetModelId _ | EReadExcel _ => true
  | _ => false
  end.

Definition dryRunOptions : ExcelDataSyncOptions :=
  {| filePath := None; skipCascade := false; dryRun := true; force := false |}.

(** * Properties *)

(** ** Laws of the effect layer *)

Lemma bind_ret {A B} (a : A) (k : A -> M B) t : bind (ret a) k t = k a t.
Proof. reflexivity. Qed.

Lemma bind_observe {A B} (f : trace -> A) (k : A -> M B) t :
  bind (observe f) k t = k (f t) t.
Proof. reflexivity. Qed.

Lemma bind_call {A B} e (ans : trace -> answer A) (k : A -> M B) t :
  bind (call e ans) k t =
    match ans t with
    | Ok a => k a (t ++ [e])
    | Fail msg => (Throw msg, t ++ [e])
    end.
Proof. unfold bind, call. destruct (ans t); reflexivity. Qed.

Lemma bind_call_ok {A B} e (a : A) (k : A -> M B) t :
  bind (call e (fun _ => Ok a)) k t = k a (t ++ [e]).
Proof. reflexivity. Qed.

Lemma bind_throw {A B} msg (k : A -> M B) t : bind (throw msg) k t = (Throw msg, t).
Proof. reflexivity. Qed.

Lemma bind_assoc {A B C} (m : M A) (k : A -> M B) (h : B -> M C) t :
  bind (bind m k) h t = bind m (fun a => bind (k a) h) t.
Proof. unfold bind. destruct (m t) as [[a|msg|] t']; reflexivity. Qed.

(** Decide the [if negb b] tests whose [b] is known. *)
Ltac step_if :=
  try change (negb true) with false;
  try change (negb false) with true;
  cbv iota.

Lemma runs_ret {A} (a : A) P (Q : A -> Prop) : Q a -> runs (ret a) P Q.
Proof.
  intros Ha t. split; [discriminate|]. split.
  - exists []. rewrite app_nil_r. auto.
  - intros a' [= <-]. exact Ha.
Qed.

Lemma runs_throw {A} msg P (Q : A -> Prop) : runs (throw msg) P Q.
Proof.
  intros t. split; [discriminate|]. split.
  - exists []. rewrite app_nil_r. auto.
  - discriminate.
Qed.

Lemma runs_observe {A} (f : trace -> A) P (Q : A -> Prop) :
  (forall t, Q (f t)) -> runs (observe f) P Q.
Proof.
  intros Hf t. split; [discriminate|]. split.
  - exists []. rewrite app_nil_r. auto.
  - intros a [= <-]. apply Hf.
Qed.

Lemma runs_call {A} e (ans : trace -> answer A) (P : event -> Prop) (Q : A -> Prop) :
  P e -> (forall t a, ans t = Ok a -> Q a) -> runs (call e ans) P Q.
Proof.
  intros He Hans t. unfold call.
  destruct (ans t) as [a|msg] eqn:Ha; (split; [discriminate|]); split.
  - exists [e]. auto.
  - intros a' [= <-]. eapply Hans, Ha.
  - exists [e]. auto.
  - discriminate.
Qed.

Lemma runs_bind {A B} (m : M A) (k : A -> M B) P (Q : A -> Prop) (R : B -> Prop) :
  runs m P Q -> (forall a, Q a -> runs (k a) P R) -> runs (bind m k) P R.
Proof.
  intros Hm Hk t. unfold bind.
  destruct (Hm t) as (Hne & (d & Hd & HP) & HQ).
  destruct (m t) as [[a|msg|] t1]; simpl in *; subst t1.
  - destruct (Hk a (HQ a eq_refl) (t ++ d)) as (Hne' & (d' & Hd' & HP') & HR).
    split; [exact Hne'|]. split; [|exact HR].
    exists (d ++ d'). rewrite Hd', app_assoc. split; [reflexivity|].
    apply Forall_app; auto.
  - split; [discriminate|]. split; [eauto|discriminate].
  - congruence.
Qed.

Lemma runs_try {A} (m : M A) (h : string -> M A) P (Q : A -> Prop) :
  runs m P Q -> (forall msg, runs (h msg) P Q) -> runs (try_catch m h) P Q.
Proof.
  intros Hm Hh t. unfold try_catch.
  destruct (Hm t) as (Hne & (d & Hd & HP) & HQ).
  destruct (m t) as [[a|msg|] t1]; simpl in *; subst t1.
  - split; [discriminate|]. split; [eauto|]. intros a' [= <-]. auto.
  - destruct (Hh msg (t ++ d)) as (Hne' & (d' & Hd' & HP') & HR).
    split; [exact Hne'|]. split; [|exact HR].
    exists (d ++ d'). rewrite Hd', app_assoc. split; [reflexivity|].
    apply Forall_app; auto.
  - congruence.
Qed.

Lemma runs_forOf {A B} (body : A -> B -> M A) (items : list B) P (I : A -> Prop) :
  (forall acc x, x ∈ items -> I acc -> runs (body acc x) P I) ->
  forall acc, I acc -> runs (forOf body acc items) P I.
Proof.
  induction items as [|x rest IH]; intros Hb acc Hacc; simpl.
  - apply runs_ret. exact Hacc.
  - eapply runs_bind.
    + apply Hb; [left | exact Hacc].
    + intros a Ha. apply IH; [|exact Ha].
      intros acc' y Hy. apply Hb. right. exact Hy.
Qed.

Lemma runs_if {A} (c : bool) (m1 m2 : M A) P Q :
  runs m1 P Q -> runs m2 P Q -> runs (if c then m1 else m2) P Q.
Proof. destruct c; auto. Qed.

(** The events of a computation that is entered from a trace ending in [e]. *)
Lemma runs_after {A} (m : M A) P Q t e :
  runs m P Q ->
  (m (t ++ [e])).1 <> OutOfFuel
  /\ (exists d, (m (t ++ [e])).2 = t ++ e :: d /\ Forall P d)
  /\ (forall a, (m (t ++ [e])).1 = Return a -> Q a).
Proof.
  intros Hm. destruct (Hm (t ++ [e])) as (Hne & (d & Hd & HP) & HQ).
  split; [exact Hne|]. split; [|exact HQ].
  exists d. rewrite Hd, <- app_assoc. auto.
Qed.

(** ** Semantic text *)

Lemma semanticTextField_app E record parts field :
  semanticTextField E record parts field =
    parts ++ semanticTextField E record [] field.
Proof.
  unfold semanticTextField.
  destruct (String.eqb (field_name field) "id"); [by rewrite app_nil_r|].
  destruct (is_blank (prop record (field_name field))); [by rewrite app_nil_r|].
  reflexivity.
Qed.

Lemma foldl_semanticTextField E record fields : forall parts,
  foldl (semanticTextField E record) parts fields =
    parts ++ concat (List.map (semanticTextField E record []) fields).
Proof.
  induction fields as [|f fs IH]; intros parts; simpl.
  - by rewrite app_nil_r.
  - rewrite IH, semanticTextField_app, <- app_assoc. reflexivity.
Qed.

(** C6, as amended.  The text is the model name, the record id and then one
    segment per schema field, in schema order.  For a many2one field (not
    named [id]) whose value is neither null, undefined nor empty, the segment
    is the field's label followed by: the display label and [(id: n)] when
    the FK id and a display label resolve; [id: n] when only the FK id
    resolves; and the plain [String(value)] when no FK id resolves. *)
Theorem C6_semantic_text_segments E record modelName fields field
    (Htype : field_type field = "many2one")
    (Hname : field_name field <> "id")
    (Hvalue : is_blank (prop record (field_name field)) = false) :
  generateSemanticText E record modelName fields =
    String.concat ", "
      (["In model " +:+ modelName; "record " +:+ js_String (prop record "id")]
       ++ concat (List.map (semanticTextField E record []) fields))
  /\ (forall n label,
        fkId (extractFkValueBySchema E record (descriptor field)) = Some n ->
        displayName (extractFkValueBySchema E record (descriptor field)) = Some label ->
        label <> EmptyString ->
        semanticTextField E record [] field =
          [labelOf field +:+ " - " +:+ label +:+ " (id: " +:+ pretty n +:+ ")"])
  /\ (forall n,
        fkId (extractFkValueBySchema E record (descriptor field)) = Some n ->
        truthy_str (displayName (extractFkValueBySchema E record (descriptor field))) = false ->
        semanticTextField E record [] field =
          [labelOf field +:+ " - id: " +:+ pretty n])
  /\ (fkId (extractFkValueBySchema E record (descriptor field)) = None ->
        semanticTextField E record [] field =
          [labelOf field +:+ " - " +:+ js_String (prop record (field_name field))]).
Proof.
  split.
  - unfold generateSemanticText. rewrite foldl_semanticTextField. reflexivity.
  - assert (Hid : String.eqb (field_name field) "id" = false)
      by (apply String.eqb_neq; exact Hname).
    unfold semanticTextField. rewrite Hid, Hvalue, Htype. simpl.
    repeat split.
    + intros n label Hn Hl Hne. rewrite Hn, Hl. simpl.
      apply String.eqb_neq in Hne. rewrite Hne. reflexivity.
    + intros n Hn Hl. rewrite Hn, Hl. reflexivity.
    + intros Hn. rewrite Hn. reflexivity.
Qed.

Lemma C6_semantic_text_segments_witness :
  generateSemanticText plainEnv tupleFkRecord "customer" [dataField "name" "Name"; partnerField]
    = "In model customer, record 1, Partner - Acme (id: 5)"
  /\ semanticTextField plainEnv tupleFkRecord [] partnerField = ["Partner - Acme (id: 5)"]
  /\ semanticTextField plainEnv textFkRecord [] partnerField = ["Partner - abc"].
Proof.
  assert (Hne : field_name partnerField <> "id") by discriminate.
  split; [|split].
  - destruct (C6_semantic_text_segments plainEnv tupleFkRecord "customer"
                [dataField "name" "Name"; partnerField] partnerField
                eq_refl Hne eq_refl) as [H _].
    rewrite H. vm_compute. reflexivity.
  - destruct (C6_semantic_text_segments plainEnv tupleFkRecord "customer"
                [] partnerField eq_refl Hne eq_refl) as (_ & H & _).
    rewrite (H 5 "Acme" eq_refl eq_refl) by discriminate. vm_compute. reflexivity.
  - destruct (C6_semantic_text_segments plainEnv textFkRecord "customer"
                [] partnerField eq_refl Hne eq_refl) as (_ & _ & _ & H).
    rewrite (H eq_refl). vm_compute. reflexivity.
Defined.

(** C6 as first stated fails: a many2one field holding the text [abc] has a
    value that is neither null, undefined nor empty, yet no FK id resolves
    and the text carries the raw value; it contains no [id: ] at all, so the
    segment is neither of the two promised forms. *)
Lemma C6_counterexample :
  field_type partnerField = "many2one"
  /\ is_blank (prop textFkRecord (field_name partnerField)) = false
  /\ generateSemanticText plainEnv textFkRecord "customer" [partnerField]
       = "In model customer, record 1, Partner - abc"
  /\ forall pre post : string,
       generateSemanticText plainEnv textFkRecord "customer" [partnerField]
         <> pre +:+ "id: " +:+ post.
Proof.
  split; [reflexivity|]. split; [reflexivity|].
  assert (Htext : generateSemanticText plainEnv textFkRecord "customer" [partnerField]
                  = "In model customer, record 1, Partner - abc")
    by (vm_compute; reflexivity).
  split; [exact Htext|].
  intros pre post. rewrite Htext. clear Htext.
  repeat (destruct pre as [|? pre]; simpl;
          [discriminate | let H := fresh in intros H; injection H as _ H; revert H]).
  destruct pre; discriminate.
Qed.

(** ** Record transformer *)

Lemma foldl_transformRecord E modelName modelId schemaFields records :
  forall transformed,
    foldl (transformRecord E modelName modelId schemaFields) transformed records =
      transformed ++
      List.map (transformedOf E modelName modelId schemaFields)
               (List.filter hasId records).
Proof.
  induction records as [|r rs IH]; intros transformed; simpl.
  - by rewrite app_nil_r.
  - rewrite IH. unfold transformRecord, hasId.
    destruct (js_truthy (prop r "id")); simpl.
    + rewrite <- app_assoc. reflexivity.
    + reflexivity.
Qed.

Lemma transformRecords_throws E records modelName modelId t :
  getModelFieldsFromSchema E modelName = None \/
  getModelFieldsFromSchema E modelName = Some [] ->
  transformRecords E records modelName modelId t =
    (Throw ("No schema fields found for model: " +:+ modelName),
     t ++ [EGetModelFields modelName]).
Proof.
  intros H. unfold transformRecords. rewrite bind_call.
  destruct H as [-> | ->]; reflexivity.
Qed.

Lemma transformRecords_returns E records modelName modelId t fields :
  getModelFieldsFromSchema E modelName = Some fields -> fields <> [] ->
  transformRecords E records modelName modelId t =
    (Return (List.map (transformedOf E modelName modelId fields)
                      (List.filter hasId records)),
     t ++ [EGetModelFields modelName]).
Proof.
  intros H Hne. unfold transformRecords. rewrite bind_call, H.
  destruct fields as [|f fs]; [congruence|].
  unfold ret. rewrite foldl_transformRecord. reflexivity.
Qed.

(** C7.  [transformRecords] throws exactly when the schema has no field list
    for the model or an empty one.  With a non-empty list it returns, from any
    records, one transformed record for each record that has a truthy [id],
    in input order; records without one are left out and nothing else
    happens for them. *)
Theorem C7_transform_skips_and_order E records modelName modelId t :
  ((exists msg, (transformRecords E records modelName modelId t).1 = Throw msg)
    <-> (getModelFieldsFromSchema E modelName = None \/
         getModelFieldsFromSchema E modelName = Some []))
  /\ (forall fields,
        getModelFieldsFromSchema E modelName = Some fields -> fields <> [] ->
        transformRecords E records modelName modelId t =
          (Return (List.map (transformedOf E modelName modelId fields)
                            (List.filter hasId records)),
           t ++ [EGetModelFields modelName])
        /\ List.map tr_record_id
             (List.map (transformedOf E modelName modelId fields)
                       (List.filter hasId records))
           = List.filter js_truthy (List.map (fun r => prop r "id") records)).
Proof.
  split.
  - split.
    + intros [msg Hmsg].
      destruct (getModelFieldsFromSchema E modelName) as [[|f fs]|] eqn:Hf; auto.
      rewrite (transformRecords_returns E records modelName modelId t (f :: fs))
        in Hmsg by (auto; discriminate).
      discriminate.
    + intros H. rewrite transformRecords_throws by exact H. eauto.
  - intros fields Hf Hne. split.
    + apply transformRecords_returns; assumption.
    + clear. induction records as [|r rs IH]; simpl; [reflexivity|].
      unfold hasId at 1. destruct (js_truthy (prop r "id")); simpl.
      * f_equal. exact IH.
      * exact IH.
Qed.

Lemma C7_transform_skips_and_order_witness :
  exists out,
    transformRecords
      (referenceEnv customerSchema [] embedOk upsertPointsOk upsertRelOk ensureIdxOk)
      sparseRecords "customer" 2 [] = (Return out, [EGetModelFields "customer"])
    /\ List.map tr_record_id out = [VNum 4; VNum 9]
    /\ List.map tr_vector_text out =
         ["In model customer, record 4, Name - Ann";
          "In model customer, record 9, Name - Dee"].
Proof.
  destruct (C7_transform_skips_and_order
              (referenceEnv customerSchema [] embedOk upsertPointsOk upsertRelOk ensureIdxOk)
              sparseRecords "customer" 2 []) as [_ H].
  destruct (H [dataField "id" "ID"; dataField "name" "Name"] eq_refl) as [Hrun Hids];
    [discriminate|].
  eexists. split; [exact Hrun|]. split.
  - rewrite Hids. reflexivity.
  - vm_compute. reflexivity.
Defined.

(** ** Early exits of [syncExcelData] *)

Lemma syncExcelData_unfold E fuel modelName options :
  syncExcelData E (S fuel) modelName options =
    syncExcelData_body E (syncExcelData E fuel) modelName options.
Proof. reflexivity. Qed.

(** The part of the body that is common to every call that loads records:
    what remains to run once the records are in hand. *)
Lemma syncExcelData_body_loads E self modelName options records t :
  loads E modelName options records ->
  syncExcelData_body E self modelName options t =
    (let startTime := dateNow E (t ++ [ESyncStart modelName options]) in
     let dataFilePath := dataFilePathOf E modelName options in
     let modelId := default 0 (getModelIdFromSchema E modelName) in
     match Ok records with
     | Fail errorMsg =>
         earlyResult E startTime false modelName modelId dataFilePath 0 [errorMsg]
     | Ok records =>
       if (length records =? 0)%nat then
         earlyResult E startTime true modelName modelId dataFilePath 0 []
       else if dryRun options then
         earlyResult E startTime true modelName modelId dataFilePath
           (Z.of_nat (length records)) []
       else
       bind (transformRecords E records modelName modelId) (fun transformed =>
       bind (runBatches E transformed) (fun totals =>
       bind (call (EGetModelFields modelName)
                  (fun _ => Ok (getModelFieldsFromSchema E modelName))) (fun schemaFields =>
       bind (match schemaFields with
             | None | Some [] => ret tt
             | Some schemaFields =>
                 bind (updateKnowledgeGraph E modelName modelId records schemaFields) (fun _ =>
                 bind (call (EEnsureIndexes modelName schemaFields)
                            (fun t => ensureModelIndexes E t modelName schemaFields)) (fun _ =>
                 ret tt))
             end) (fun _ =>
       bind (cascadeOf self E modelName options records) (fun cascadedModels =>
       bind (observe (dateNow E)) (fun now =>
       ret {| success := (length (batchErrors totals) =? 0)%nat;
              model_name := modelName;
              model_id := modelId;
              file_path := dataFilePath;
              records_read := Z.of_nat (length records);
              records_synced := recordsSynced totals;
              records_failed := recordsFailed totals;
              duration_ms := now - startTime;
              errors := batchErrors totals;
              cascaded_models :=
                if (0 <? length cascadedModels)%nat
                then Some cascadedModels else None |}))))))
     end)
      (t ++ [ESyncStart modelName options; EModelExists modelName;
             EGetModelId modelName;
             EReadExcel (dataFilePathOf E modelName options)]).
Proof.
  intros (Hex & Hid & Hfile & Hread).
  unfold syncExcelData_body.
  rewrite bind_call_ok, bind_observe, bind_call_ok, Hex. step_if.
  rewrite bind_call_ok, Hid. step_if.
  unfold try_catch, readExcelData.
  unfold bind at 1. unfold bind at 1. unfold call at 1.
  rewrite Hfile, Hread. unfold ret at 1.
  rewrite <- !app_assoc. reflexivity.
Qed.

(** The three fatal exits of the body, for any [self]. *)
Lemma syncExcelData_body_fatal E self modelName options t :
  fatalToCall E modelName options ->
  exists r d,
    syncExcelData_body E self modelName options t =
      (Return r, t ++ ESyncStart modelName options :: d)
    /\ success r = false
    /\ length (errors r) = 1%nat
    /\ records_read r = 0 /\ records_synced r = 0 /\ records_failed r = 0
    /\ cascaded_models r = None
    /\ d `prefix_of` [EModelExists modelName; EGetModelId modelName;
                      EReadExcel (dataFilePathOf E modelName options)].
Proof.
  intros Hfatal. unfold syncExcelData_body.
  rewrite bind_call_ok, bind_observe, bind_call_ok.
  destruct (modelExistsInSchema E modelName) eqn:Hex; step_if.
  2:{ eexists _, [EModelExists modelName].
      unfold earlyResult. rewrite bind_observe. unfold ret.
      rewrite <- app_assoc. simpl.
      repeat split; try reflexivity. by eexists. }
  rewrite bind_call_ok.
  destruct (truthy_num (getModelIdFromSchema E modelName)) eqn:Hid; step_if.
  2:{ eexists _, [EModelExists modelName; EGetModelId modelName].
      unfold earlyResult. rewrite bind_observe. unfold ret.
      rewrite <- !app_assoc. simpl.
      repeat split; try reflexivity. by eexists. }
  assert (Hbad : existsSync E (dataFilePathOf E modelName options) = false
                 \/ exists msg, readSheet E (dataFilePathOf E modelName options) = Fail msg).
  { destruct Hfatal as [H|[H|H]]; [congruence|congruence|exact H]. }
  unfold try_catch, readExcelData.
  unfold bind at 1. unfold bind at 1. unfold call at 1.
  assert (Hans : exists msg,
             (if existsSync E (dataFilePathOf E modelName options)
              then readSheet E (dataFilePathOf E modelName options)
              else Fail ("Data file not found: " +:+ dataFilePathOf E modelName options))
             = Fail msg).
  { destruct Hbad as [-> | [msg Hmsg]]; [eauto|].
    destruct (existsSync E (dataFilePathOf E modelName options)); eauto. }
  destruct Hans as [msg ->].
  eexists _, [EModelExists modelName; EGetModelId modelName;
              EReadExcel (dataFilePathOf E modelName options)].
  unfold ret at 1, earlyResult. rewrite bind_observe. unfold ret.
  rewrite <- !app_assoc. simpl.
  repeat split; try reflexivity.
Qed.

(** C4.  When the model is unknown, or its id does not resolve, or the data
    file is missing or unreadable, the call returns at once a failed result
    with exactly one error and no progress; besides the entry of the call
    itself, the only services reached are the schema and file lookups that
    precede the failure, so no transform, embedding, store, graph, index or
    cascade operation has taken place. *)
Theorem C4_fatal_to_call E fuel modelName options t
    (Hfatal : fatalToCall E modelName options) :
  exists r d,
    syncExcelData E (S fuel) modelName options t =
      (Return r, t ++ ESyncStart modelName options :: d)
    /\ success r = false
    /\ length (errors r) = 1%nat
    /\ records_read r = 0 /\ records_synced r = 0 /\ records_failed r = 0
    /\ d `prefix_of` [EModelExists modelName; EGetModelId modelName;
                      EReadExcel (dataFilePathOf E modelName options)].
Proof.
  rewrite syncExcelData_unfold.
  destruct (syncExcelData_body_fatal E (syncExcelData E fuel) modelName options t Hfatal)
    as (r & d & Hrun & Hok & Hlen & Hread & Hsynced & Hfailed & _ & Hprefix).
  exists r, d. auto 10.
Qed.

Lemma C4_fatal_to_call_witness :
  exists r d,
    syncExcelData plainEnv 1 "ghost" defaultOptions [] =
      (Return r, [] ++ ESyncStart "ghost" defaultOptions :: d)
    /\ success r = false
    /\ length (errors r) = 1%nat
    /\ records_read r = 0 /\ records_synced r = 0 /\ records_failed r = 0
    /\ d `prefix_of` [EModelExists "ghost"; EGetModelId "ghost";
                      EReadExcel (dataFilePathOf plainEnv "ghost" defaultOptions)].
Proof.
  apply (C4_fatal_to_call plainEnv 0 "ghost" defaultOptions []).
  left. reflexivity.
Defined.

(** C8.  A dry run that loads at least one record returns success with the
    number of records read, nothing synced or failed and no errors; the
    services reached are the entry of the call, the two schema lookups and
    the file read, and nothing after them. *)
Theorem C8_dry_run E fuel modelName options records t
    (Hloads : loads E modelName options records)
    (Hrecords : records <> [])
    (Hdry : dryRun options = true) :
  exists r,
    syncExcelData E (S fuel) modelName options t =
      (Return r,
       t ++ [ESyncStart modelName options; EModelExists modelName;
             EGetModelId modelName;
             EReadExcel (dataFilePathOf E modelName options)])
    /\ success r = true
    /\ records_read r = Z.of_nat (length records)
    /\ records_synced r = 0 /\ records_failed r = 0
    /\ errors r = [].
Proof.
  rewrite syncExcelData_unfold.
  rewrite (syncExcelData_body_loads E _ modelName options records t Hloads).
  cbv zeta iota.
  destruct records as [|r0 rs]; [congruence|].
  change (length (r0 :: rs) =? 0)%nat with false. cbv iota.
  rewrite Hdry.
  unfold earlyResult. rewrite bind_observe. unfold ret.
  eexists. split; [reflexivity|]. simpl. repeat split; reflexivity.
Qed.

Lemma C8_dry_run_witness :
  exists r,
    syncExcelData
      (referenceEnv customerSchema (customerFile 40)
                    embedOk upsertPointsOk upsertRelOk ensureIdxOk)
      1 "customer"
      {| filePath := None; skipCascade := false; dryRun := true; force := false |} [] =
      (Return r,
       [ESyncStart "customer"
          {| filePath := None; skipCascade := false; dryRun := true; force := false |};
        EModelExists "customer"; EGetModelId "customer";
        EReadExcel "samples/SAMPLE_customer_data.xlsx"])
    /\ success r = true
    /\ records_read r = 40
    /\ records_synced r = 0 /\ records_failed r = 0
    /\ errors r = [].
Proof.
  apply (C8_dry_run
           (referenceEnv customerSchema (customerFile 40)
                         embedOk upsertPointsOk upsertRelOk ensureIdxOk)
           0 "customer"
           {| filePath := None; skipCascade := false; dryRun := true; force := false |}
           (numberedRecords 40) []).
  - repeat split; reflexivity.
  - discriminate.
  - reflexivity.
Defined.

(** C10.  When the model exists, its records are loaded and non-empty and
    the call is not a dry run, but the schema has no field list for the model
    (or an empty one), the error of [transformRecords] leaves
    [syncExcelData] as a thrown error: no result is returned. *)
Theorem C10_empty_schema_throws E fuel modelName options records t
    (Hloads : loads E modelName options records)
    (Hrecords : records <> [])
    (Hdry : dryRun options = false)
    (Hfields : getModelFieldsFromSchema E modelName = None \/
               getModelFieldsFromSchema E modelName = Some []) :
  syncExcelData E (S fuel) modelName options t =
    (Throw ("No schema fields found for model: " +:+ modelName),
     t ++ [ESyncStart modelName options; EModelExists modelName;
           EGetModelId modelName;
           EReadExcel (dataFilePathOf E modelName options);
           EGetModelFields modelName]).
Proof.
  rewrite syncExcelData_unfold.
  rewrite (syncExcelData_body_loads E _ modelName options records t Hloads).
  cbv zeta iota.
  destruct records as [|r0 rs]; [congruence|].
  change (length (r0 :: rs) =? 0)%nat with false. cbv iota.
  rewrite Hdry.
  unfold bind at 1. rewrite transformRecords_throws by exact Hfields.
  rewrite <- app_assoc. reflexivity.
Qed.

Lemma C10_empty_schema_throws_witness :
  syncExcelData
    (referenceEnv fieldlessSchema (customerFile 3)
                  embedOk upsertPointsOk upsertRelOk ensureIdxOk)
    1 "customer" defaultOptions [] =
    (Throw "No schema fields found for model: customer",
     [ESyncStart "customer" defaultOptions; EModelExists "customer";
      EGetModelId "customer"; EReadExcel "samples/SAMPLE_customer_data.xlsx";
      EGetModelFields "customer"]).
Proof.
  apply (C10_empty_schema_throws
           (referenceEnv fieldlessSchema (customerFile 3)
                         embedOk upsertPointsOk upsertRelOk ensureIdxOk)
           0 "customer" defaultOptions (numberedRecords 3) []).
  - repeat split; reflexivity.
  - discriminate.
  - reflexivity.
  - right. reflexivity.
Defined.

(** ** Graph edge updater *)

Lemma collectFkIds_spec E records field :
  collectFkIds E records field = list_to_set (resolvedIds E records field).
Proof.
  unfold collectFkIds, resolvedIds.
  assert (H : forall (acc : gset Z),
             foldl (fun ids record =>
                      match fkId (extractFkValueBySchema E record (descriptor field)) with
                      | Some n => {[ n ]} ∪ ids
                      | None => ids
                      end) acc records
             = list_to_set
                 (omap (fun record =>
                          fkId (extractFkValueBySchema E record (descriptor field)))
                       records) ∪ acc).
  { induction records as [|r rs IH]; intros acc; simpl.
    - set_solver.
    - rewrite IH.
      destruct (fkId (extractFkValueBySchema E r (descriptor field))); simpl; set_solver. }
  rewrite H. set_solver.
Qed.

Lemma size_collectFkIds E records field :
  size (collectFkIds E records field)
    = length (remove_dups (resolvedIds E records field)).
Proof.
  rewrite collectFkIds_spec.
  rewrite <- (size_list_to_set (C := gset Z) (remove_dups (resolvedIds E records field)))
    by apply NoDup_remove_dups.
  f_equal. apply set_eq. intros x.
  rewrite !elem_of_list_to_set, elem_of_remove_dups. reflexivity.
Qed.

Lemma graphEdgeStep_spec E modelName modelId records edgesCreated field t :
  isGraphFkField field = true ->
  graphEdgeStep E modelName modelId records edgesCreated field t =
    (Return (edgesCreated
             + acceptedUpserts E t (edgeFor E modelName modelId records field)),
     t ++ List.map EUpsertRelationship (edgeFor E modelName modelId records field)).
Proof.
  intros Hfk. unfold graphEdgeStep, edgeFor. rewrite Hfk.
  rewrite size_collectFkIds.
  destruct (resolvedIds E records field) as [|n ids] eqn:Hids.
  - simpl. unfold ret. rewrite app_nil_r, Z.add_0_r. reflexivity.
  - assert (Hpos : (0 <? length (remove_dups (n :: ids)))%nat = true).
    { apply Nat.ltb_lt.
      assert (Hin : n ∈ remove_dups (n :: ids))
        by (apply elem_of_remove_dups; left).
      destruct (remove_dups (n :: ids)); [inversion Hin | simpl; lia]. }
    rewrite Hpos. unfold relationshipOf. rewrite size_collectFkIds, Hids.
    unfold try_catch, bind, call. simpl.
    destruct (upsertRelationship E t _); unfold ret; simpl;
      rewrite ?Z.add_0_r; reflexivity.
Qed.

Lemma updateKnowledgeGraph_loop E modelName modelId records fields :
  forall edgesCreated t,
    forOf (graphEdgeStep E modelName modelId records) edgesCreated
          (List.filter isGraphFkField fields) t =
      (Return (edgesCreated
               + acceptedUpserts E t
                   (concat (List.map (edgeFor E modelName modelId records) fields))),
       t ++ List.map EUpsertRelationship
              (concat (List.map (edgeFor E modelName modelId records) fields))).
Proof.
  assert (Hacc : forall rels1 rels2 t,
             acceptedUpserts E t (rels1 ++ rels2)
             = acceptedUpserts E t rels1
               + acceptedUpserts E (t ++ List.map EUpsertRelationship rels1) rels2).
  { induction rels1 as [|rel rels1 IH]; intros rels2 t; simpl.
    - rewrite app_nil_r. reflexivity.
    - rewrite IH, <- app_assoc. simpl. lia. }
  induction fields as [|f fs IH]; intros edgesCreated t; simpl.
  - unfold ret. rewrite app_nil_r, Z.add_0_r. reflexivity.
  - destruct (isGraphFkField f) eqn:Hfk.
    + simpl. unfold bind. rewrite graphEdgeStep_spec by exact Hfk.
      rewrite IH, Hacc, map_app, app_assoc. f_equal. f_equal. lia.
    + rewrite IH.
      assert (Hnone : edgeFor E modelName modelId records f = [])
        by (unfold edgeFor; rewrite Hfk; reflexivity).
      rewrite Hnone. reflexivity.
Qed.

(** C5.  The updater never throws.  The edges it upserts are, field by field
    in schema order, those of [edgeFor]: a many2one field that declares a
    target model name and id (a non-empty name and a non-zero id, as the
    filter of the source tests them) gets exactly one upsert when some record
    resolves an FK id for it and none otherwise, with [edge_count] the number
    of input records and [unique_targets] the number of distinct resolved
    ids.  A refused upsert is still followed by the remaining fields and is
    left out of the count of edges created. *)
Theorem C5_graph_edges E modelName modelId records fields t field
    (Hfk : isGraphFkField field = true) :
  updateKnowledgeGraph E modelName modelId records fields t =
    (Return (acceptedUpserts E t
               (concat (List.map (edgeFor E modelName modelId records) fields))),
     t ++ List.map EUpsertRelationship
            (concat (List.map (edgeFor E modelName modelId records) fields)))
  /\ ((exists record, record ∈ records /\
         is_Some (fkId (extractFkValueBySchema E record (descriptor field))))
      <-> exists rel, edgeFor E modelName modelId records field = [rel]
            /\ edge_count rel = Z.of_nat (length records)
            /\ unique_targets rel
               = Z.of_nat (length (remove_dups (resolvedIds E records field))))
  /\ ((forall record, record ∈ records ->
         fkId (extractFkValueBySchema E record (descriptor field)) = None)
      <-> edgeFor E modelName modelId records field = []).
Proof.
  assert (Hres : resolvedIds E records field = [] <->
                 forall record, record ∈ records ->
                   fkId (extractFkValueBySchema E record (descriptor field)) = None).
  { unfold resolvedIds. induction records as [|r rs IH]; simpl.
    - split; [intros _ ? Hin; inversion Hin | reflexivity].
    - destruct (fkId (extractFkValueBySchema E r (descriptor field))) eqn:Hr.
      + split; [discriminate|]. intros H. specialize (H r (list_elem_of_here _ _)). congruence.
      + rewrite IH. split.
        * intros H record Hin. inversion Hin; subst; auto.
        * intros H record Hin. apply H. right. exact Hin. }
  split; [|split].
  - unfold updateKnowledgeGraph. rewrite updateKnowledgeGraph_loop. reflexivity.
  - unfold edgeFor. rewrite Hfk. split.
    + intros (record & Hin & Hsome).
      destruct (resolvedIds E records field) as [|n ids] eqn:Hids.
      * destruct Hres as [Hres _]. rewrite (Hres eq_refl record Hin) in Hsome.
        destruct Hsome; discriminate.
      * eexists. split; [reflexivity|]. split; reflexivity.
    + intros (rel & Hrel & _).
      destruct (resolvedIds E records field) as [|n ids] eqn:Hids; [discriminate|].
      clear Hrel. unfold resolvedIds in Hids.
      assert (Hin : n ∈ omap (fun record =>
                        fkId (extractFkValueBySchema E record (descriptor field))) records)
        by (rewrite Hids; left).
      apply list_elem_of_omap in Hin as (record & Hin & Hn).
      exists record. split; [exact Hin|]. rewrite Hn. eauto.
  - rewrite <- Hres. unfold edgeFor. rewrite Hfk.
    destruct (resolvedIds E records field); split; congruence.
Qed.

Lemma C5_graph_edges_witness :
  (updateKnowledgeGraph ownerEnv "order" 9 orderRecords orderFields []).1 = Return 1
  /\ List.map (fun rel => (rel_field_name rel, edge_count rel, unique_targets rel))
       (upsertedEdges
          (updateKnowledgeGraph ownerEnv "order" 9 orderRecords orderFields []).2)
     = [("partner", 3, 2); ("owner", 3, 1)]
  /\ edgeFor ownerEnv "order" 9 orderRecords (fkField 13 "agent" "Agent" "user" 4) = [].
Proof.
  destruct (C5_graph_edges ownerEnv "order" 9 orderRecords orderFields []
              (fkField 13 "agent" "Agent" "user" 4) eq_refl) as (Hrun & _ & Hnone).
  split; [|split].
  - rewrite Hrun. vm_compute. reflexivity.
  - rewrite Hrun. vm_compute. reflexivity.
  - apply Hnone. intros record Hin.
    repeat (apply elem_of_cons in Hin as [-> | Hin]; [vm_compute; reflexivity|]).
    inversion Hin.
Defined.

(** ** Stored payload *)

Lemma systemFields_is_Some pointId record syncTimestamp key :
  key ∈ systemKeys -> is_Some (systemFields pointId record syncTimestamp !! key).
Proof.
  unfold systemKeys, systemFields. intros Hin.
  repeat (apply elem_of_cons in Hin as [-> | Hin]; [vm_compute; eauto|]).
  inversion Hin.
Qed.

Lemma copyFields_lookup record key :
  copyFields record !! key =
    match record !! key with
    | Some v => if is_nullish v then None else Some v
    | None => None
    end.
Proof.
  unfold copyFields.
  apply (map_fold_weak_ind
           (fun payload (m : gmap string value) =>
              payload !! key =
                match m !! key with
                | Some v => if is_nullish v then None else Some v
                | None => None
                end)).
  - rewrite !lookup_empty. reflexivity.
  - intros i x m payload Hfresh IH.
    destruct (decide (i = key)) as [->|Hne].
    + rewrite lookup_insert_eq. rewrite Hfresh in IH.
      destruct (is_nullish x); [exact IH | apply lookup_insert_eq].
    + rewrite (lookup_insert_ne m) by exact Hne.
      destruct (is_nullish x); [exact IH|].
      rewrite lookup_insert_ne by exact Hne. exact IH.
Qed.

Lemma addFkFields_keeps E record payload field key :
  is_Some (payload !! key) -> is_Some (addFkFields E record payload field !! key).
Proof.
  intros Hsome. unfold addFkFields.
  destruct (_ && _); [|exact Hsome].
  destruct (fkId _); [|exact Hsome].
  assert (H1 : forall k' w, is_Some (<[k' := w]> payload !! key)).
  { intros k' w. destruct (decide (k' = key)) as [->|Hne].
    - rewrite lookup_insert_eq. eauto.
    - rewrite lookup_insert_ne by exact Hne. exact Hsome. }
  destruct (source _); auto.
  destruct (decide (field_name field +:+ "_id" = key)) as [->|Hne].
  - rewrite lookup_insert_eq. eauto.
  - rewrite lookup_insert_ne by exact Hne. apply H1.
Qed.

Lemma addFkFields_other E record payload field key :
  key ∉ derivedKeys field -> addFkFields E record payload field !! key = payload !! key.
Proof.
  unfold derivedKeys. intros Hnot.
  assert (Hq : field_name field +:+ "_qdrant" <> key)
    by (intros <-; apply Hnot; left).
  assert (Hi : field_name field +:+ "_id" <> key)
    by (intros <-; apply Hnot; right; left).
  unfold addFkFields.
  destruct (_ && _); [|reflexivity].
  destruct (fkId _); [|reflexivity].
  destruct (source _); rewrite ?(lookup_insert_ne _ _ _ _ Hi);
    rewrite (lookup_insert_ne _ _ _ _ Hq); reflexivity.
Qed.

Lemma foldl_addFkFields_keeps E record fields : forall payload key,
  is_Some (payload !! key) ->
  is_Some (foldl (addFkFields E record) payload fields !! key).
Proof.
  induction fields as [|f fs IH]; intros payload key Hsome; simpl; [exact Hsome|].
  apply IH, addFkFields_keeps, Hsome.
Qed.

Lemma foldl_addFkFields_other E record fields : forall payload key,
  (forall field, field ∈ fields -> key ∉ derivedKeys field) ->
  foldl (addFkFields E record) payload fields !! key = payload !! key.
Proof.
  induction fields as [|f fs IH]; intros payload key Hnot; simpl; [reflexivity|].
  rewrite IH by (intros field Hin; apply Hnot; right; exact Hin).
  apply addFkFields_other, Hnot. left.
Qed.

(** What one batch does, case by case. *)
Lemma processBatch_spec E batch t :
  processBatch E batch t =
    let texts := List.map tr_vector_text batch in
    let t1 := t ++ [EEmbedBatch texts] in
    match embedBatch E t texts with
    | Fail msg => (Throw msg, t1)
    | Ok embeddings =>
        if (length embeddings =? length batch)%nat then
          let points := imap (buildPoint E embeddings (isoNow E t1)) batch in
          match upsertToUnifiedCollection E t1 points with
          | Ok _ => (Return tt, t1 ++ [EUpsertPoints points])
          | Fail msg => (Throw msg, t1 ++ [EUpsertPoints points])
          end
        else
          (Throw ("Embedding count mismatch: " +:+ pretty (length embeddings)
                  +:+ " vs " +:+ pretty (length batch)), t1)
    end.
Proof.
  unfold processBatch. rewrite bind_call. cbv zeta.
  destruct (embedBatch E t (List.map tr_vector_text batch)) as [embeddings|msg];
    [|reflexivity].
  destruct (length embeddings =? length batch)%nat; simpl; [|reflexivity].
  rewrite bind_observe. unfold call.
  destruct (upsertToUnifiedCollection E _ _) as [[]|msg]; reflexivity.
Qed.

(** C9, as amended.  Every point that a batch hands to the store comes from
    the transformed record at the same position, and an entry of that
    record's payload takes precedence over the system field of the same
    name.  Hence a raw field that carries a value (neither null nor
    undefined) under the name of a system key replaces that system field:
    the stored entry is the payload's, which is the raw value itself unless
    a derived [_qdrant] or [_id] key of some schema field has the same
    name. *)
Theorem C9_payload_overrides_system_fields E batch t out d points i point
    (Hrun : processBatch E batch t = (out, t ++ d))
    (Hevent : EUpsertPoints points ∈ d)
    (Hpoint : points !! i = Some point) :
  exists r syncTimestamp,
    batch !! i = Some r
    /\ pt_payload point =
         tr_payload r ∪ systemFields (pt_id point) r syncTimestamp
    /\ (forall key, is_Some (tr_payload r !! key) ->
          pt_payload point !! key = tr_payload r !! key)
    /\ (forall modelName modelId fields record key v,
          r = transformedOf E modelName modelId fields record ->
          key ∈ systemKeys ->
          record !! key = Some v -> is_nullish v = false ->
          is_Some (systemFields (pt_id point) r syncTimestamp !! key)
          /\ is_Some (tr_payload r !! key)
          /\ pt_payload point !! key = tr_payload r !! key
          /\ ((forall field, field ∈ fields -> key ∉ derivedKeys field) ->
              pt_payload point !! key = Some v)).
Proof.
  rewrite processBatch_spec in Hrun. cbv zeta in Hrun.
  assert (Hshape : exists embeddings ts,
             points = imap (buildPoint E embeddings ts) batch).
  { destruct (embedBatch E t (List.map tr_vector_text batch)) as [embeddings|msg].
    - destruct (length embeddings =? length batch)%nat.
      + exists embeddings, (isoNow E (t ++ [EEmbedBatch (List.map tr_vector_text batch)])).
        assert (Hd : d = [EEmbedBatch (List.map tr_vector_text batch);
                          EUpsertPoints
                            (imap (buildPoint E embeddings
                                     (isoNow E (t ++ [EEmbedBatch
                                                        (List.map tr_vector_text batch)])))
                                  batch)]).
        { destruct (upsertToUnifiedCollection E _ _);
            injection Hrun as _ Hrun; rewrite <- app_assoc in Hrun;
            apply app_inv_head in Hrun; symmetry; exact Hrun. }
        subst d.
        apply elem_of_cons in Hevent as [Heq | Hevent]; [discriminate|].
        apply elem_of_cons in Hevent as [Heq | Hevent]; [|inversion Hevent].
        injection Heq as ->. reflexivity.
      + injection Hrun as _ Hrun. apply app_inv_head in Hrun. subst d.
        apply elem_of_cons in Hevent as [Heq | Hevent]; [discriminate|inversion Hevent].
    - injection Hrun as _ Hrun. apply app_inv_head in Hrun. subst d.
      apply elem_of_cons in Hevent as [Heq | Hevent]; [discriminate|inversion Hevent]. }
  destruct Hshape as (embeddings & ts & ->).
  rewrite list_lookup_imap in Hpoint.
  destruct (batch !! i) as [r|] eqn:Hr; [|discriminate].
  injection Hpoint as <-.
  exists r, ts. split; [reflexivity|]. split; [reflexivity|].
  assert (Hwins : forall key, is_Some (tr_payload r !! key) ->
            pt_payload (buildPoint E embeddings ts i r) !! key = tr_payload r !! key).
  { intros key Hsome. simpl. apply lookup_union_l'. exact Hsome. }
  split; [exact Hwins|].
  intros modelName modelId fields record key v -> Hkey Hraw Hvalue.
  assert (Hcopied : copyFields record !! key = Some v)
    by (rewrite copyFields_lookup, Hraw, Hvalue; reflexivity).
  assert (Hsome : is_Some (tr_payload (transformedOf E modelName modelId fields record)
                           !! key)).
  { simpl. apply foldl_addFkFields_keeps. rewrite Hcopied. eauto. }
  split; [apply systemFields_is_Some; exact Hkey|].
  split; [exact Hsome|].
  split; [apply Hwins; exact Hsome|].
  intros Hfresh. rewrite Hwins by exact Hsome.
  simpl. rewrite foldl_addFkFields_other by exact Hfresh. exact Hcopied.
Qed.

Lemma C9_payload_overrides_system_fields_witness :
  exists point,
    processBatch plainEnv [collidingTransformed] [] =
      (Return tt, [EEmbedBatch [tr_vector_text collidingTransformed];
                   EUpsertPoints [point]])
    /\ pt_payload point !! "model_name" = Some (VStr "legacy")
    /\ pt_payload point !! "model_id" = Some (VNum 2).
Proof.
  pose (point := buildPoint plainEnv [[0]] "T1" 0 collidingTransformed).
  assert (Hrun : processBatch plainEnv [collidingTransformed] [] =
                 (Return tt,
                  [] ++ [EEmbedBatch [tr_vector_text collidingTransformed];
                         EUpsertPoints [point]]))
    by (vm_compute; reflexivity).
  exists point. split; [exact Hrun|].
  destruct (C9_payload_overrides_system_fields plainEnv [collidingTransformed] []
              (Return tt) _ [point] 0%nat point Hrun)
    as (r' & ts & Hr' & _ & _ & Hraw).
  - right. left.
  - reflexivity.
  - injection Hr' as <-.
    destruct (Hraw "customer" 2 [dataField "name" "Name"] collidingRecord
                "model_name" (VStr "legacy") eq_refl) as (_ & _ & _ & Hv).
    + unfold systemKeys. do 3 right. left.
    + reflexivity.
    + reflexivity.
    + split; [|vm_compute; reflexivity].
      apply Hv. intros field Hin.
      apply elem_of_cons in Hin as [-> | Hin]; [|inversion Hin].
      vm_compute. intros Hbad.
      apply elem_of_cons in Hbad as [Hbad | Hbad]; [discriminate|].
      apply elem_of_cons in Hbad as [Hbad | Hbad]; [discriminate|inversion Hbad].
Defined.

(** C9 as first stated fails for a raw field whose value is null: the field
    [model_name] is present in the raw record and collides with a system
    key, yet it is not copied to the payload, and the stored point keeps the
    system's [model_name]. *)
Lemma C9_counterexample :
  nullCollidingRecord !! "model_name" = Some VNull
  /\ "model_name" ∈ systemKeys
  /\ exists point,
       processBatch plainEnv [nullCollidingTransformed] [] =
         (Return tt, [EEmbedBatch [tr_vector_text nullCollidingTransformed];
                      EUpsertPoints [point]])
       /\ pt_payload point !! "model_name" = Some (VStr "customer").
Proof.
  split; [reflexivity|]. split.
  - unfold systemKeys. do 3 right. left.
  - exists (buildPoint plainEnv [[0]] "T1" 0 nullCollidingTransformed).
    split; vm_compute; reflexivity.
Qed.

(** ** Batch embed and upsert pipeline *)

Lemma batch_index_lt n j :
  (j * EMBEDDING_BATCH_SIZE < n -> j < batchCount n)%nat.
Proof.
  unfold batchCount, EMBEDDING_BATCH_SIZE. intros H.
  pose proof (Nat.div_mod_eq (n + (50 - 1)) 50).
  pose proof (Nat.mod_upper_bound (n + (50 - 1)) 50). lia.
Qed.

Lemma batch_index_ge n j :
  (n <= j * EMBEDDING_BATCH_SIZE -> batchCount n <= j)%nat.
Proof.
  unfold batchCount, EMBEDDING_BATCH_SIZE. intros H.
  pose proof (Nat.div_mod_eq (n + (50 - 1)) 50).
  pose proof (Nat.mod_upper_bound (n + (50 - 1)) 50). lia.
Qed.

Lemma batch_count_covers n : (n <= batchCount n * EMBEDDING_BATCH_SIZE)%nat.
Proof.
  unfold batchCount, EMBEDDING_BATCH_SIZE.
  pose proof (Nat.div_mod_eq (n + (50 - 1)) 50).
  pose proof (Nat.mod_upper_bound (n + (50 - 1)) 50). lia.
Qed.

Lemma batch_count_le n : (batchCount n <= n)%nat.
Proof.
  unfold batchCount, EMBEDDING_BATCH_SIZE.
  pose proof (Nat.div_mod_eq (n + (50 - 1)) 50).
  pose proof (Nat.mod_upper_bound (n + (50 - 1)) 50). lia.
Qed.

Lemma batchesFrom_S {A} (l : list A) j count :
  batchesFrom l j (S count) = batchAt l j :: batchesFrom l (S j) count.
Proof. reflexivity. Qed.

Lemma batchAt_eq {A} (l : list A) j :
  batchAt l j = take EMBEDDING_BATCH_SIZE (drop (j * EMBEDDING_BATCH_SIZE) l).
Proof. unfold batchAt, slice. f_equal. lia. Qed.

Lemma length_batchAt {A} (l : list A) j :
  length (batchAt l j)
    = Nat.min EMBEDDING_BATCH_SIZE (length l - j * EMBEDDING_BATCH_SIZE).
Proof. rewrite batchAt_eq, length_take, length_drop. reflexivity. Qed.

Lemma concat_batchesFrom {A} (l : list A) count : forall j,
  concat (batchesFrom l j count)
    = take (count * EMBEDDING_BATCH_SIZE) (drop (j * EMBEDDING_BATCH_SIZE) l).
Proof.
  induction count as [|c IH]; intros j.
  - reflexivity.
  - rewrite batchesFrom_S. change (concat (?x :: ?xs)) with (x ++ concat xs).
    rewrite IH, batchAt_eq.
    replace (S j * EMBEDDING_BATCH_SIZE)%nat
      with (j * EMBEDDING_BATCH_SIZE + EMBEDDING_BATCH_SIZE)%nat by lia.
    rewrite <- drop_drop, take_take_drop. reflexivity.
Qed.

Lemma concat_batchesOf {A} (l : list A) : concat (batchesOf l) = l.
Proof.
  unfold batchesOf. rewrite concat_batchesFrom.
  change (drop (0 * EMBEDDING_BATCH_SIZE) l) with l.
  apply take_ge, batch_count_covers.
Qed.

Lemma Forall_batchesOf {A} (l : list A) :
  Forall (fun b => 0 < length b <= EMBEDDING_BATCH_SIZE)%nat (batchesOf l).
Proof.
  unfold batchesOf, batchesFrom. apply Forall_forall. intros b Hin.
  apply list_elem_of_In, in_map_iff in Hin as (j & <- & Hj). apply in_seq in Hj.
  rewrite length_batchAt.
  assert (j * EMBEDDING_BATCH_SIZE < length l)%nat.
  { destruct (Nat.lt_ge_cases (j * EMBEDDING_BATCH_SIZE) (length l)) as [H|H]; [exact H|].
    apply batch_index_ge in H. lia. }
  unfold EMBEDDING_BATCH_SIZE in *. lia.
Qed.

Lemma processBatch_fuel E batch t : (processBatch E batch t).1 <> OutOfFuel.
Proof.
  rewrite processBatch_spec. cbv zeta.
  destruct (embedBatch E t _); [|discriminate].
  destruct (_ =? _)%nat; [|discriminate].
  destruct (upsertToUnifiedCollection E _ _); discriminate.
Qed.

Lemma batchLoop_S E fuel transformed i totals :
  batchLoop E (S fuel) transformed i totals =
    if (i <? length transformed)%nat then
      bind
        (try_catch
           (bind (processBatch E (slice transformed i (i + EMBEDDING_BATCH_SIZE)))
                 (fun _ =>
                    ret {| recordsSynced :=
                             recordsSynced totals
                             + Z.of_nat (length (slice transformed i
                                                       (i + EMBEDDING_BATCH_SIZE)));
                           recordsFailed := recordsFailed totals;
                           batchErrors := batchErrors totals |}))
           (fun errorMsg =>
              ret {| recordsSynced := recordsSynced totals;
                     recordsFailed :=
                       recordsFailed totals
                       + Z.of_nat (length (slice transformed i
                                                 (i + EMBEDDING_BATCH_SIZE)));
                     batchErrors :=
                       batchErrors totals ++
                       ["Batch " +:+ pretty (i / EMBEDDING_BATCH_SIZE + 1)%nat
                        +:+ " failed: " +:+ errorMsg] |}))
        (fun totals' =>
           batchLoop E fuel transformed (i + EMBEDDING_BATCH_SIZE) totals')
    else ret totals.
Proof. reflexivity. Qed.

Lemma batchLoop_done E fuel transformed i totals :
  (i <? length transformed)%nat = false ->
  batchLoop E fuel transformed i totals = ret totals.
Proof. intros H. destruct fuel; [|rewrite batchLoop_S]; simpl; rewrite H; reflexivity. Qed.

(** The loop, entered at batch [j] with enough fuel for the batches left. *)
Lemma batchLoop_spec E transformed : forall count j fuel totals t,
  (count <= fuel)%nat ->
  count = (batchCount (length transformed) - j)%nat ->
  batchLoop E fuel transformed (j * EMBEDDING_BATCH_SIZE) totals t =
    (let bs := batchesFrom transformed j count in
     let outs := batchOutcomes E bs t in
     (Return {| recordsSynced := recordsSynced totals + Z.of_nat (syncedCount bs outs);
                recordsFailed := recordsFailed totals + Z.of_nat (failedCount bs outs);
                batchErrors := batchErrors totals ++ errorEntries (j + 1) outs |},
      batchTrace E bs t)).
Proof.
  induction count as [|c IH]; intros j fuel totals t Hfuel Hcount.
  - rewrite batchLoop_done.
    + cbv zeta. simpl. rewrite !Z.add_0_r, app_nil_r. destruct totals; reflexivity.
    + apply Nat.ltb_ge.
      destruct (Nat.lt_ge_cases (j * EMBEDDING_BATCH_SIZE) (length transformed))
        as [H|H]; [|exact H].
      apply batch_index_lt in H. lia.
  - destruct fuel as [|fuel]; [lia|].
    assert (Hlt : (j * EMBEDDING_BATCH_SIZE <? length transformed)%nat = true).
    { apply Nat.ltb_lt.
      destruct (Nat.lt_ge_cases (j * EMBEDDING_BATCH_SIZE) (length transformed))
        as [H|H]; [exact H|].
      apply batch_index_ge in H. lia. }
    rewrite batchLoop_S, Hlt.
    assert (Hnum : (j * EMBEDDING_BATCH_SIZE / EMBEDDING_BATCH_SIZE + 1 = j + 1)%nat).
    { rewrite Nat.div_mul by (unfold EMBEDDING_BATCH_SIZE; lia). reflexivity. }
    rewrite Hnum.
    change (slice transformed (j * EMBEDDING_BATCH_SIZE)
                  (j * EMBEDDING_BATCH_SIZE + EMBEDDING_BATCH_SIZE))
      with (batchAt transformed j).
    replace (j * EMBEDDING_BATCH_SIZE + EMBEDDING_BATCH_SIZE)%nat
      with (S j * EMBEDDING_BATCH_SIZE)%nat by lia.
    rewrite batchesFrom_S. cbv zeta.
    pose proof (processBatch_fuel E (batchAt transformed j) t) as Hnf.
    unfold bind at 1. unfold try_catch. unfold bind at 1.
    cbn [batchOutcomes batchTrace].
    destruct (processBatch E (batchAt transformed j) t) as [[[]|msg|] t1];
      [| |exfalso; apply Hnf; reflexivity].
    + unfold ret at 1. rewrite (IH (S j) fuel) by lia.
      cbv zeta. cbn [syncedCount failedCount errorEntries recordsSynced recordsFailed
                     batchErrors fst snd].
      replace (S j + 1)%nat with (S (j + 1)) by lia.
      rewrite Nat2Z.inj_add, Z.add_assoc. reflexivity.
    + unfold ret at 1. rewrite (IH (S j) fuel) by lia.
      cbv zeta. cbn [syncedCount failedCount errorEntries recordsSynced recordsFailed
                     batchErrors fst snd].
      replace (S j + 1)%nat with (S (j + 1)) by lia.
      rewrite <- app_assoc, Nat2Z.inj_add, Z.add_assoc. reflexivity.
Qed.

Lemma runBatches_spec E transformed t :
  runBatches E transformed t =
    (let bs := batchesOf transformed in
     let outs := batchOutcomes E bs t in
     (Return {| recordsSynced := Z.of_nat (syncedCount bs outs);
                recordsFailed := Z.of_nat (failedCount bs outs);
                batchErrors := errorEntries 1 outs |},
      batchTrace E bs t)).
Proof.
  unfold runBatches.
  change 0%nat with (0 * EMBEDDING_BATCH_SIZE)%nat at 1.
  rewrite (batchLoop_spec E transformed (batchCount (length transformed)) 0).
  - reflexivity.
  - apply batch_count_le.
  - lia.
Qed.

Lemma length_batchOutcomes E bs : forall t, length (batchOutcomes E bs t) = length bs.
Proof. induction bs as [|b bs IH]; intros t; simpl; [reflexivity|]. by rewrite IH. Qed.

Lemma synced_failed_total E bs : forall t,
  (syncedCount bs (batchOutcomes E bs t) + failedCount bs (batchOutcomes E bs t)
   = length (concat bs))%nat.
Proof.
  induction bs as [|b bs IH]; intros t; [reflexivity|].
  cbn [batchOutcomes concat]. rewrite length_app, <- (IH (processBatch E b t).2).
  destruct ((processBatch E b t).1); simpl; lia.
Qed.

Lemma length_errorEntries outs : forall k,
  length (errorEntries k outs) = length (List.filter (fun o => bool_decide (is_Some o)) outs).
Proof.
  induction outs as [|[msg|] outs IH]; intros k; simpl; [reflexivity| |].
  - by rewrite IH.
  - apply IH.
Qed.

Lemma errorEntries_names_batch outs : forall k i msg,
  outs !! i = Some (Some msg) ->
  ("Batch " +:+ pretty (k + i)%nat +:+ " failed: " +:+ msg) ∈ errorEntries k outs.
Proof.
  induction outs as [|o outs IH]; intros k i msg Hi; [discriminate|].
  destruct i as [|i]; simpl in Hi.
  - injection Hi as ->. rewrite Nat.add_0_r. simpl. left.
  - replace (k + S i)%nat with (S k + i)%nat by lia.
    destruct o; cbn [errorEntries]; [right|]; apply (IH (S k)); exact Hi.
Qed.

Lemma bind_Return {A B} (m : M A) (k : A -> M B) t b t' :
  bind m k t = (Return b, t') ->
  exists a t1, m t = (Return a, t1) /\ k a t1 = (Return b, t').
Proof.
  unfold bind. destruct (m t) as [[a|msg|] t1]; intros H; [eauto|discriminate..].
Qed.

(** What a returned result says when records were loaded: the counters and
    the errors are those of the batches, whatever happens afterwards. *)
Lemma syncExcelData_body_result E self modelName options records t r t' :
  loads E modelName options records ->
  syncExcelData_body E self modelName options t = (Return r, t') ->
  (length records = 0%nat \/ dryRun options = true) /\
    success r = true /\ errors r = [] /\
    records_synced r = 0 /\ records_failed r = 0 /\ cascaded_models r = None
  \/ length records <> 0%nat /\ dryRun options = false /\
     exists fields cascadedModels t1 t2,
       getModelFieldsFromSchema E modelName = Some fields /\ fields <> [] /\
       let transformed :=
         List.map (transformedOf E modelName
                     (default 0 (getModelIdFromSchema E modelName)) fields)
                  (List.filter hasId records) in
       let bs := batchesOf transformed in
       let outs := batchOutcomes E bs (t ++ preamble E modelName options) in
       success r = (length (errorEntries 1 outs) =? 0)%nat
       /\ errors r = errorEntries 1 outs
       /\ records_read r = Z.of_nat (length records)
       /\ records_synced r = Z.of_nat (syncedCount bs outs)
       /\ records_failed r = Z.of_nat (failedCount bs outs)
       /\ cascaded_models r =
            (if (0 <? length cascadedModels)%nat then Some cascadedModels else None)
       /\ cascadeOf self E modelName options records t1 = (Return cascadedModels, t2).
Proof.
  intros Hloads Hrun.
  rewrite (syncExcelData_body_loads E self modelName options records t Hloads) in Hrun.
  cbv zeta iota in Hrun.
  destruct (length records =? 0)%nat eqn:Hlen.
  { left. apply Nat.eqb_eq in Hlen.
    unfold earlyResult in Hrun. rewrite bind_observe in Hrun.
    injection Hrun as <- _. simpl. auto 10. }
  apply Nat.eqb_neq in Hlen.
  destruct (dryRun options) eqn:Hdry.
  { left. unfold earlyResult in Hrun. rewrite bind_observe in Hrun.
    injection Hrun as <- _. simpl. auto 10. }
  right. split; [exact Hlen|]. split; [reflexivity|].
  apply bind_Return in Hrun as (transformed & tt1 & Htrans & Hrun).
  destruct (getModelFieldsFromSchema E modelName) as [fields|] eqn:Hfields;
    [|rewrite transformRecords_throws in Htrans by (rewrite ?Hfields; auto);
      discriminate].
  destruct (decide (fields = [])) as [->|Hne];
    [rewrite transformRecords_throws in Htrans by (rewrite ?Hfields; auto);
     discriminate|].
  rewrite (transformRecords_returns E records modelName _ _ fields Hfields Hne) in Htrans.
  injection Htrans as <- <-.
  rewrite <- app_assoc in Hrun.
  change ([ESyncStart modelName options; EModelExists modelName;
           EGetModelId modelName; EReadExcel (dataFilePathOf E modelName options)]
          ++ [EGetModelFields modelName])
    with (preamble E modelName options) in Hrun.
  apply bind_Return in Hrun as (totals & tt2 & Hbatches & Hrun).
  rewrite runBatches_spec in Hbatches. cbv zeta in Hbatches.
  injection Hbatches as <- <-.
  apply bind_Return in Hrun as (schemaFields & tt3 & _ & Hrun).
  apply bind_Return in Hrun as (u & tt4 & _ & Hrun).
  apply bind_Return in Hrun as (cascadedModels & tt5 & Hcascade & Hrun).
  rewrite bind_observe in Hrun. injection Hrun as <- _.
  exists fields, cascadedModels, tt4, tt5.
  split; [reflexivity|]. split; [exact Hne|].
  cbv zeta. simpl. repeat split; try reflexivity. exact Hcascade.
Qed.

(** A batch is stored exactly when the embedding service answers with one
    embedding per record and the store accepts the points; in every other
    case it throws. *)
Lemma processBatch_returns_iff E batch t :
  (processBatch E batch t).1 = Return tt
  <-> exists embeddings,
        embedBatch E t (List.map tr_vector_text batch) = Ok embeddings
        /\ length embeddings = length batch
        /\ upsertToUnifiedCollection E
             (t ++ [EEmbedBatch (List.map tr_vector_text batch)])
             (imap (buildPoint E embeddings
                      (isoNow E (t ++ [EEmbedBatch (List.map tr_vector_text batch)])))
                   batch)
           = Ok tt.
Proof.
  rewrite processBatch_spec. cbv zeta.
  destruct (embedBatch E t (List.map tr_vector_text batch)) as [embeddings|msg].
  - destruct (length embeddings =? length batch)%nat eqn:Hlen.
    + apply Nat.eqb_eq in Hlen.
      destruct (upsertToUnifiedCollection E _ _) as [[]|msg] eqn:Hup; simpl.
      * split; [|reflexivity]. intros _. exists embeddings. auto.
      * split; [discriminate|]. intros (e & [= <-] & _ & Hup'). congruence.
    + apply Nat.eqb_neq in Hlen. simpl.
      split; [discriminate|]. intros (e & [= <-] & Hlen' & _). congruence.
  - simpl. split; [discriminate|]. intros (e & He & _). discriminate.
Qed.

(** C1, as amended.  The pipeline cuts its input into contiguous batches of
    at most fifty records, in input order, and processes every one of them
    whatever happened to the earlier ones.  A batch is stored exactly when
    the embedding service answers with one embedding per record and the store
    accepts the points; otherwise it fails, and the failure is caught.  A
    batch that fails adds its size to the failed records and exactly one
    entry naming its number to the errors; a batch that is stored adds its
    size to the synced records.  With 120
    records the batches hold 50, 50 and 20 of them, so a failure in batch 2
    alone leaves 70 records synced, 50 failed and the single entry of
    batch 2; a sync that returns reports these counters and errors. *)
Theorem C1_batch_isolation E transformed t :
  let bs := batchesOf transformed in
  let outs := batchOutcomes E bs t in
  concat bs = transformed
  /\ Forall (fun b => 0 < length b <= EMBEDDING_BATCH_SIZE)%nat bs
  /\ length outs = length bs
  /\ (forall batch t0,
        (processBatch E batch t0).1 <> OutOfFuel
        /\ ((processBatch E batch t0).1 = Return tt
            <-> exists embeddings,
                  embedBatch E t0 (List.map tr_vector_text batch) = Ok embeddings
                  /\ length embeddings = length batch
                  /\ upsertToUnifiedCollection E
                       (t0 ++ [EEmbedBatch (List.map tr_vector_text batch)])
                       (imap (buildPoint E embeddings
                                (isoNow E (t0 ++ [EEmbedBatch
                                                    (List.map tr_vector_text batch)])))
                             batch)
                     = Ok tt))
  /\ runBatches E transformed t =
       (Return {| recordsSynced := Z.of_nat (syncedCount bs outs);
                  recordsFailed := Z.of_nat (failedCount bs outs);
                  batchErrors := errorEntries 1 outs |},
        batchTrace E bs t)
  /\ (syncedCount bs outs + failedCount bs outs = length transformed)%nat
  /\ length (errorEntries 1 outs)
       = length (List.filter (fun o => bool_decide (is_Some o)) outs)
  /\ (forall i msg, outs !! i = Some (Some msg) ->
        ("Batch " +:+ pretty (1 + i)%nat +:+ " failed: " +:+ msg) ∈ errorEntries 1 outs)
  /\ (length transformed = 120%nat ->
      forall msg, outs = [None; Some msg; None] ->
        syncedCount bs outs = 70%nat /\ failedCount bs outs = 50%nat
        /\ errorEntries 1 outs = ["Batch 2 failed: " +:+ msg])
  /\ (forall fuel modelName options records fields t0 r t',
        loads E modelName options records ->
        getModelFieldsFromSchema E modelName = Some fields ->
        transformed =
          List.map (transformedOf E modelName
                      (default 0 (getModelIdFromSchema E modelName)) fields)
                   (List.filter hasId records) ->
        transformed <> [] ->
        dryRun options = false ->
        t = t0 ++ preamble E modelName options ->
        syncExcelData E (S fuel) modelName options t0 = (Return r, t') ->
        records_synced r = Z.of_nat (syncedCount bs outs)
        /\ records_failed r = Z.of_nat (failedCount bs outs)
        /\ errors r = errorEntries 1 outs).
Proof.
  cbv zeta.
  split; [apply concat_batchesOf|].
  split; [apply Forall_batchesOf|].
  split; [apply length_batchOutcomes|].
  split; [intros batch t0; split;
          [apply processBatch_fuel|apply processBatch_returns_iff]|].
  split; [apply runBatches_spec|].
  split; [rewrite synced_failed_total, concat_batchesOf; reflexivity|].
  split; [apply length_errorEntries|].
  split; [intros i msg; apply errorEntries_names_batch|].
  split.
  - intros Hlen msg Houts. rewrite Houts.
    assert (Hbs : batchesOf transformed
                  = [batchAt transformed 0; batchAt transformed 1; batchAt transformed 2]).
    { unfold batchesOf. rewrite Hlen. reflexivity. }
    rewrite Hbs. cbn [syncedCount failedCount errorEntries].
    rewrite !length_batchAt, Hlen. repeat split.
  - intros fuel modelName options records fields t0 r t' Hloads Hfields Htr Hne Hdry Ht Hrun.
    rewrite syncExcelData_unfold in Hrun.
    destruct (syncExcelData_body_result E _ modelName options records t0 r t' Hloads Hrun)
      as [([Hlen|Hdry'] & _) | (_ & _ & fields' & cms & t1 & t2 & Hfields' & _ & H)].
    + destruct records; [|discriminate]. simpl in Htr. congruence.
    + congruence.
    + rewrite Hfields in Hfields'. injection Hfields' as <-.
      cbv zeta in H. rewrite <- Htr, <- Ht in H.
      destruct H as (_ & He & _ & Hs & Hf & _). auto.
Qed.

Lemma outcome_pair {A} (x : outcome A * trace) a : x.1 = Return a -> x = (Return a, x.2).
Proof. destruct x as [o t]. simpl. intros ->. reflexivity. Qed.

Lemma C1_batch_isolation_witness :
  exists r,
    (syncExcelData batch2Env 1 "customer" defaultOptions []).1 = Return r
    /\ batchOutcomes batch2Env (batchesOf batch2Transformed)
                     (preamble batch2Env "customer" defaultOptions)
       = [None; Some "embedding service unavailable"; None]
    /\ records_synced r = 70 /\ records_failed r = 50
    /\ errors r = ["Batch 2 failed: embedding service unavailable"].
Proof.
  destruct (C1_batch_isolation batch2Env batch2Transformed
              (preamble batch2Env "customer" defaultOptions))
    as (_ & _ & _ & _ & _ & _ & _ & _ & Hscenario & Hsync).
  assert (Houts : batchOutcomes batch2Env (batchesOf batch2Transformed)
                    (preamble batch2Env "customer" defaultOptions)
                  = [None; Some "embedding service unavailable"; None])
    by (vm_compute; reflexivity).
  assert (Hlen : length batch2Transformed = 120%nat) by (vm_compute; reflexivity).
  destruct (Hscenario Hlen _ Houts) as (Hs & Hf & He).
  assert (Hret : exists r,
             (syncExcelData batch2Env 1 "customer" defaultOptions []).1 = Return r)
    by (eexists; vm_compute; reflexivity).
  destruct Hret as (r & Hret).
  exists r. split; [exact Hret|]. split; [exact Houts|].
  destruct (Hsync 0%nat "customer" defaultOptions (numberedRecords 120)
              [dataField "id" "ID"; dataField "name" "Name"] [] r
              (syncExcelData batch2Env 1 "customer" defaultOptions []).2)
    as (Hrs & Hrf & Hre).
  - repeat split; reflexivity.
  - reflexivity.
  - reflexivity.
  - intros Hnil. rewrite Hnil in Hlen. discriminate.
  - reflexivity.
  - reflexivity.
  - apply outcome_pair, Hret.
  - rewrite Hrs, Hrf, Hre, Hs, Hf, He. repeat split; reflexivity.
Defined.

(** C1 as first stated fails on its own example: with 120 records the second
    batch holds records 51 to 100, so when it alone fails the sync reports 70
    records synced and 50 failed, not 100 and 20. *)
Lemma C1_counterexample :
  exists r,
    (syncExcelData batch2Env 1 "customer" defaultOptions []).1 = Return r
    /\ records_read r = 120
    /\ batchOutcomes batch2Env (batchesOf batch2Transformed)
                     (preamble batch2Env "customer" defaultOptions)
       = [None; Some "embedding service unavailable"; None]
    /\ errors r = ["Batch 2 failed: embedding service unavailable"]
    /\ records_synced r = 70 /\ records_failed r = 50
    /\ ~ (records_synced r = 100 /\ records_failed r = 20).
Proof.
  eexists. split; [vm_compute; reflexivity|].
  split; [reflexivity|]. split; [vm_compute; reflexivity|].
  split; [reflexivity|]. split; [reflexivity|]. split; [reflexivity|].
  simpl. intros [H _]. discriminate.
Qed.

(** ** Cascade *)

Ltac runs_step :=
  lazymatch goal with
  | |- runs (bind _ _) _ _ => apply (runs_bind _ _ _ (fun _ => True)); [|intros ? _]
  | |- runs (ret _) _ _ => apply runs_ret; exact I
  | |- runs (throw _) _ _ => apply runs_throw
  | |- runs (observe _) _ _ => apply runs_observe; intros; exact I
  | |- runs (call _ _) _ _ => apply runs_call; [|intros; exact I]
  | |- runs (try_catch _ _) _ _ => apply runs_try; [|intros ?]
  | |- runs (earlyResult _ _ _ _ _ _ _ _) _ _ => unfold earlyResult
  | |- runs (match ?x with _ => _ end) _ _ =>
      first [apply runs_if | destruct x eqn:?]
  end.

Section LeafWork.
Variable E : Env.
Variable P : event -> Prop.
Hypothesis leaf_allowed : forall e, leafEvent e -> P e.

Lemma runs_readExcelData path : runs (readExcelData E path) P (fun _ => True).
Proof. unfold readExcelData. runs_step. apply leaf_allowed. exact I. Qed.

Lemma runs_transformRecords records modelName modelId :
  runs (transformRecords E records modelName modelId) P (fun _ => True).
Proof.
  unfold transformRecords. repeat runs_step. apply leaf_allowed. exact I.
Qed.

Lemma runs_processBatch batch : runs (processBatch E batch) P (fun _ => True).
Proof.
  unfold processBatch. repeat runs_step; apply leaf_allowed; exact I.
Qed.

Lemma batchTrace_extends bs : forall t,
  exists d, batchTrace E bs t = t ++ d /\ Forall P d.
Proof.
  induction bs as [|b bs IH]; intros t; simpl.
  - exists []. rewrite app_nil_r. auto.
  - destruct (runs_processBatch b t) as (_ & (d & Hd & HP) & _).
    destruct (IH (processBatch E b t).2) as (d' & Hd' & HP').
    exists (d ++ d'). rewrite Hd', Hd, app_assoc. split; [reflexivity|].
    apply Forall_app; auto.
Qed.

Lemma runs_runBatches transformed : runs (runBatches E transformed) P (fun _ => True).
Proof.
  intros t. rewrite runBatches_spec. cbv zeta. simpl.
  split; [discriminate|]. split; [apply batchTrace_extends|auto].
Qed.

Lemma runs_updateKnowledgeGraph modelName modelId records fields :
  runs (updateKnowledgeGraph E modelName modelId records fields) P (fun _ => True).
Proof.
  intros t. unfold updateKnowledgeGraph. rewrite updateKnowledgeGraph_loop. simpl.
  split; [discriminate|]. split; [|auto].
  eexists. split; [reflexivity|].
  apply Forall_forall. intros e He.
  apply list_elem_of_In, in_map_iff in He as (rel & <- & _).
  apply leaf_allowed. exact I.
Qed.
End LeafWork.

Lemma Map_set_keys {V} (m : list (string * V)) key v x :
  x ∈ Map_set m key v -> x.1 = key \/ exists y, y ∈ m /\ y.1 = x.1.
Proof.
  induction m as [|[k w] rest IH]; simpl.
  - intros Hin. apply elem_of_cons in Hin as [-> | Hin]; [left; reflexivity|inversion Hin].
  - destruct (String.eqb k key) eqn:Hk.
    + apply String.eqb_eq in Hk. subst k. intros Hin.
      apply elem_of_cons in Hin as [-> | Hin]; [left; reflexivity|].
      right. exists x. split; [right; exact Hin|reflexivity].
    + intros Hin. apply elem_of_cons in Hin as [-> | Hin].
      * right. exists (k, w). split; [left|reflexivity].
      * destruct (IH Hin) as [Hx | (y & Hy & Hxy)]; [left; exact Hx|].
        right. exists y. split; [right; exact Hy|exact Hxy].
Qed.

Lemma extractFkTargets_keys E records fkFields : forall fkTargets x,
  x ∈ foldl (extractFkTargetsField E records) fkTargets fkFields ->
  (exists y, y ∈ fkTargets /\ y.1 = x.1)
  \/ exists f, f ∈ fkFields /\ fk_location_model f = Some x.1.
Proof.
  induction fkFields as [|f fs IH]; intros fkTargets x Hin; simpl in Hin.
  - left. eauto.
  - apply IH in Hin as [(y & Hy & Hxy) | (g & Hg & Hgx)].
    + unfold extractFkTargetsField in Hy.
      destruct (fk_location_model f) as [target|] eqn:Hf; simpl in Hy; [|left; eauto].
      destruct (negb (String.eqb target EmptyString)); simpl in Hy; [|left; eauto].
      destruct (0 <? size (collectFkIds E records f))%nat; [|left; eauto].
      apply Map_set_keys in Hy as [Hk | (z & Hz & Hzy)].
      * right. exists f. split; [left|]. congruence.
      * left. exists z. split; [exact Hz|congruence].
    + right. exists g. split; [right; exact Hg|exact Hgx].
Qed.

Lemma runs_extractFkTargets E records modelName (P : event -> Prop) :
  P (EGetFkFields modelName) ->
  runs (extractFkTargets E records modelName) P
       (fun fkTargets => forall x, x ∈ fkTargets -> fkTargetOf E modelName x.1).
Proof.
  intros HP. unfold extractFkTargets.
  apply (runs_bind _ _ _ (fun fkFields => fkFields = getFkFieldsFromSchema E modelName)).
  - apply runs_call; [exact HP|]. intros t a [= <-]. reflexivity.
  - intros fkFields ->. unfold fkTargetOf.
    destruct (getFkFieldsFromSchema E modelName) as [[|f fs]|];
      apply runs_ret; intros x Hin; try (inversion Hin; fail).
    apply extractFkTargets_keys in Hin as [(y & Hy & _) | Hf]; [inversion Hy|exact Hf].
Qed.

(** The events of the body after its entry, given those of its cascade. *)
Lemma body_runs E self modelName options (P : event -> Prop) t :
  (forall e, leafEvent e -> P e) ->
  (forall records, runs (cascadeOf self E modelName options records) P (fun _ => True)) ->
  (syncExcelData_body E self modelName options t).1 <> OutOfFuel
  /\ exists d,
       (syncExcelData_body E self modelName options t).2
         = t ++ ESyncStart modelName options :: d
       /\ Forall P d.
Proof.
  intros Hleaf Hcascade. unfold syncExcelData_body. rewrite bind_call_ok.
  match goal with
  | |- (?m (t ++ [?e])).1 <> _ /\ _ =>
      destruct (runs_after m P (fun _ => True) t e) as (Hne & Hd & _);
        [|split; [exact Hne|exact Hd]]
  end.
  runs_step; [runs_step|]. runs_step; [runs_step; apply Hleaf; exact I|].
  runs_step; [repeat runs_step|].
  runs_step; [runs_step; apply Hleaf; exact I|].
  runs_step; [repeat runs_step|].
  runs_step.
  { runs_step; [|repeat runs_step]. runs_step; [|runs_step].
    apply runs_readExcelData. exact Hleaf. }
  runs_step; [|repeat runs_step].
  runs_step; [repeat runs_step|].
  runs_step; [repeat runs_step|].
  runs_step; [apply runs_transformRecords; exact Hleaf|].
  runs_step; [apply runs_runBatches; exact Hleaf|].
  runs_step; [runs_step; apply Hleaf; exact I|].
  runs_step.
  { repeat runs_step; try (apply Hleaf; exact I).
    apply runs_updateKnowledgeGraph. exact Hleaf. }
  runs_step; [apply Hcascade|].
  repeat runs_step.
Qed.

(** A call whose cascade is disabled: after its entry it only does leaf work,
    whatever [self] is. *)
Lemma cascaded_body_runs E self modelName options t :
  skipCascade options = true ->
  (syncExcelData_body E self modelName options t).1 <> OutOfFuel
  /\ exists d,
       (syncExcelData_body E self modelName options t).2
         = t ++ ESyncStart modelName options :: d
       /\ Forall leafEvent d.
Proof.
  intros Hskip. apply body_runs; [auto|].
  intros records. unfold cascadeOf. rewrite Hskip. apply runs_ret. exact I.
Qed.

(** A call whose cascade is enabled, over a [self] whose cascade-disabled
    calls only do leaf work after their entry. *)
Lemma root_body_runs E self modelName options t :
  (forall target t0,
      (self target (cascadeOptions options) t0).1 <> OutOfFuel
      /\ exists d, (self target (cascadeOptions options) t0).2
                     = t0 ++ ESyncStart target (cascadeOptions options) :: d
                   /\ Forall leafEvent d) ->
  (syncExcelData_body E self modelName options t).1 <> OutOfFuel
  /\ exists d,
       (syncExcelData_body E self modelName options t).2
         = t ++ ESyncStart modelName options :: d
       /\ Forall (rootEvent E modelName options) d.
Proof.
  intros Hself.
  destruct (skipCascade options) eqn:Hskip.
  { destruct (cascaded_body_runs E self modelName options t Hskip) as (Hne & d & Hd & HP).
    split; [exact Hne|]. exists d. split; [exact Hd|].
    eapply Forall_impl; [exact HP|]. intros e He. left. exact He. }
  apply body_runs; [intros e He; left; exact He|].
  intros records. unfold cascadeOf. rewrite Hskip. simpl negb. cbv iota.
  eapply runs_bind.
  - apply runs_extractFkTargets. right. auto.
  - intros fkTargets Htargets. cbv beta in Htargets.
    destruct (0 <? length fkTargets)%nat; [|apply runs_ret; exact I].
    apply runs_forOf; [|exact I].
    intros acc x Hx _. unfold cascadeStep.
    apply runs_try; [|intros msg; apply runs_ret; exact I].
    apply (runs_bind _ _ _ (fun _ => True)).
    + intros t0. destruct (Hself x.1 t0) as (Hne & d & Hd & HP).
      split; [exact Hne|]. split; [|auto].
      exists (ESyncStart x.1 (cascadeOptions options) :: d). split; [exact Hd|].
      constructor.
      * right. split; [exact Hskip|]. right. exists x.1. split; [|reflexivity].
        apply Htargets, Hx.
      * eapply Forall_impl; [exact HP|]. intros e He. left. exact He.
    + intros res _. destruct (success res); apply runs_ret; exact I.
Qed.

(** ** Success and errors of a returned result *)

Lemma loads_or_fatal E modelName options :
  fatalToCall E modelName options
  \/ exists records, loads E modelName options records.
Proof.
  unfold fatalToCall, loads.
  destruct (modelExistsInSchema E modelName); [|auto].
  destruct (truthy_num (getModelIdFromSchema E modelName)); [|auto].
  destruct (existsSync E (dataFilePathOf E modelName options)); [|auto].
  destruct (readSheet E (dataFilePathOf E modelName options)) as [records|msg] eqn:Hread.
  - right. exists records. auto.
  - left. do 3 right. eauto.
Qed.

(** Every model that the cascade loop records comes from a nested call that
    returned a successful result. *)
Lemma forOf_cascade_inv self dry frc targets : forall acc t cms t',
  forOf (cascadeStep self dry frc) acc targets t = (Return cms, t') ->
  forall cm, cm ∈ cms ->
    cm ∈ acc
    \/ exists tn rn tn',
         self (cm_model_name cm)
              {| filePath := None; skipCascade := true; dryRun := dry; force := frc |} tn
           = (Return rn, tn')
         /\ success rn = true
         /\ cm_records_synced cm = records_synced rn.
Proof.
  induction targets as [|x rest IH]; intros acc t cms t' Hrun cm Hcm; simpl in Hrun.
  - injection Hrun as <- _. left. exact Hcm.
  - apply bind_Return in Hrun as (acc' & t1 & Hstep & Hrest).
    destruct (IH _ _ _ _ Hrest cm Hcm) as [Hin | Hnested]; [|right; exact Hnested].
    unfold cascadeStep, try_catch, bind in Hstep.
    destruct (self x.1 _ t) as [[rn|msg|] tn'] eqn:Hself.
    + destruct (success rn) eqn:Hok; injection Hstep as <- _.
      * apply elem_of_app in Hin as [Hin | Hin]; [left; exact Hin|].
        apply elem_of_cons in Hin as [-> | Hin]; [|inversion Hin].
        right. exists t, rn, tn'. simpl. auto.
      * left. exact Hin.
    + injection Hstep as <- _. left. exact Hin.
    + discriminate.
Qed.

(** X24.  In every result that a sync returns, [success] holds exactly when
    [errors] is empty.  The errors are either the single error of a fatal
    condition or, when the records were loaded, exactly the entries of the
    batches that failed (none on an empty file or a dry run): a graph edge
    that the graph store refuses and a cascade target whose sync fails or
    throws add nothing to them and leave [success] as it is.  A model listed
    in [cascaded_models] is one whose nested sync returned a successful
    result; a target whose nested sync failed or threw is left out.  (A
    result is returned only if the index service answered: its failure is
    thrown, see C3.) *)
Theorem X24_returned_result_errors E fuel modelName options t r t'
    (Hreturned : syncExcelData E (S fuel) modelName options t = (Return r, t')) :
  (success r = true <-> errors r = [])
  /\ (fatalToCall E modelName options /\ success r = false
      /\ length (errors r) = 1%nat
      \/ exists records,
           loads E modelName options records
           /\ ((length records = 0%nat \/ dryRun options = true) /\ errors r = []
               \/ exists fields,
                    getModelFieldsFromSchema E modelName = Some fields
                    /\ errors r =
                         errorEntries 1
                           (batchOutcomes E
                              (batchesOf
                                 (List.map
                                    (transformedOf E modelName
                                       (default 0 (getModelIdFromSchema E modelName))
                                       fields)
                                    (List.filter hasId records)))
                              (t ++ preamble E modelName options))))
  /\ (forall cm, cm ∈ default [] (cascaded_models r) ->
        exists tn rn tn',
          syncExcelData E fuel (cm_model_name cm) (cascadeOptions options) tn
            = (Return rn, tn')
          /\ success rn = true
          /\ cm_records_synced cm = records_synced rn).
Proof.
  rewrite syncExcelData_unfold in Hreturned.
  destruct (loads_or_fatal E modelName options) as [Hfatal | [records Hloads]].
  - destruct (syncExcelData_body_fatal E (syncExcelData E fuel) modelName options t Hfatal)
      as (r0 & d & Hrun & Hok & Hlen & _ & _ & _ & Hnone & _).
    rewrite Hrun in Hreturned. injection Hreturned as <- _.
    split; [|split].
    + rewrite Hok. split; [discriminate|].
      intros Hnil. rewrite Hnil in Hlen. discriminate.
    + left. auto.
    + rewrite Hnone. intros cm Hcm. inversion Hcm.
  - destruct (syncExcelData_body_result E _ modelName options records t r t'
                Hloads Hreturned)
      as [(Hearly & Hok & Herr & _ & _ & Hnone)
         | (_ & _ & fields & cms & t1 & t2 & Hfields & _ & H)].
    + split; [rewrite Hok, Herr; split; reflexivity|]. split.
      * right. exists records. split; [exact Hloads|]. left. auto.
      * rewrite Hnone. intros cm Hcm. inversion Hcm.
    + cbv zeta in H. destruct H as (Hok & Herr & _ & _ & _ & Hcms & Hcascade).
      split; [|split].
      * rewrite Hok, Herr. destruct (errorEntries 1 _); simpl; split; congruence.
      * right. exists records. split; [exact Hloads|]. right.
        exists fields. auto.
      * rewrite Hcms. intros cm Hcm.
        destruct (0 <? length cms)%nat; [|inversion Hcm]. simpl in Hcm.
        unfold cascadeOf in Hcascade.
        destruct (negb (skipCascade options));
          [|injection Hcascade as <- _; inversion Hcm].
        apply bind_Return in Hcascade as (fkTargets & t3 & _ & Hloop).
        destruct (0 <? length fkTargets)%nat;
          [|injection Hloop as <- _; inversion Hcm].
        destruct (forOf_cascade_inv _ _ _ _ _ _ _ _ Hloop cm Hcm) as [Hin | Hnested];
          [inversion Hin|exact Hnested].
Qed.

Lemma X24_returned_result_errors_witness :
  exists r,
    (syncExcelData advisoryEnv 2 "order" defaultOptions []).1 = Return r
    /\ success r = true /\ errors r = []
    /\ cascaded_models r
       = Some [ {| cm_model_name := "partner"; cm_records_synced := 2 |} ]
    /\ syncStarts (syncExcelData advisoryEnv 2 "order" defaultOptions []).2
       = [("order", false); ("partner", true); ("user", true); ("agent", true)]
    /\ (syncExcelData advisoryEnv 1 "user" (cascadeOptions defaultOptions) []).1
       = Return {| success := false; model_name := "user"; model_id := 0;
                   file_path := "samples/SAMPLE_user_data.xlsx";
                   records_read := 0; records_synced := 0; records_failed := 0;
                   duration_ms := 1;
                   errors := ["Model 'user' not found in schema. Run schema sync first."];
                   cascaded_models := None |}
    /\ (syncExcelData advisoryEnv 1 "agent" (cascadeOptions defaultOptions) []).1
       = Throw "No schema fields found for model: agent"
    /\ List.map rel_field_name
         (upsertedEdges (syncExcelData advisoryEnv 2 "order" defaultOptions []).2)
       = ["partner"; "owner"; "agent"]
    /\ upsertRelationship advisoryEnv []
         (relationshipOf advisoryEnv "order" 9 [] (fkField 12 "owner" "Owner" "user" 4) ∅)
       = Fail "graph store unavailable".
Proof.
  assert (Hret : exists r,
             (syncExcelData advisoryEnv 2 "order" defaultOptions []).1 = Return r
             /\ errors r = []
             /\ cascaded_models r
                = Some [ {| cm_model_name := "partner"; cm_records_synced := 2 |} ])
    by (eexists; split; [vm_compute; reflexivity|split; reflexivity]).
  destruct Hret as (r & Hret & Herr & Hcm).
  destruct (X24_returned_result_errors advisoryEnv 1 "order" defaultOptions [] r _
              (outcome_pair _ _ Hret)) as ((_ & Hok) & _ & _).
  exists r. split; [exact Hret|]. split; [apply Hok, Herr|].
  split; [exact Herr|]. split; [exact Hcm|].
  repeat split; vm_compute; reflexivity.
Defined.

(** C3.  A failure of index creation is not contained.  The call of
    [ensureModelIndexes] is the one step after the batches that is not inside
    a [try] block.  On the order sheet, with an index service that throws,
    the sync stores its batch of points and its three graph edges, calls the
    index service last, and then throws that service's error: it enters no
    cascade and returns no result, so that the caller sees neither
    [success = true] nor the records that were synced.  The sibling steps do
    contain their failures: on the same sheet, with the graph store refusing
    the edge of [owner], one cascade target returning a failed result and
    another throwing, the sync returns a result with [success = true] and no
    errors. *)
Theorem C3_index_failure_is_thrown :
  (syncExcelData indexDownEnv 2 "order" defaultOptions []).1
    = Throw "index service unavailable"
  /\ length (upsertCalls (syncExcelData indexDownEnv 2 "order" defaultOptions []).2)
     = 1%nat
  /\ List.map rel_field_name
       (upsertedEdges (syncExcelData indexDownEnv 2 "order" defaultOptions []).2)
     = ["partner"; "owner"; "agent"]
  /\ last (syncExcelData indexDownEnv 2 "order" defaultOptions []).2
     = Some (EEnsureIndexes "order"
               (default [] (getModelFieldsFromSchema indexDownEnv "order")))
  /\ syncStarts (syncExcelData indexDownEnv 2 "order" defaultOptions []).2
     = [("order", false)]
  /\ upsertRelationship advisoryEnv []
       (relationshipOf advisoryEnv "order" 9 [] (fkField 12 "owner" "Owner" "user" 4) ∅)
     = Fail "graph store unavailable"
  /\ (syncExcelData advisoryEnv 1 "agent" (cascadeOptions defaultOptions) []).1
     = Throw "No schema fields found for model: agent"
  /\ exists r,
       (syncExcelData advisoryEnv 2 "order" defaultOptions []).1 = Return r
       /\ success r = true /\ errors r = [] /\ records_synced r = 2.
Proof.
  repeat (split; [vm_compute; reflexivity|]).
  eexists. split; [vm_compute; reflexivity|]. repeat split; reflexivity.
Qed.

(** * Further properties of the sync service *)

(** ** FK target collector *)

Lemma Map_get_set_eq {V} (m : list (string * V)) key v :
  Map_get (Map_set m key v) key = Some v.
Proof.
  induction m as [|[k w] rest IH]; simpl.
  - rewrite String.eqb_refl. reflexivity.
  - destruct (String.eqb k key) eqn:Hk; simpl; rewrite Hk; [reflexivity|exact IH].
Qed.

Lemma Map_get_set_ne {V} (m : list (string * V)) key v key' :
  key <> key' -> Map_get (Map_set m key v) key' = Map_get m key'.
Proof.
  intros Hne. induction m as [|[k w] rest IH]; simpl.
  - apply String.eqb_neq in Hne. rewrite Hne. reflexivity.
  - destruct (String.eqb k key) eqn:Hk; simpl.
    + apply String.eqb_eq in Hk. subst k.
      apply String.eqb_neq in Hne. rewrite Hne. reflexivity.
    + destruct (String.eqb k key'); [reflexivity|exact IH].
Qed.

Lemma Map_get_None_keys {V} (m : list (string * V)) key :
  Map_get m key = None <-> key ∉ List.map fst m.
Proof.
  induction m as [|[k w] rest IH]; simpl.
  - split; [intros _ Hin; inversion Hin|reflexivity].
  - destruct (String.eqb k key) eqn:Hk.
    + apply String.eqb_eq in Hk. subst k. split; [discriminate|].
      intros Hnot. exfalso. apply Hnot. left.
    + apply String.eqb_neq in Hk. rewrite IH. split.
      * intros Hnot Hin. apply elem_of_cons in Hin as [Heq|Hin]; [congruence|auto].
      * intros Hnot Hin. apply Hnot. right. exact Hin.
Qed.

Lemma Map_set_keys_NoDup {V} (m : list (string * V)) key v :
  NoDup (List.map fst m) -> NoDup (List.map fst (Map_set m key v)).
Proof.
  induction m as [|[k w] rest IH]; simpl; intros Hnd.
  - apply NoDup_cons. split; [intros Hin; inversion Hin|constructor].
  - apply NoDup_cons in Hnd as [Hk Hrest].
    destruct (String.eqb k key) eqn:Hkey; simpl.
    + apply NoDup_cons. auto.
    + apply NoDup_cons. split; [|apply IH, Hrest].
      intros Hin. apply String.eqb_neq in Hkey.
      apply list_elem_of_In, in_map_iff in Hin as (x & Hx & Hin).
      apply list_elem_of_In, Map_set_keys in Hin as [Heq | (y & Hy & Hyx)].
      * congruence.
      * apply Hk. apply list_elem_of_In, in_map_iff. exists y.
        split; [congruence|apply list_elem_of_In, Hy].
Qed.

Lemma fkIdsFor_snoc E records fkFields f target :
  fkIdsFor E records (fkFields ++ [f]) target =
    fkIdsFor E records fkFields target
    ∪ (if refersTo target f then collectFkIds E records f else ∅).
Proof.
  unfold fkIdsFor. rewrite List.filter_app, List.map_app, concat_app.
  rewrite list_to_set_app_L. f_equal. simpl.
  destruct (refersTo target f); simpl.
  - rewrite app_nil_r, collectFkIds_spec. reflexivity.
  - reflexivity.
Qed.

(** The loop of [extractFkTargets] keeps the map in step with the fields it
    has seen so far. *)
Lemma extractFkTargets_loop E records fkFields : forall seen fkTargets,
  NoDup (List.map fst fkTargets) ->
  (forall target, Map_get fkTargets target = targetEntry E records seen target) ->
  NoDup (List.map fst (foldl (extractFkTargetsField E records) fkTargets fkFields))
  /\ forall target,
       Map_get (foldl (extractFkTargetsField E records) fkTargets fkFields) target
       = targetEntry E records (seen ++ fkFields) target.
Proof.
  induction fkFields as [|f fs IH]; intros seen fkTargets Hnd Hinv.
  - simpl. rewrite app_nil_r. auto.
  - simpl. replace (seen ++ f :: fs) with ((seen ++ [f]) ++ fs)
      by (rewrite <- app_assoc; reflexivity).
    apply IH.
    + unfold extractFkTargetsField.
      destruct (negb (truthy_str (fk_location_model f))); [exact Hnd|].
      destruct (0 <? size (collectFkIds E records f))%nat; [|exact Hnd].
      apply Map_set_keys_NoDup, Hnd.
    + intros target. unfold targetEntry. rewrite fkIdsFor_snoc.
      unfold extractFkTargetsField, refersTo.
      destruct (fk_location_model f) as [s|] eqn:Hs; simpl.
      2:{ rewrite Hinv. unfold targetEntry. rewrite (right_id_L ∅ (∪)). reflexivity. }
      destruct (String.eqb s EmptyString) eqn:Hempty; simpl.
      { rewrite Hinv. unfold targetEntry. rewrite andb_false_r.
        rewrite (right_id_L ∅ (∪)). reflexivity. }
      rewrite andb_true_r.
      destruct (0 <? size (collectFkIds E records f))%nat eqn:Hsize.
      * apply Nat.ltb_lt in Hsize.
        assert (Hne : collectFkIds E records f <> ∅).
        { intros Heq. rewrite Heq, size_empty in Hsize. lia. }
        destruct (String.eqb s target) eqn:Hst.
        -- apply String.eqb_eq in Hst. subst s.
           rewrite Map_get_set_eq, Hinv. unfold targetEntry.
           destruct (decide (fkIdsFor E records seen target = ∅)) as [He|He]; simpl.
           ++ rewrite He. rewrite decide_False by set_solver. reflexivity.
           ++ rewrite decide_False by set_solver. reflexivity.
        -- apply String.eqb_neq in Hst.
           rewrite Map_get_set_ne by exact Hst.
           rewrite Hinv. unfold targetEntry. rewrite (right_id_L ∅ (∪)). reflexivity.
      * apply Nat.ltb_ge in Hsize.
        assert (He : collectFkIds E records f = ∅).
        { apply leibniz_equiv, size_empty_iff. lia. }
        rewrite He, Hinv. unfold targetEntry.
        destruct (String.eqb s target); rewrite (right_id_L ∅ (∪)); reflexivity.
Qed.

Lemma fkIdsFor_elem E records fkFields target n :
  n ∈ fkIdsFor E records fkFields target
  <-> exists f record,
        f ∈ fkFields /\ fk_location_model f = Some target /\ target <> EmptyString
        /\ record ∈ records
        /\ fkId (extractFkValueBySchema E record (descriptor f)) = Some n.
Proof.
  unfold fkIdsFor. rewrite elem_of_list_to_set, list_elem_of_In, in_concat. split.
  - intros (ids & Hids & Hn).
    apply in_map_iff in Hids as (f & <- & Hf).
    apply List.filter_In in Hf as [Hf Hrefers].
    unfold refersTo in Hrefers.
    destruct (fk_location_model f) as [s|] eqn:Hs; [|discriminate].
    apply andb_true_iff in Hrefers as [Hst Hne].
    apply String.eqb_eq in Hst. subst s.
    apply negb_true_iff, String.eqb_neq in Hne.
    apply list_elem_of_In in Hn. unfold resolvedIds in Hn.
    apply list_elem_of_omap in Hn as (record & Hrecord & Hfk).
    exists f, record. split; [apply list_elem_of_In, Hf|auto].
  - intros (f & record & Hf & Hs & Hne & Hrecord & Hfk).
    exists (resolvedIds E records f). split.
    + apply in_map_iff. exists f. split; [reflexivity|].
      apply List.filter_In. split; [apply list_elem_of_In, Hf|].
      unfold refersTo. rewrite Hs, String.eqb_refl. simpl.
      apply negb_true_iff, String.eqb_neq. exact Hne.
    + apply list_elem_of_In. unfold resolvedIds.
      apply list_elem_of_omap. exists record. auto.
Qed.

Lemma Map_get_elem {V} (m : list (string * V)) key v :
  NoDup (List.map fst m) -> (key, v) ∈ m -> Map_get m key = Some v.
Proof.
  induction m as [|[k w] rest IH]; simpl; intros Hnd Hin; [inversion Hin|].
  apply NoDup_cons in Hnd as [Hk Hrest].
  apply elem_of_cons in Hin as [[= -> ->] | Hin].
  - rewrite String.eqb_refl. reflexivity.
  - destruct (String.eqb k key) eqn:Hkey; [|apply IH; assumption].
    apply String.eqb_eq in Hkey. subst k. exfalso. apply Hk.
    apply list_elem_of_In, in_map_iff. exists (key, v).
    split; [reflexivity|apply list_elem_of_In, Hin].
Qed.

Lemma extractFkTargets_returns E records modelName t :
  extractFkTargets E records modelName t =
    (Return (foldl (extractFkTargetsField E records) []
                   (default [] (getFkFieldsFromSchema E modelName))),
     t ++ [EGetFkFields modelName]).
Proof.
  unfold extractFkTargets. rewrite bind_call_ok.
  destruct (getFkFieldsFromSchema E modelName) as [[|f fs]|]; reflexivity.
Qed.

(** X1.  [extractFkTargets] looks up the model's FK fields once and always
    returns.  Its map has one entry per target model, however many FK fields
    refer to that model; the entry of a target holds exactly the ids that
    some record resolves through some FK field referring to it, and a target
    for which no id resolves (or whose name is empty) has no entry. *)
Theorem X1_extractFkTargets_collects E records modelName t :
  exists fkTargets,
    extractFkTargets E records modelName t =
      (Return fkTargets, t ++ [EGetFkFields modelName])
    /\ NoDup (List.map fst fkTargets)
    /\ (forall target,
          Map_get fkTargets target
          = targetEntry E records (default [] (getFkFieldsFromSchema E modelName)) target)
    /\ (forall target ids, (target, ids) ∈ fkTargets ->
          ids <> ∅
          /\ forall n, n ∈ ids <->
               exists f record,
                 f ∈ default [] (getFkFieldsFromSchema E modelName)
                 /\ fk_location_model f = Some target /\ target <> EmptyString
                 /\ record ∈ records
                 /\ fkId (extractFkValueBySchema E record (descriptor f)) = Some n).
Proof.
  eexists. split; [apply extractFkTargets_returns|].
  destruct (extractFkTargets_loop E records
              (default [] (getFkFieldsFromSchema E modelName)) [] [])
    as [Hnd Hget].
  - constructor.
  - intros target. unfold targetEntry, fkIdsFor. simpl.
    rewrite decide_True by reflexivity. reflexivity.
  - simpl in Hget. split; [exact Hnd|]. split; [exact Hget|].
    intros target ids Hin.
    pose proof (Map_get_elem _ _ _ Hnd Hin) as Hentry.
    rewrite Hget in Hentry. unfold targetEntry in Hentry.
    destruct (decide (fkIdsFor E records
                        (default [] (getFkFieldsFromSchema E modelName)) target = ∅))
      as [He|He]; [discriminate|].
    injection Hentry as <-. split; [exact He|].
    intros n. apply fkIdsFor_elem.
Qed.

(** X2.  When no record resolves an id through any FK field of the model (in
    particular when there are no records or no FK fields), the collected map
    is empty and the cascade ends there: it enters no nested sync, and a
    skipped cascade does not even look up the FK fields. *)
Theorem X2_cascade_terminal E self modelName options records t
    (Hnone : forall f record,
        f ∈ default [] (getFkFieldsFromSchema E modelName) ->
        record ∈ records ->
        fkId (extractFkValueBySchema E record (descriptor f)) = None) :
  extractFkTargets E records modelName t = (Return [], t ++ [EGetFkFields modelName])
  /\ cascadeOf self E modelName options records t =
       (Return [], t ++ (if skipCascade options then [] else [EGetFkFields modelName])).
Proof.
  assert (Hempty : foldl (extractFkTargetsField E records) []
                     (default [] (getFkFieldsFromSchema E modelName)) = []).
  { destruct (extractFkTargets_loop E records
                (default [] (getFkFieldsFromSchema E modelName)) [] [])
      as [_ Hget].
    - constructor.
    - intros target. unfold targetEntry, fkIdsFor. simpl.
      rewrite decide_True by reflexivity. reflexivity.
    - simpl in Hget.
      destruct (foldl (extractFkTargetsField E records) []
                  (default [] (getFkFieldsFromSchema E modelName)))
        as [|[k ids] rest]; [reflexivity|].
      specialize (Hget k). simpl in Hget. rewrite String.eqb_refl in Hget.
      unfold targetEntry in Hget.
      destruct (decide (fkIdsFor E records
                          (default [] (getFkFieldsFromSchema E modelName)) k = ∅))
        as [He|He]; [discriminate|].
      exfalso. apply He. apply set_eq. intros n. split; [|set_solver].
      intros Hn. apply fkIdsFor_elem in Hn as (f & record & Hf & _ & _ & Hr & Hfk).
      rewrite (Hnone f record Hf Hr) in Hfk. discriminate. }
  split.
  - rewrite extractFkTargets_returns, Hempty. reflexivity.
  - unfold cascadeOf. destruct (skipCascade options); simpl.
    + unfold ret. rewrite app_nil_r. reflexivity.
    + unfold bind. rewrite extractFkTargets_returns, Hempty. reflexivity.
Qed.

Lemma X2_cascade_terminal_witness :
  cascadeOf (syncExcelData chainEnv 1) chainEnv "B" defaultOptions unlinkedRows []
    = (Return [], [] ++ [EGetFkFields "B"]).
Proof.
  apply (X2_cascade_terminal chainEnv (syncExcelData chainEnv 1) "B" defaultOptions
           unlinkedRows []).
  intros f record Hf Hr.
  apply elem_of_cons in Hf as [-> | Hf]; [|inversion Hf].
  apply elem_of_cons in Hr as [-> | Hr]; [|inversion Hr].
  vm_compute. reflexivity.
Defined.

(** ** Batches: what reaches the embedding service and the store *)

Lemma embedCalls_processBatch E batch t :
  embedCalls (processBatch E batch t).2
    = embedCalls t ++ [List.map tr_vector_text batch].
Proof.
  rewrite processBatch_spec. cbv zeta. unfold embedCalls.
  destruct (embedBatch E t _) as [embeddings|msg]; simpl.
  - destruct (_ =? _)%nat; simpl.
    + destruct (upsertToUnifiedCollection E _ _); simpl;
        rewrite !omap_app; simpl; rewrite app_nil_r; reflexivity.
    + rewrite omap_app. reflexivity.
  - rewrite omap_app. reflexivity.
Qed.

Lemma embedCalls_batchTrace E bs : forall t,
  embedCalls (batchTrace E bs t)
    = embedCalls t ++ List.map (List.map tr_vector_text) bs.
Proof.
  induction bs as [|b bs IH]; intros t; simpl.
  - rewrite app_nil_r. reflexivity.
  - rewrite IH, embedCalls_processBatch, <- app_assoc. reflexivity.
Qed.

(** X3.  Whatever fails on the way, the batch loop submits every transformed
    record to the embedding service exactly once and in input order: it makes
    one embedding call per batch, [ceil(n / 50)] calls in all, and the texts
    of these calls, put end to end, are the texts of the records. *)
Theorem X3_every_text_embedded_once E transformed t :
  embedCalls (runBatches E transformed t).2
    = embedCalls t ++ List.map (List.map tr_vector_text) (batchesOf transformed)
  /\ concat (List.map (List.map tr_vector_text) (batchesOf transformed))
     = List.map tr_vector_text transformed
  /\ length (batchesOf transformed) = batchCount (length transformed).
Proof.
  split; [|split].
  - rewrite runBatches_spec. cbv zeta. simpl. apply embedCalls_batchTrace.
  - rewrite <- concat_map, concat_batchesOf. reflexivity.
  - unfold batchesOf, batchesFrom. rewrite length_map, length_seq. reflexivity.
Qed.

(** A store write of a batch carries the points built from an embedding
    answer of the right length. *)
Lemma processBatch_upsert_inv E batch t out d points :
  processBatch E batch t = (out, t ++ d) ->
  EUpsertPoints points ∈ d ->
  exists embeddings,
    embedBatch E t (List.map tr_vector_text batch) = Ok embeddings
    /\ length embeddings = length batch
    /\ points = imap (buildPoint E embeddings
                        (isoNow E (t ++ [EEmbedBatch (List.map tr_vector_text batch)])))
                     batch.
Proof.
  rewrite processBatch_spec. cbv zeta. intros Hrun Hevent.
  destruct (embedBatch E t (List.map tr_vector_text batch)) as [embeddings|msg].
  - destruct (length embeddings =? length batch)%nat eqn:Hlen.
    + exists embeddings. split; [reflexivity|].
      split; [apply Nat.eqb_eq, Hlen|].
      assert (Hd : d = [EEmbedBatch (List.map tr_vector_text batch);
                        EUpsertPoints
                          (imap (buildPoint E embeddings
                                   (isoNow E (t ++ [EEmbedBatch
                                                      (List.map tr_vector_text batch)])))
                                batch)]).
      { destruct (upsertToUnifiedCollection E _ _);
          injection Hrun as _ Hrun; rewrite <- app_assoc in Hrun;
          apply app_inv_head in Hrun; symmetry; exact Hrun. }
      subst d.
      apply elem_of_cons in Hevent as [Heq | Hevent]; [discriminate|].
      apply elem_of_cons in Hevent as [Heq | Hevent]; [|inversion Hevent].
      injection Heq as ->. reflexivity.
    + injection Hrun as _ Hrun. apply app_inv_head in Hrun. subst d.
      apply elem_of_cons in Hevent as [Heq | Hevent]; [discriminate|inversion Hevent].
  - injection Hrun as _ Hrun. apply app_inv_head in Hrun. subst d.
    apply elem_of_cons in Hevent as [Heq | Hevent]; [discriminate|inversion Hevent].
Qed.

(** X4.  A batch is written to the store only after the embedding service
    has answered with exactly one embedding per record.  The write then holds
    one point per record, in the order of the batch; the point of the record
    at position [i] has the identity derived from the record's model id and
    record id and carries the embedding returned at position [i], so no
    stored point ever has an undefined vector. *)
Theorem X4_points_pair_records_with_embeddings E batch t out d points
    (Hrun : processBatch E batch t = (out, t ++ d))
    (Hevent : EUpsertPoints points ∈ d) :
  exists embeddings,
    embedBatch E t (List.map tr_vector_text batch) = Ok embeddings
    /\ length embeddings = length batch
    /\ length points = length batch
    /\ forall i r, batch !! i = Some r ->
         exists emb point,
           embeddings !! i = Some emb
           /\ points !! i = Some point
           /\ pt_vector point = Some emb
           /\ pt_id point = buildDataUuidV2 E (tr_model_id r) (tr_record_id r).
Proof.
  destruct (processBatch_upsert_inv E batch t out d points Hrun Hevent)
    as (embeddings & Hembed & Hlen & ->).
  exists embeddings. split; [exact Hembed|]. split; [exact Hlen|].
  split; [apply length_imap|].
  intros i r Hr.
  destruct (embeddings !! i) as [emb|] eqn:Hemb.
  - exists emb, (buildPoint E embeddings
                   (isoNow E (t ++ [EEmbedBatch (List.map tr_vector_text batch)])) i r).
    split; [reflexivity|].
    split; [rewrite list_lookup_imap, Hr; reflexivity|].
    split; [exact Hemb|reflexivity].
  - exfalso. apply lookup_ge_None in Hemb. apply lookup_lt_Some in Hr. lia.
Qed.

Lemma X4_points_pair_records_with_embeddings_witness :
  exists embeddings,
    embedBatch plainEnv [] (List.map tr_vector_text [collidingTransformed]) = Ok embeddings
    /\ length embeddings = 1%nat
    /\ length [buildPoint plainEnv [[0]] "T1" 0 collidingTransformed] = 1%nat
    /\ forall i r, [collidingTransformed] !! i = Some r ->
         exists emb point,
           embeddings !! i = Some emb
           /\ [buildPoint plainEnv [[0]] "T1" 0 collidingTransformed] !! i = Some point
           /\ pt_vector point = Some emb
           /\ pt_id point = buildDataUuidV2 plainEnv (tr_model_id r) (tr_record_id r).
Proof.
  apply (X4_points_pair_records_with_embeddings plainEnv [collidingTransformed] []
           (Return tt)
           [EEmbedBatch [tr_vector_text collidingTransformed];
            EUpsertPoints [buildPoint plainEnv [[0]] "T1" 0 collidingTransformed]]).
  - vm_compute. reflexivity.
  - right. left.
Defined.

(** ** Payload of a transformed record *)

Lemma js_truthy_not_nullish v : js_truthy v = true -> is_nullish v = false.
Proof. destruct v; simpl; congruence. Qed.

Lemma addFkFields_not_nullish E record payload field :
  (forall key v, payload !! key = Some v -> is_nullish v = false) ->
  forall key v, addFkFields E record payload field !! key = Some v ->
                is_nullish v = false.
Proof.
  intros Hpayload key v. unfold addFkFields.
  destruct (_ && _); [|apply Hpayload].
  destruct (fkId _) as [n|]; [|apply Hpayload].
  assert (Hq : forall w, <[field_name field +:+ "_qdrant" :=
                             VStr (buildDataUuidV2 E
                                     (default 0 (fk_location_model_id field)) (VNum n))]>
                         payload !! key = Some w -> is_nullish w = false).
  { intros w. destruct (decide (field_name field +:+ "_qdrant" = key)) as [->|Hne].
    - rewrite lookup_insert_eq. intros [= <-]. reflexivity.
    - rewrite lookup_insert_ne by exact Hne. apply Hpayload. }
  destruct (source _); try apply Hq.
  destruct (decide (field_name field +:+ "_id" = key)) as [->|Hne].
  - rewrite lookup_insert_eq. intros [= <-]. reflexivity.
  - rewrite lookup_insert_ne by exact Hne. apply Hq.
Qed.

Lemma foldl_addFkFields_not_nullish E record fields : forall payload,
  (forall key v, payload !! key = Some v -> is_nullish v = false) ->
  forall key v, foldl (addFkFields E record) payload fields !! key = Some v ->
                is_nullish v = false.
Proof.
  induction fields as [|f fs IH]; intros payload Hpayload; simpl; [exact Hpayload|].
  apply IH, addFkFields_not_nullish, Hpayload.
Qed.

(** X5.  The payload of a transformed record keeps every raw column whose
    value is neither null nor undefined, whether the schema knows the column
    or not, and holds no null or undefined value at all; the same is true of
    the payload stored with the record's point. *)
Theorem X5_payload_has_no_null E modelName modelId fields record embeddings ts i
    (Hid : hasId record = true) :
  (forall key v, record !! key = Some v -> is_nullish v = false ->
     is_Some (tr_payload (transformedOf E modelName modelId fields record) !! key))
  /\ (forall key v,
        tr_payload (transformedOf E modelName modelId fields record) !! key = Some v ->
        is_nullish v = false)
  /\ (forall key v,
        pt_payload (buildPoint E embeddings ts i
                      (transformedOf E modelName modelId fields record)) !! key = Some v ->
        is_nullish v = false).
Proof.
  assert (Hpayload : forall key v,
             tr_payload (transformedOf E modelName modelId fields record) !! key = Some v ->
             is_nullish v = false).
  { simpl. apply foldl_addFkFields_not_nullish. intros key v.
    rewrite copyFields_lookup. destruct (record !! key) as [w|]; [|discriminate].
    destruct (is_nullish w) eqn:Hw; [discriminate|]. intros [= <-]. exact Hw. }
  split; [|split; [exact Hpayload|]].
  - intros key v Hraw Hv. simpl. apply foldl_addFkFields_keeps.
    rewrite copyFields_lookup, Hraw, Hv. eauto.
  - intros key v. unfold buildPoint. cbn [pt_payload].
    rewrite lookup_union_Some_raw. intros [Hin | [_ Hsys]]; [eapply Hpayload, Hin|].
    unfold systemFields in Hsys. cbn [tr_record_id tr_model_name tr_model_id
                                       tr_vector_text transformedOf] in Hsys.
    repeat (apply lookup_insert_Some in Hsys as [[_ <-] | [_ Hsys]];
            [first [reflexivity | apply js_truthy_not_nullish; exact Hid]|]).
    rewrite lookup_empty in Hsys. discriminate.
Qed.

Lemma X5_payload_has_no_null_witness :
  is_Some (tr_payload nullCollidingTransformed !! "id")
  /\ tr_payload nullCollidingTransformed !! "model_name" = None
  /\ (forall key v,
        pt_payload (buildPoint plainEnv [[0]] "T1" 0 nullCollidingTransformed) !! key
          = Some v ->
        is_nullish v = false).
Proof.
  destruct (X5_payload_has_no_null plainEnv "customer" 2 [dataField "name" "Name"]
              nullCollidingRecord [[0]] "T1" 0%nat eq_refl) as (Hkeeps & _ & Hpoint).
  split; [apply (Hkeeps "id" (VNum 1)); reflexivity|].
  split; [vm_compute; reflexivity|exact Hpoint].
Defined.

Lemma string_app_inv_head (s a b : string) : s +:+ a = s +:+ b -> a = b.
Proof. induction s as [|c s IH]; simpl; [auto|]. intros [= H]. auto. Qed.

(** What the FK loop leaves under the two derived keys of a field whose FK id
    resolves, when no later field writes them. *)
Lemma addFkFields_link E record payload f n targetModelId :
  field_type f = "many2one" ->
  fk_location_model_id f = Some targetModelId -> targetModelId <> 0 ->
  fkId (extractFkValueBySchema E record (descriptor f)) = Some n ->
  addFkFields E record payload f !! (field_name f +:+ "_qdrant")
    = Some (VStr (buildDataUuidV2 E targetModelId (VNum n)))
  /\ (source (extractFkValueBySchema E record (descriptor f)) = scalar ->
      addFkFields E record payload f !! (field_name f +:+ "_id") = Some (VNum n)).
Proof.
  intros Htype Hmid Hnz Hfk. unfold addFkFields.
  rewrite Htype, Hmid, Hfk. simpl.
  apply Z.eqb_neq in Hnz. rewrite Hnz. simpl.
  assert (Hne : field_name f +:+ "_id" <> field_name f +:+ "_qdrant").
  { intros Heq. apply string_app_inv_head in Heq. discriminate. }
  split.
  - destruct (source _); rewrite ?(lookup_insert_ne _ _ _ _ Hne);
      apply lookup_insert_eq.
  - intros ->. apply lookup_insert_eq.
Qed.

(** X6.  For a many2one field with a target model id whose FK id resolves to
    [n], the payload stores under [<field>_qdrant] the identity derived from
    the target model id and [n], which is the identity of the point that the
    target record gets when its own model is synced; when the FK was given as
    a bare scalar it also stores [n] under [<field>_id].  (No later schema
    field may derive the same key.) *)
Theorem X6_fk_link_is_target_identity E modelName modelId pre f post record n
    targetModelId
    (Htype : field_type f = "many2one")
    (Hmid : fk_location_model_id f = Some targetModelId)
    (Hnz : targetModelId <> 0)
    (Hfk : fkId (extractFkValueBySchema E record (descriptor f)) = Some n)
    (Hlast : forall g, g ∈ post ->
               (field_name f +:+ "_qdrant" ∉ derivedKeys g)
               /\ (field_name f +:+ "_id" ∉ derivedKeys g)) :
  tr_payload (transformedOf E modelName modelId (pre ++ f :: post) record)
    !! (field_name f +:+ "_qdrant")
    = Some (VStr (buildDataUuidV2 E targetModelId (VNum n)))
  /\ (source (extractFkValueBySchema E record (descriptor f)) = scalar ->
      tr_payload (transformedOf E modelName modelId (pre ++ f :: post) record)
        !! (field_name f +:+ "_id") = Some (VNum n))
  /\ (forall targetName targetFields target embeddings ts i,
        prop target "id" = VNum n ->
        pt_id (buildPoint E embeddings ts i
                 (transformedOf E targetName targetModelId targetFields target))
        = buildDataUuidV2 E targetModelId (VNum n)).
Proof.
  cbn [tr_payload transformedOf]. rewrite foldl_app. cbn [foldl].
  destruct (addFkFields_link E record
              (foldl (addFkFields E record) (copyFields record) pre) f n targetModelId
              Htype Hmid Hnz Hfk) as [Hq Hi].
  split; [|split].
  - rewrite foldl_addFkFields_other by (intros g Hg; apply (Hlast g Hg)). exact Hq.
  - intros Hsrc.
    rewrite foldl_addFkFields_other by (intros g Hg; apply (Hlast g Hg)). auto.
  - intros targetName targetFields target embeddings ts i Hidn.
    unfold buildPoint. simpl. rewrite Hidn. reflexivity.
Qed.

Lemma X6_fk_link_is_target_identity_witness :
  tr_payload (transformedOf plainEnv "order" 9
                ([dataField "id" "ID"] ++ partnerField :: []) linkedOrder)
    !! "partner_qdrant"
  = Some (VStr (pt_id (buildPoint plainEnv [[0]] "T1" 0
                         (transformedOf plainEnv "partner" 3
                            [dataField "name" "Name"] partnerRow))))
  /\ tr_payload (transformedOf plainEnv "order" 9
                   ([dataField "id" "ID"] ++ partnerField :: []) linkedOrder)
       !! "partner_id" = Some (VNum 5).
Proof.
  destruct (X6_fk_link_is_target_identity plainEnv "order" 9 [dataField "id" "ID"]
              partnerField [] linkedOrder 5 3 eq_refl eq_refl)
    as (Hlink & Hid & Htarget).
  - discriminate.
  - reflexivity.
  - intros g Hg. inversion Hg.
  - split.
    + rewrite (Htarget "partner" [dataField "name" "Name"] partnerRow [[0]] "T1" 0%nat)
        by reflexivity.
      exact Hlink.
    + apply Hid. reflexivity.
Defined.

(** ** The main path of [syncExcelData] *)

(** The main path in closed form, up to the cascade. *)
Lemma syncExcelData_body_main E self modelName options records fields t :
  loads E modelName options records ->
  length records <> 0%nat -> dryRun options = false ->
  getModelFieldsFromSchema E modelName = Some fields -> fields <> [] ->
  syncExcelData_body E self modelName options t =
    match ensureModelIndexes E (writtenTrace E modelName options records fields t)
                             modelName fields with
    | Fail msg =>
        (Throw msg, writtenTrace E modelName options records fields t
                    ++ [EEnsureIndexes modelName fields])
    | Ok _ =>
        bind (cascadeOf self E modelName options records) (fun cascadedModels =>
        bind (observe (dateNow E)) (fun now =>
        ret (mainResult E modelName options records fields t cascadedModels now)))
          (writtenTrace E modelName options records fields t
           ++ [EEnsureIndexes modelName fields])
    end.
Proof.
  intros Hloads Hlen Hdry Hfields Hne.
  rewrite (syncExcelData_body_loads E self modelName options records t Hloads).
  cbv zeta iota. apply Nat.eqb_neq in Hlen. rewrite Hlen, Hdry.
  unfold bind at 1.
  rewrite (transformRecords_returns E records modelName _ _ fields Hfields Hne).
  rewrite <- app_assoc.
  change ([ESyncStart modelName options; EModelExists modelName;
           EGetModelId modelName; EReadExcel (dataFilePathOf E modelName options)]
          ++ [EGetModelFields modelName])
    with (preamble E modelName options).
  unfold bind at 1. rewrite runBatches_spec. cbv beta iota zeta.
  rewrite bind_call_ok, Hfields.
  destruct fields as [|f fs]; [congruence|].
  unfold bind at 1. unfold bind at 1. unfold updateKnowledgeGraph.
  rewrite updateKnowledgeGraph_loop. cbv beta iota.
  unfold bind at 1. unfold call at 1.
  unfold writtenTrace, graphEdges, transformedRecords.
  rewrite <- !app_assoc. cbn [app].
  destruct (ensureModelIndexes E _ modelName (f :: fs)) as [n|msg]; reflexivity.
Qed.

(** A returned result echoes the model name and the file path of the call;
    its model id is zero or the id of the schema. *)
Lemma syncExcelData_body_echo E self modelName options t r t' :
  syncExcelData_body E self modelName options t = (Return r, t') ->
  model_name r = modelName
  /\ file_path r = dataFilePathOf E modelName options
  /\ (model_id r = 0 \/ getModelIdFromSchema E modelName = Some (model_id r)).
Proof.
  unfold syncExcelData_body. rewrite bind_call_ok, bind_observe, bind_call_ok.
  destruct (modelExistsInSchema E modelName); step_if.
  2:{ unfold earlyResult. rewrite bind_observe. intros [= <- _]. simpl. auto. }
  rewrite bind_call_ok.
  destruct (truthy_num (getModelIdFromSchema E modelName)) eqn:Hid; step_if.
  2:{ unfold earlyResult. rewrite bind_observe. intros [= <- _]. simpl. auto. }
  assert (Hmid : getModelIdFromSchema E modelName
                 = Some (default 0 (getModelIdFromSchema E modelName)))
    by (destruct (getModelIdFromSchema E modelName); [reflexivity|discriminate]).
  intros Hrun. apply bind_Return in Hrun as (readResult & t1 & _ & Hrun).
  destruct readResult as [records|msg].
  2:{ unfold earlyResult in Hrun. rewrite bind_observe in Hrun.
      injection Hrun as <- _. simpl. auto. }
  destruct (length records =? 0)%nat.
  { unfold earlyResult in Hrun. rewrite bind_observe in Hrun.
    injection Hrun as <- _. simpl. auto. }
  destruct (dryRun options).
  { unfold earlyResult in Hrun. rewrite bind_observe in Hrun.
    injection Hrun as <- _. simpl. auto. }
  repeat (apply bind_Return in Hrun as (? & ? & _ & Hrun)).
  injection Hrun as <- _. simpl. auto.
Qed.

(** X7.  Every result that a sync returns echoes the model name and the file
    path of the call, and its counters add up: the records synced and the
    records failed are non-negative and together never exceed the records
    read.  When records were loaded and the run is not a dry run, the two
    counters together count exactly the rows with a truthy [id]: a row
    without one is read but is neither synced nor failed. *)
Theorem X7_counters_account_for_rows E fuel modelName options t r
    (Hrun : (syncExcelData E fuel modelName options t).1 = Return r) :
  model_name r = modelName
  /\ file_path r = dataFilePathOf E modelName options
  /\ 0 <= records_synced r /\ 0 <= records_failed r
  /\ records_synced r + records_failed r <= records_read r
  /\ (forall records,
        loads E modelName options records -> records <> [] -> dryRun options = false ->
        records_read r = Z.of_nat (length records)
        /\ records_synced r + records_failed r
           = Z.of_nat (length (List.filter hasId records))).
Proof.
  destruct fuel as [|fuel]; [discriminate|].
  rewrite syncExcelData_unfold in Hrun.
  destruct (syncExcelData_body E (syncExcelData E fuel) modelName options t)
    as [o t'] eqn:Hbody.
  simpl in Hrun. subst o. rename Hbody into Hrun.
  destruct (syncExcelData_body_echo _ _ _ _ _ _ _ Hrun) as (Hname & Hpath & _).
  split; [exact Hname|]. split; [exact Hpath|].
  destruct (loads_or_fatal E modelName options) as [Hfatal | (records & Hloads)].
  - destruct (syncExcelData_body_fatal E (syncExcelData E fuel) modelName options t Hfatal)
      as (r' & d & Hrun' & _ & _ & Hread & Hsynced & Hfailed & _).
    rewrite Hrun in Hrun'. injection Hrun' as <- _.
    rewrite Hread, Hsynced, Hfailed.
    split; [lia|]. split; [lia|]. split; [lia|].
    intros records (Hex & Hid & Hfile & Hsheet) _ _.
    destruct Hfatal as [Hex' | [Hid' | [Hno | (msg & Hmsg)]]]; congruence.
  - assert (Hsame : forall records', loads E modelName options records' ->
                                     records' = records).
    { intros records' (_ & _ & _ & Hsheet').
      destruct Hloads as (_ & _ & _ & Hsheet). congruence. }
    destruct (syncExcelData_body_result _ _ _ _ _ _ _ _ Hloads Hrun)
      as [(Hearly & _ & _ & Hsynced & Hfailed & _)
         | (Hlen & Hdry & fields & cms & t1 & t2 & _ & _ & Hres)].
    + rewrite Hsynced, Hfailed.
      assert (Hread : 0 <= records_read r).
      { rewrite (syncExcelData_body_loads _ _ _ _ _ _ Hloads) in Hrun.
        cbv zeta iota in Hrun.
        destruct (length records =? 0)%nat eqn:Hnil;
          [|destruct (dryRun options) eqn:Hdry;
            [|destruct Hearly as [Hearly | Hearly];
              [rewrite Hearly in Hnil|]; discriminate]];
          unfold earlyResult in Hrun; rewrite bind_observe in Hrun;
          injection Hrun as <- _; simpl; lia. }
      split; [lia|]. split; [lia|]. split; [lia|].
      intros records' Hloads' Hne Hdry. apply Hsame in Hloads'. subst records'.
      destruct Hearly as [Hearly | Hearly]; [|congruence].
      destruct records; [congruence|discriminate].
    + cbv zeta in Hres.
      destruct Hres as (_ & _ & Hread & Hsynced & Hfailed & _).
      match type of Hsynced with
      | _ = Z.of_nat (syncedCount ?bs (batchOutcomes _ _ ?t0)) =>
          pose proof (synced_failed_total E bs t0) as Hsum
      end.
      rewrite concat_batchesOf, length_map in Hsum.
      pose proof (List.filter_length_le hasId records) as Hle.
      rewrite Hread, Hsynced, Hfailed.
      split; [lia|]. split; [lia|]. split; [lia|].
      intros records' Hloads' _ _. apply Hsame in Hloads'. subst records'.
      split; [reflexivity|lia].
Qed.

Lemma X7_counters_account_for_rows_witness :
  exists r,
    (syncExcelData sparseEnv 1 "customer" defaultOptions []).1 = Return r
    /\ records_read r = 4
    /\ records_synced r + records_failed r = 2.
Proof.
  assert (Hret : exists r,
             (syncExcelData sparseEnv 1 "customer" defaultOptions []).1 = Return r)
    by (eexists; vm_compute; reflexivity).
  destruct Hret as (r & Hret).
  destruct (X7_counters_account_for_rows sparseEnv 1 "customer" defaultOptions [] r Hret)
    as (_ & _ & _ & _ & _ & Hrows).
  destruct (Hrows sparseRecords) as (Hread & Hsum).
  - repeat split; reflexivity.
  - discriminate.
  - reflexivity.
  - exists r. split; [exact Hret|]. split; [exact Hread|exact Hsum].
Defined.

(** X8.  A data file with no rows is a success whatever the options and
    whatever the schema holds for the model: the call stops after the two
    model lookups and the file read, so it asks for no schema fields (and
    cannot fail for lack of them), writes nothing and cascades to no model. *)
Theorem X8_empty_file E fuel modelName options t
    (Hloads : loads E modelName options []) :
  syncExcelData E (S fuel) modelName options t =
    (Return {| success := true;
               model_name := modelName;
               model_id := default 0 (getModelIdFromSchema E modelName);
               file_path := dataFilePathOf E modelName options;
               records_read := 0; records_synced := 0; records_failed := 0;
               duration_ms :=
                 dateNow E (t ++ [ESyncStart modelName options; EModelExists modelName;
                                  EGetModelId modelName;
                                  EReadExcel (dataFilePathOf E modelName options)])
                 - dateNow E (t ++ [ESyncStart modelName options]);
               errors := [];
               cascaded_models := None |},
     t ++ [ESyncStart modelName options; EModelExists modelName;
           EGetModelId modelName; EReadExcel (dataFilePathOf E modelName options)]).
Proof.
  rewrite syncExcelData_unfold.
  rewrite (syncExcelData_body_loads _ _ _ _ _ _ Hloads).
  cbv zeta iota. unfold earlyResult. simpl. rewrite bind_observe. reflexivity.
Qed.

Lemma X8_empty_file_witness :
  exists r t',
    syncExcelData emptySheetEnv 1 "customer" defaultOptions [] = (Return r, t')
    /\ success r = true /\ length t' = 4%nat
    /\ getModelFieldsFromSchema emptySheetEnv "customer" = Some [].
Proof.
  eexists _, _. split; [apply (X8_empty_file emptySheetEnv 0 "customer" defaultOptions [])|].
  - repeat split; reflexivity.
  - repeat split; reflexivity.
Defined.

Lemma batchTrace_batch_events E bs : forall t,
  exists d, batchTrace E bs t = t ++ d /\ Forall (fun e => isBatchEvent e = true) d.
Proof.
  induction bs as [|b bs IH]; intros t; simpl.
  - exists []. rewrite app_nil_r. auto.
  - destruct (IH (processBatch E b t).2) as (d' & Hd' & HP').
    assert (Hstep : exists d, (processBatch E b t).2 = t ++ d
                              /\ Forall (fun e => isBatchEvent e = true) d).
    { rewrite processBatch_spec. cbv zeta.
      destruct (embedBatch E t _) as [embeddings|msg]; simpl.
      - destruct (_ =? _)%nat; simpl.
        + destruct (upsertToUnifiedCollection E _ _); simpl;
            rewrite <- app_assoc; eexists; (split; [reflexivity|]);
            repeat constructor.
        + eexists. split; [reflexivity|]. repeat constructor.
      - eexists. split; [reflexivity|]. repeat constructor. }
    destruct Hstep as (d & Hd & HP).
    exists (d ++ d'). rewrite Hd', Hd, app_assoc. split; [reflexivity|].
    apply Forall_app; auto.
Qed.

(** X9.  The order of the writes of a call that has loaded rows (not a dry
    run, schema fields known).  The trace is: the entry of the call, the two
    model lookups, the file read and the lookup of the schema fields, then the
    embedding calls and store writes of the batches, then a second lookup of
    the schema fields, then one graph upsert per edge in schema order, then
    the index creation; so the graph is updated and the indexes are requested
    whether or not any batch was stored.  If the index service fails, its
    error is thrown from the call: no result is returned although the batches
    and the edges have been written.  If it answers and the cascade is
    skipped, the call ends there with the result of the batches. *)
Theorem X9_order_of_writes E fuel modelName options records fields t
    (Hloads : loads E modelName options records)
    (Hrows : records <> [])
    (Hdry : dryRun options = false)
    (Hfields : getModelFieldsFromSchema E modelName = Some fields)
    (Hsome : fields <> []) :
  (exists batchEvents,
      writtenTrace E modelName options records fields t =
        t ++ preamble E modelName options ++ batchEvents
          ++ EGetModelFields modelName
             :: List.map EUpsertRelationship (graphEdges E modelName records fields)
      /\ Forall (fun e => isBatchEvent e = true) batchEvents)
  /\ (forall msg,
        ensureModelIndexes E (writtenTrace E modelName options records fields t)
                           modelName fields = Fail msg ->
        syncExcelData E (S fuel) modelName options t =
          (Throw msg, writtenTrace E modelName options records fields t
                      ++ [EEnsureIndexes modelName fields]))
  /\ (forall n,
        ensureModelIndexes E (writtenTrace E modelName options records fields t)
                           modelName fields = Ok n ->
        skipCascade options = true ->
        syncExcelData E (S fuel) modelName options t =
          (Return (mainResult E modelName options records fields t []
                     (dateNow E (writtenTrace E modelName options records fields t
                                 ++ [EEnsureIndexes modelName fields]))),
           writtenTrace E modelName options records fields t
           ++ [EEnsureIndexes modelName fields])).
Proof.
  assert (Hlen : length records <> 0%nat) by (destruct records; [congruence|discriminate]).
  split; [|split].
  - unfold writtenTrace.
    destruct (batchTrace_batch_events E
                (batchesOf (transformedRecords E modelName records fields))
                (t ++ preamble E modelName options)) as (d & Hd & HP).
    exists d. split; [|exact HP]. rewrite Hd, <- !app_assoc. reflexivity.
  - intros msg Hidx. rewrite syncExcelData_unfold.
    rewrite (syncExcelData_body_main _ _ _ _ _ _ _ Hloads Hlen Hdry Hfields Hsome).
    rewrite Hidx. reflexivity.
  - intros n Hidx Hskip. rewrite syncExcelData_unfold.
    rewrite (syncExcelData_body_main _ _ _ _ _ _ _ Hloads Hlen Hdry Hfields Hsome).
    rewrite Hidx. unfold cascadeOf. rewrite Hskip. simpl.
    rewrite bind_ret, bind_observe. reflexivity.
Qed.

Lemma X9_order_of_writes_witness :
  (syncExcelData indexDownEnv 1 "order" defaultOptions []).1
    = Throw "index service unavailable"
  /\ List.map rel_field_name
       (upsertedEdges (syncExcelData indexDownEnv 1 "order" defaultOptions []).2)
     = ["partner"; "owner"; "agent"]
  /\ length (upsertCalls (syncExcelData indexDownEnv 1 "order" defaultOptions []).2)
     = 1%nat.
Proof.
  destruct (X9_order_of_writes indexDownEnv 0 "order" defaultOptions
              (default [] (match readSheet indexDownEnv "samples/SAMPLE_order_data.xlsx"
                           with Ok rows => Some rows | Fail _ => None end))
              (default [] (getModelFieldsFromSchema indexDownEnv "order")) [])
    as (_ & Hthrow & _).
  - repeat split; reflexivity.
  - discriminate.
  - reflexivity.
  - reflexivity.
  - discriminate.
  - rewrite (Hthrow "index service unavailable" eq_refl).
    split; [reflexivity|]. split; vm_compute; reflexivity.
Defined.

(** ** Nested syncs of the cascade *)

Lemma syncStarts_app t d : syncStarts (t ++ d) = syncStarts t ++ syncStarts d.
Proof. apply omap_app. Qed.

Lemma syncStarts_leaf d : Forall leafEvent d -> syncStarts d = [].
Proof.
  induction 1 as [|e d He _ IH]; [reflexivity|].
  destruct e; simpl in *; try exact IH; contradiction.
Qed.

Lemma syncStarts_batch d : Forall (fun e => isBatchEvent e = true) d -> syncStarts d = [].
Proof.
  intros H. apply syncStarts_leaf. eapply Forall_impl; [exact H|].
  intros e. destruct e; simpl; try discriminate; auto.
Qed.

Lemma syncStarts_edges rels : syncStarts (List.map EUpsertRelationship rels) = [].
Proof. induction rels as [|rel rels IH]; [reflexivity|exact IH]. Qed.

Lemma syncStarts_writtenTrace E modelName options records fields t :
  syncStarts (writtenTrace E modelName options records fields t)
    = syncStarts t ++ [(modelName, skipCascade options)].
Proof.
  unfold writtenTrace.
  destruct (batchTrace_batch_events E
              (batchesOf (transformedRecords E modelName records fields))
              (t ++ preamble E modelName options)) as (d & -> & HP).
  rewrite !syncStarts_app, (syncStarts_batch d HP). simpl.
  rewrite syncStarts_edges, !app_nil_r. reflexivity.
Qed.

Lemma fkTargetNames_spec E modelName records :
  NoDup (fkTargetNames E modelName records)
  /\ forall target,
       target ∈ fkTargetNames E modelName records
       <-> is_Some (targetEntry E records
                      (default [] (getFkFieldsFromSchema E modelName)) target).
Proof.
  unfold fkTargetNames.
  destruct (extractFkTargets_loop E records
              (default [] (getFkFieldsFromSchema E modelName)) [] [])
    as [Hnd Hget].
  - constructor.
  - intros target. unfold targetEntry, fkIdsFor. simpl.
    rewrite decide_True by reflexivity. reflexivity.
  - simpl in Hget. split; [exact Hnd|]. intros target.
    rewrite <- Hget. rewrite <- not_eq_None_Some, Map_get_None_keys.
    split; [auto|]. intros Hnn.
    destruct (decide (target ∈ List.map fst
                        (foldl (extractFkTargetsField E records) []
                               (default [] (getFkFieldsFromSchema E modelName)))));
      [assumption|contradiction].
Qed.

(** The sync entries of the cascade loop over calls whose cascade is
    disabled: one per target, in the order of the map. *)
Lemma forOf_cascade_starts E fuel dry frc targets : forall acc t,
  syncStarts (forOf (cascadeStep (syncExcelData E (S fuel)) dry frc) acc targets t).2
    = syncStarts t ++ List.map (fun x => (x.1, true)) targets.
Proof.
  induction targets as [|x rest IH]; intros acc t; cbn [forOf List.map].
  - unfold ret. cbn [snd]. rewrite app_nil_r. reflexivity.
  - unfold bind at 1.
    assert (Hstep : exists acc' t1,
               cascadeStep (syncExcelData E (S fuel)) dry frc acc x t = (Return acc', t1)
               /\ syncStarts t1 = syncStarts t ++ [(x.1, true)]).
    { unfold cascadeStep, try_catch, bind.
      destruct (cascaded_body_runs E (syncExcelData E fuel) x.1
                  {| filePath := None; skipCascade := true; dryRun := dry; force := frc |}
                  t eq_refl) as (Hne & d & Hd & HP).
      rewrite <- syncExcelData_unfold in Hne, Hd.
      destruct (syncExcelData E (S fuel) x.1 _ t) as [[r|msg|] t1];
        simpl in Hne, Hd; [| |congruence]; subst t1.
      - destruct (success r); eexists _, _; (split; [reflexivity|]);
          rewrite syncStarts_app; simpl; rewrite (syncStarts_leaf d HP); reflexivity.
      - eexists _, _; (split; [reflexivity|]).
        rewrite syncStarts_app; simpl; rewrite (syncStarts_leaf d HP); reflexivity. }
    destruct Hstep as (acc' & t1 & -> & Hstarts).
    rewrite IH, Hstarts, <- app_assoc. reflexivity.
Qed.

Lemma bind_observe_ret_trace {A B C} (m : M A) (f : trace -> B) (g : A -> B -> C) t :
  (bind m (fun a => bind (observe f) (fun b => ret (g a b))) t).2 = (m t).2.
Proof. unfold bind, observe, ret. destruct (m t) as [[a|msg|] t1]; reflexivity. Qed.

(** The sync entries of the cascade of a root call. *)
Lemma cascadeOf_starts E fuel modelName options records t :
  syncStarts (cascadeOf (syncExcelData E (S fuel)) E modelName options records t).2
    = syncStarts t
      ++ (if skipCascade options then []
          else List.map (fun target => (target, true))
                        (fkTargetNames E modelName records)).
Proof.
  unfold cascadeOf. destruct (skipCascade options); cbn [negb]; cbv iota.
  - unfold ret. cbn [snd]. rewrite app_nil_r. reflexivity.
  - unfold bind. rewrite extractFkTargets_returns. unfold fkTargetNames.
    destruct (foldl _ _ _) as [|x rest] eqn:Hmap.
    + cbn. rewrite syncStarts_app. cbn. rewrite !app_nil_r. reflexivity.
    + change (0 <? length (x :: rest))%nat with true. cbv iota.
      rewrite forOf_cascade_starts, syncStarts_app, List.map_map. cbn [syncStarts omap].
      rewrite app_nil_r. reflexivity.
Qed.

(** A sync entry among the projected ones comes from an entry of the trace. *)
Lemma syncStarts_elem model b d :
  (model, b) ∈ syncStarts d ->
  exists o, ESyncStart model o ∈ d /\ skipCascade o = b.
Proof.
  unfold syncStarts. intros Hin.
  apply list_elem_of_omap in Hin as (e & He & Heq).
  destruct e; try discriminate. injection Heq as <- <-. eauto.
Qed.

(** The sync entries of a root call that reaches its cascade: its own entry,
    then one entry per target model of the FK target collector. *)
Lemma reached_cascade_starts E fuel modelName options records fields n t :
  loads E modelName options records -> records <> [] ->
  dryRun options = false -> skipCascade options = false ->
  getModelFieldsFromSchema E modelName = Some fields -> fields <> [] ->
  ensureModelIndexes E (writtenTrace E modelName options records fields t)
                     modelName fields = Ok n ->
  syncStarts (syncExcelData E (S (S fuel)) modelName options t).2
    = syncStarts t ++ (modelName, false)
                      :: List.map (fun target => (target, true))
                                  (fkTargetNames E modelName records).
Proof.
  intros Hloads Hrows Hdry Hskip Hfields Hsome Hidx.
  assert (Hlen : length records <> 0%nat) by (destruct records; [congruence|discriminate]).
  rewrite syncExcelData_unfold.
  rewrite (syncExcelData_body_main _ _ _ _ _ _ _ Hloads Hlen Hdry Hfields Hsome).
  rewrite Hidx, bind_observe_ret_trace, cascadeOf_starts, Hskip.
  rewrite syncStarts_app, syncStarts_writtenTrace, Hskip. cbn [syncStarts omap].
  rewrite app_nil_r, <- app_assoc. reflexivity.
Qed.

(** C2.  With enough fuel for one level of nesting (none is needed when the
    cascade is disabled) a call never runs out of fuel.  After its own entry,
    every sync entry in its trace is that of a nested call with the cascade
    disabled, issued for a target model of one of the root model's FK fields;
    FK fields are looked up for the root model only, and only when its
    cascade is enabled.  A call whose cascade is disabled looks up no FK
    fields and enters no nested sync.  Hence a model that is not an FK target
    of the root, such as C for A -> B -> C, is never synced from the root
    call.  And the targets are synced: when a call with the cascade enabled
    reaches its cascade (the rows are loaded and not empty, the run is not
    dry, the model has fields and the index service answers), the nested sync
    entries are exactly one per model that the FK target collector finds in
    the loaded rows, in its order, so that every model for which the rows
    resolve an FK id, such as B for A -> B, is synced with the cascade
    disabled. *)
Theorem C2_cascade_one_hop E fuel modelName options t
    (Hfuel : ((if skipCascade options then 1 else 2) <= fuel)%nat) :
  (syncExcelData E fuel modelName options t).1 <> OutOfFuel
  /\ exists d,
       (syncExcelData E fuel modelName options t).2
         = t ++ ESyncStart modelName options :: d
       /\ Forall (rootEvent E modelName options) d
       /\ (forall target o, ESyncStart target o ∈ d ->
             skipCascade options = false /\ o = cascadeOptions options
             /\ skipCascade o = true /\ fkTargetOf E modelName target)
       /\ (skipCascade options = true -> Forall leafEvent d)
       /\ (forall model, EGetFkFields model ∈ d ->
             model = modelName /\ skipCascade options = false)
       /\ (forall other, ~ fkTargetOf E modelName other ->
             forall o, ESyncStart other o ∉ d)
       /\ (forall records fields n,
             loads E modelName options records -> records <> [] ->
             dryRun options = false -> skipCascade options = false ->
             getModelFieldsFromSchema E modelName = Some fields -> fields <> [] ->
             ensureModelIndexes E (writtenTrace E modelName options records fields t)
                                modelName fields = Ok n ->
             syncStarts d
               = List.map (fun target => (target, true))
                          (fkTargetNames E modelName records)
             /\ forall target,
                  is_Some (targetEntry E records
                             (default [] (getFkFieldsFromSchema E modelName)) target) ->
                  ESyncStart target (cascadeOptions options) ∈ d).
Proof.
  assert (Hrun :
    (syncExcelData E fuel modelName options t).1 <> OutOfFuel
    /\ exists d,
         (syncExcelData E fuel modelName options t).2
           = t ++ ESyncStart modelName options :: d
         /\ Forall (rootEvent E modelName options) d
         /\ (skipCascade options = true -> Forall leafEvent d)).
  { destruct (skipCascade options) eqn:Hskip.
    - destruct fuel as [|fuel]; [lia|]. rewrite syncExcelData_unfold.
      destruct (cascaded_body_runs E (syncExcelData E fuel) modelName options t Hskip)
        as (Hne & d & Hd & HP).
      split; [exact Hne|]. exists d. split; [exact Hd|]. split; [|auto].
      eapply Forall_impl; [exact HP|]. intros e He. left. exact He.
    - destruct fuel as [|[|fuel]]; [lia|lia|]. rewrite syncExcelData_unfold.
      destruct (root_body_runs E (syncExcelData E (S fuel)) modelName options t)
        as (Hne & d & Hd & HP).
      + intros target t0. rewrite syncExcelData_unfold.
        apply cascaded_body_runs. reflexivity.
      + split; [exact Hne|]. exists d. split; [exact Hd|]. split; [exact HP|].
        discriminate. }
  destruct Hrun as (Hne & d & Hd & HP & Hleaf).
  split; [exact Hne|]. exists d. split; [exact Hd|]. split; [exact HP|].
  rewrite Forall_forall in HP.
  assert (Hstart : forall target o, ESyncStart target o ∈ d ->
            skipCascade options = false /\ o = cascadeOptions options
            /\ skipCascade o = true /\ fkTargetOf E modelName target).
  { intros target o Hin.
    destruct (HP _ Hin) as [[] | (Hskip & [Hfk | (target' & Htarget & Heq)])];
      [discriminate|].
    injection Heq as -> ->. auto. }
  split; [exact Hstart|]. split; [exact Hleaf|]. split; [|split].
  - intros model Hin.
    destruct (HP _ Hin) as [[] | (Hskip & [Hfk | (target' & _ & Heq)])];
      [|discriminate].
    injection Hfk as ->. auto.
  - intros other Hnot o Hin. apply Hnot. apply (Hstart other o Hin).
  - intros records fields n Hloads Hrows Hdry Hskip Hfields Hsome Hidx.
    rewrite Hskip in Hfuel. destruct fuel as [|[|fuel]]; [lia|lia|].
    pose proof (reached_cascade_starts E fuel modelName options records fields n t
                  Hloads Hrows Hdry Hskip Hfields Hsome Hidx) as Hs.
    rewrite Hd, syncStarts_app in Hs. apply app_inv_head in Hs.
    cbn [syncStarts omap] in Hs. injection Hs as _ Hs.
    split; [exact Hs|]. intros target Hentry.
    apply (fkTargetNames_spec E modelName records) in Hentry.
    assert (Hin : (target, true) ∈ syncStarts d).
    { rewrite Hs. apply list_elem_of_In, in_map_iff. exists target.
      split; [reflexivity|]. apply list_elem_of_In, Hentry. }
    apply syncStarts_elem in Hin as (o & Hin & _).
    destruct (Hstart target o Hin) as (_ & -> & _). exact Hin.
Qed.

Lemma C2_cascade_one_hop_witness :
  (exists r, (syncExcelData chainEnv 2 "A" defaultOptions []).1 = Return r
             /\ success r = true
             /\ cascaded_models r
                = Some [ {| cm_model_name := "B"; cm_records_synced := 1 |} ])
  /\ syncStarts (syncExcelData chainEnv 2 "A" defaultOptions []).2
     = [("A", false); ("B", true)]
  /\ exists d, (syncExcelData chainEnv 2 "A" defaultOptions []).2
               = [] ++ ESyncStart "A" defaultOptions :: d
               /\ (forall o, ESyncStart "C" o ∉ d)
               /\ syncStarts d = [("B", true)]
               /\ ESyncStart "B" (cascadeOptions defaultOptions) ∈ d.
Proof.
  split; [eexists; split; [vm_compute; reflexivity|split; reflexivity]|].
  split; [vm_compute; reflexivity|].
  destruct (C2_cascade_one_hop chainEnv 2 "A" defaultOptions [])
    as (_ & d & Hd & _ & _ & _ & _ & Hnever & Hsynced).
  - simpl. lia.
  - exists d. split; [exact Hd|]. split.
    + apply Hnever. intros (f & Hin & Hf).
      apply elem_of_cons in Hin as [-> | Hin]; [discriminate|inversion Hin].
    + destruct (Hsynced
                  (default [] (match readSheet chainEnv "samples/SAMPLE_A_data.xlsx"
                               with Ok rows => Some rows | Fail _ => None end))
                  (default [] (getModelFieldsFromSchema chainEnv "A")) 0)
        as (Hstarts & Hlive).
      * repeat split; reflexivity.
      * discriminate.
      * reflexivity.
      * reflexivity.
      * reflexivity.
      * discriminate.
      * reflexivity.
      * split; [rewrite Hstarts; vm_compute; reflexivity|].
        apply Hlive. vm_compute. eauto.
Defined.

(** X10.  Which models a call syncs.  With fuel for one level of nesting, the
    sync entries that a call adds to the trace are its own entry followed by
    one entry, with the cascade disabled, per model in [targets], and no
    model occurs twice in [targets]: within one call a target model is synced
    once however many FK fields and records refer to it.  (The root model
    itself is among the targets when one of its FK fields refers to it.)
    [targets] is empty when the cascade is skipped; each target is a model
    for which the loaded rows resolve at least one FK id; and when the call
    reaches its cascade, every such model is a target. *)
Theorem X10_cascade_syncs_each_target_once E fuel modelName options t
    (Hfuel : (2 <= fuel)%nat) :
  exists targets,
    syncStarts (syncExcelData E fuel modelName options t).2
      = syncStarts t ++ (modelName, skipCascade options)
                        :: List.map (fun target => (target, true)) targets
    /\ NoDup targets
    /\ (skipCascade options = true -> targets = [])
    /\ (forall target, target ∈ targets ->
          exists records,
            loads E modelName options records
            /\ is_Some (targetEntry E records
                          (default [] (getFkFieldsFromSchema E modelName)) target))
    /\ (forall records fields n,
          loads E modelName options records -> records <> [] ->
          dryRun options = false -> skipCascade options = false ->
          getModelFieldsFromSchema E modelName = Some fields -> fields <> [] ->
          ensureModelIndexes E (writtenTrace E modelName options records fields t)
                             modelName fields = Ok n ->
          forall target,
            is_Some (targetEntry E records
                       (default [] (getFkFieldsFromSchema E modelName)) target) ->
            target ∈ targets).
Proof.
  destruct fuel as [|[|fuel]]; [lia|lia|]. rewrite syncExcelData_unfold.
  assert (Hnone : forall d,
            (syncExcelData_body E (syncExcelData E (S fuel)) modelName options t).2
              = t ++ ESyncStart modelName options :: d ->
            Forall leafEvent d ->
            (forall records fields n,
                loads E modelName options records -> records <> [] ->
                dryRun options = false -> skipCascade options = false ->
                getModelFieldsFromSchema E modelName = Some fields -> fields <> [] ->
                ensureModelIndexes E (writtenTrace E modelName options records fields t)
                                   modelName fields = Ok n ->
                fkTargetNames E modelName records = []) ->
            exists targets,
              syncStarts
                (syncExcelData_body E (syncExcelData E (S fuel)) modelName options t).2
                = syncStarts t ++ (modelName, skipCascade options)
                                  :: List.map (fun target => (target, true)) targets
              /\ NoDup targets
              /\ (skipCascade options = true -> targets = [])
              /\ (forall target, target ∈ targets ->
                    exists records,
                      loads E modelName options records
                      /\ is_Some (targetEntry E records
                                    (default [] (getFkFieldsFromSchema E modelName))
                                    target))
              /\ (forall records fields n,
                    loads E modelName options records -> records <> [] ->
                    dryRun options = false -> skipCascade options = false ->
                    getModelFieldsFromSchema E modelName = Some fields -> fields <> [] ->
                    ensureModelIndexes E
                      (writtenTrace E modelName options records fields t)
                      modelName fields = Ok n ->
                    forall target,
                      is_Some (targetEntry E records
                                 (default [] (getFkFieldsFromSchema E modelName))
                                 target) ->
                      target ∈ targets)).
  { intros d Hd HP Hreach. exists []. rewrite Hd, syncStarts_app. simpl.
    rewrite (syncStarts_leaf d HP).
    split; [reflexivity|]. split; [constructor|]. split; [reflexivity|].
    split; [intros target Hin; inversion Hin|].
    intros records fields n Hl Hr Hdry Hskip Hf Hfne Hidx target Hentry.
    apply (fkTargetNames_spec E modelName records) in Hentry.
    rewrite (Hreach records fields n Hl Hr Hdry Hskip Hf Hfne Hidx) in Hentry.
    exact Hentry. }
  destruct (skipCascade options) eqn:Hskip.
  { destruct (cascaded_body_runs E (syncExcelData E (S fuel)) modelName options t Hskip)
      as (_ & d & Hd & HP).
    apply (Hnone d Hd HP). intros; discriminate. }
  destruct (loads_or_fatal E modelName options) as [Hfatal | (records & Hloads)].
  { destruct (syncExcelData_body_fatal E (syncExcelData E (S fuel)) modelName options t
                Hfatal) as (r & d & Hrun & _ & _ & _ & _ & _ & _ & Hpre).
    apply (Hnone d); [rewrite Hrun; reflexivity| |].
    - destruct Hpre as (rest & Hrest).
      assert (Hall : Forall leafEvent (d ++ rest))
        by (rewrite <- Hrest; repeat constructor).
      apply Forall_app in Hall as [Hall _]. exact Hall.
    - intros records fields n (Hex & Hid & Hfile & Hsheet).
      destruct Hfatal as [Hex' | [Hid' | [Hno | (msg & Hmsg)]]]; congruence. }
  assert (Hsame : forall records', loads E modelName options records' ->
                                   records' = records).
  { intros records' (_ & _ & _ & Hsheet').
    destruct Hloads as (_ & _ & _ & Hsheet). congruence. }
  assert (Hearly : forall ok recordsRead errs,
             records = [] \/ dryRun options = true ->
             syncExcelData_body E (syncExcelData E (S fuel)) modelName options t
             = earlyResult E (dateNow E (t ++ [ESyncStart modelName options])) ok
                 modelName (default 0 (getModelIdFromSchema E modelName))
                 (dataFilePathOf E modelName options) recordsRead errs
                 (t ++ [ESyncStart modelName options; EModelExists modelName;
                        EGetModelId modelName;
                        EReadExcel (dataFilePathOf E modelName options)]) ->
             exists targets,
               syncStarts
                 (syncExcelData_body E (syncExcelData E (S fuel)) modelName options t).2
               = syncStarts t ++ (modelName, false)
                                 :: List.map (fun target => (target, true)) targets
               /\ NoDup targets
               /\ (false = true -> targets = [])
               /\ (forall target, target ∈ targets ->
                     exists records,
                       loads E modelName options records
                       /\ is_Some (targetEntry E records
                                     (default [] (getFkFieldsFromSchema E modelName))
                                     target))
               /\ (forall records fields n,
                     loads E modelName options records -> records <> [] ->
                     dryRun options = false -> false = false ->
                     getModelFieldsFromSchema E modelName = Some fields -> fields <> [] ->
                     ensureModelIndexes E
                       (writtenTrace E modelName options records fields t)
                       modelName fields = Ok n ->
                     forall target,
                       is_Some (targetEntry E records
                                  (default [] (getFkFieldsFromSchema E modelName))
                                  target) ->
                       target ∈ targets)).
  { intros ok recordsRead errs Hwhy Hrun.
    apply (Hnone [EModelExists modelName; EGetModelId modelName;
                  EReadExcel (dataFilePathOf E modelName options)]).
    - rewrite Hrun. unfold earlyResult. rewrite bind_observe. reflexivity.
    - repeat constructor.
    - intros records' fields n Hl Hr Hdry _ _ _ _.
      apply Hsame in Hl. subst records'.
      destruct Hwhy as [Hnil | Hdry']; congruence. }
  pose proof (syncExcelData_body_loads E (syncExcelData E (S fuel)) modelName options
                records t Hloads) as Hbody.
  cbv zeta iota in Hbody.
  destruct records as [|record rest].
  { apply (Hearly true 0 []); [auto|exact Hbody]. }
  change (length (record :: rest) =? 0)%nat with false in Hbody. cbv iota in Hbody.
  destruct (dryRun options) eqn:Hdry.
  { apply (Hearly true (Z.of_nat (length (record :: rest))) []); [auto|exact Hbody]. }
  clear Hearly Hbody.
  assert (Hthrows :
            getModelFieldsFromSchema E modelName = None
            \/ getModelFieldsFromSchema E modelName = Some [] ->
            (syncExcelData_body E (syncExcelData E (S fuel)) modelName options t).2
            = t ++ ESyncStart modelName options
                   :: [EModelExists modelName; EGetModelId modelName;
                       EReadExcel (dataFilePathOf E modelName options);
                       EGetModelFields modelName]).
  { intros Hno.
    rewrite (syncExcelData_body_loads _ _ _ _ _ _ Hloads). cbv zeta iota.
    change (length (record :: rest) =? 0)%nat with false. cbv iota. rewrite Hdry.
    unfold bind at 1. rewrite transformRecords_throws by exact Hno.
    rewrite <- app_assoc. reflexivity. }
  destruct (getModelFieldsFromSchema E modelName) as [fields|] eqn:Hfields.
  2:{ apply (Hnone _ (Hthrows (or_introl eq_refl))); [repeat constructor|].
      intros; discriminate. }
  destruct (decide (fields = [])) as [->|Hfne].
  { apply (Hnone _ (Hthrows (or_intror eq_refl))); [repeat constructor|].
    intros records' fields' n _ _ _ _ [= <-] Hne. congruence. }
  clear Hthrows.
  rewrite (syncExcelData_body_main _ _ _ _ _ _ _ Hloads
             ltac:(discriminate) Hdry Hfields Hfne).
  destruct (ensureModelIndexes E _ modelName fields) as [n|msg] eqn:Hidx.
  - rewrite bind_observe_ret_trace, cascadeOf_starts, Hskip.
    rewrite syncStarts_app, syncStarts_writtenTrace, Hskip, <- !app_assoc. simpl.
    exists (fkTargetNames E modelName (record :: rest)).
    destruct (fkTargetNames_spec E modelName (record :: rest)) as [Hnd Hkeys].
    split; [reflexivity|]. split; [exact Hnd|]. split; [discriminate|]. split.
    + intros target Hin. exists (record :: rest). split; [exact Hloads|].
      apply Hkeys, Hin.
    + intros records' fields' n' Hl _ _ _ _ _ _ target Hentry.
      apply Hsame in Hl. subst records'. apply Hkeys, Hentry.
  - cbn [snd]. rewrite syncStarts_app, syncStarts_writtenTrace, Hskip. simpl.
    exists []. rewrite <- app_assoc. simpl.
    split; [reflexivity|]. split; [constructor|]. split; [reflexivity|].
    split; [intros target Hin; inversion Hin|].
    intros records' fields' n' Hl _ _ _ [= <-] _ Hidx'.
    apply Hsame in Hl. subst records'. congruence.
Qed.

Lemma X10_cascade_syncs_each_target_once_witness :
  exists targets,
    syncStarts (syncExcelData advisoryEnv 2 "order" defaultOptions []).2
      = syncStarts [] ++ ("order", skipCascade defaultOptions)
                         :: List.map (fun target => (target, true)) targets
    /\ NoDup targets /\ "partner" ∈ targets.
Proof.
  destruct (X10_cascade_syncs_each_target_once advisoryEnv 2 "order" defaultOptions [])
    as (targets & Hstarts & Hnd & _ & _ & Hall); [lia|].
  exists targets. split; [exact Hstarts|]. split; [exact Hnd|].
  apply (Hall (default [] (match readSheet advisoryEnv "samples/SAMPLE_order_data.xlsx"
                           with Ok rows => Some rows | Fail _ => None end))
              (default [] (getModelFieldsFromSchema advisoryEnv "order")) 0).
  - repeat split; reflexivity.
  - discriminate.
  - reflexivity.
  - reflexivity.
  - reflexivity.
  - discriminate.
  - reflexivity.
  - vm_compute. eauto.
Defined.

(** ** Sync of every data file: [syncAllExcelData] *)

Lemma stripPrefix_Some p : forall s r, stripPrefix p s = Some r <-> s = p +:+ r.
Proof.
  induction p as [|a p IH]; intros s r; simpl.
  - split; [intros [= ->]; reflexivity|intros ->; reflexivity].
  - destruct s as [|b s]; [split; discriminate|].
    destruct (Ascii.eqb a b) eqn:Hab.
    + apply Ascii.eqb_eq in Hab. subst b. rewrite IH.
      split; [intros ->; reflexivity|intros [= ->]; reflexivity].
    + apply Ascii.eqb_neq in Hab. split; [discriminate|]. intros [= <- _]. congruence.
Qed.

Lemma string_length_app (a b : string) :
  String.length (a +:+ b) = (String.length a + String.length b)%nat.
Proof. induction a as [|c a IH]; simpl; [reflexivity|]. rewrite IH. reflexivity. Qed.

Lemma stripSuffix_unfold suf s :
  stripSuffix suf s =
    if String.eqb s suf then Some EmptyString
    else match s with
         | EmptyString => None
         | String a s' => option_map (String a) (stripSuffix suf s')
         end.
Proof. destruct s; reflexivity. Qed.

Lemma stripSuffix_Some suf : forall s r, stripSuffix suf s = Some r <-> s = r +:+ suf.
Proof.
  induction s as [|a s IH]; intros r; rewrite stripSuffix_unfold.
  - destruct (String.eqb EmptyString suf) eqn:Heq.
    + apply String.eqb_eq in Heq. subst suf.
      split; [intros [= <-]; reflexivity|].
      destruct r; [reflexivity|discriminate].
    + apply String.eqb_neq in Heq. split; [discriminate|].
      destruct r; simpl; [intros Hr; destruct (Heq Hr)|discriminate].
  - destruct (String.eqb (String a s) suf) eqn:Heq.
    + apply String.eqb_eq in Heq. split.
      * intros [= <-]. exact Heq.
      * intros Hr. apply (f_equal String.length) in Hr.
        rewrite string_length_app, <- Heq in Hr.
        destruct r; [reflexivity|simpl in Hr; lia].
    + apply String.eqb_neq in Heq.
      destruct r as [|b r]; simpl.
      * split; [|intros Hr; destruct (Heq Hr)].
        destruct (stripSuffix suf s); discriminate.
      * destruct (stripSuffix suf s) as [r'|] eqn:Hs; simpl.
        -- pose proof (proj1 (IH r') eq_refl) as Hs'. split.
           ++ intros [= <- <-]. rewrite Hs' at 1. reflexivity.
           ++ intros [= <- Hr]. apply IH in Hr. injection Hr as <-. reflexivity.
        -- split; [discriminate|]. intros [= <- Hr]. apply IH in Hr. discriminate.
Qed.

Lemma middleOf_Some file mid :
  middleOf file = Some mid <-> file = "SAMPLE_" +:+ mid +:+ "_data.xlsx".
Proof.
  unfold middleOf. split.
  - destruct (stripPrefix "SAMPLE_" file) as [rest|] eqn:Hrest; [|discriminate].
    intros Hmid. apply stripPrefix_Some in Hrest. apply stripSuffix_Some in Hmid.
    subst rest. exact Hrest.
  - intros ->.
    rewrite (proj2 (stripPrefix_Some "SAMPLE_" _ (mid +:+ "_data.xlsx")) eq_refl).
    apply stripSuffix_Some. reflexivity.
Qed.

Lemma captureModelName_Some file modelName :
  captureModelName file = Some modelName
  <-> file = "SAMPLE_" +:+ modelName +:+ "_data.xlsx"
      /\ modelName <> EmptyString /\ hasLineTerminator modelName = false.
Proof.
  unfold captureModelName. split.
  - destruct (middleOf file) as [mid|] eqn:Hmid; [|discriminate].
    destruct (hasLineTerminator mid) eqn:Hline; [discriminate|].
    destruct (String.eqb mid EmptyString) eqn:Hempty; [discriminate|].
    intros [= <-]. apply middleOf_Some in Hmid. apply String.eqb_neq in Hempty. auto.
  - intros (Hfile & Hne & Hline). apply middleOf_Some in Hfile.
    apply String.eqb_neq in Hne. rewrite Hfile, Hline, Hne. reflexivity.
Qed.

Lemma captureModelName_matches file modelName :
  captureModelName file = Some modelName -> matchesDataFile file = true.
Proof.
  unfold captureModelName, matchesDataFile.
  destruct (middleOf file) as [mid|]; [|discriminate].
  destruct (hasLineTerminator mid); [discriminate|reflexivity].
Qed.

(** X11.  The two file-name patterns of [syncAllExcelData].  A name passes
    the filter exactly when it is [SAMPLE_], then any text without a line
    terminator, then [_data.xlsx]; the model name taken from it is that text,
    which must not be empty, so the only name that passes the filter and is
    then skipped is [SAMPLE__data.xlsx].  The model name is the inverse of
    the default file name: the default data file of the extracted model is
    the file that was found in the data directory. *)
Theorem X11_data_file_names file :
  (matchesDataFile file = true
   <-> exists mid, file = "SAMPLE_" +:+ mid +:+ "_data.xlsx"
                   /\ hasLineTerminator mid = false)
  /\ (forall modelName,
        captureModelName file = Some modelName
        <-> file = "SAMPLE_" +:+ modelName +:+ "_data.xlsx"
            /\ modelName <> EmptyString /\ hasLineTerminator modelName = false)
  /\ (forall E modelName,
        captureModelName file = Some modelName ->
        getDefaultDataFilePath E modelName = path_join E (DATA_DIR E) file)
  /\ (matchesDataFile file = true /\ captureModelName file = None
      <-> file = "SAMPLE__data.xlsx").
Proof.
  split; [|split; [|split]].
  - unfold matchesDataFile. split.
    + destruct (middleOf file) as [mid|] eqn:Hmid; [|discriminate].
      intros Hline. exists mid. apply middleOf_Some in Hmid.
      split; [exact Hmid|]. destruct (hasLineTerminator mid); [discriminate|reflexivity].
    + intros (mid & Hfile & Hline). apply middleOf_Some in Hfile.
      rewrite Hfile, Hline. reflexivity.
  - intros modelName. apply captureModelName_Some.
  - intros E modelName Hcap. apply captureModelName_Some in Hcap as (-> & _ & _).
    reflexivity.
  - unfold matchesDataFile, captureModelName. split.
    + destruct (middleOf file) as [mid|] eqn:Hmid; [|intros [? _]; discriminate].
      apply middleOf_Some in Hmid.
      destruct (hasLineTerminator mid); [intros [? _]; discriminate|].
      destruct (String.eqb mid EmptyString) eqn:Hempty; [|intros [_ ?]; discriminate].
      apply String.eqb_eq in Hempty. subst mid. intros _. exact Hmid.
    + intros ->. split; reflexivity.
Qed.

(** The loop of [syncAllExcelData] over calls whose cascade is disabled. *)
Lemma forOf_syncAll E fuel options files : forall acc t o t',
  forOf (syncAllStep (syncExcelData E (S fuel)) options) acc files t = (o, t') ->
  o <> OutOfFuel
  /\ exists k,
       (k <= length (dataFileModels files))%nat
       /\ syncStarts t'
          = syncStarts t
            ++ List.map (fun modelName => (modelName, true))
                        (take k (dataFileModels files))
       /\ (forall results,
             o = Return results ->
             k = length (dataFileModels files)
             /\ exists news,
                  results = acc ++ news
                  /\ List.map model_name news = dataFileModels files
                  /\ List.map file_path news
                     = List.map (fun modelName => dataFilePathOf E modelName options)
                                (dataFileModels files))
       /\ (forall msg,
             o = Throw msg ->
             exists modelName t0,
               dataFileModels files !! (k - 1)%nat = Some modelName
               /\ (0 < k)%nat
               /\ (syncExcelData E (S fuel) modelName (independentOptions options) t0).1
                  = Throw msg).
Proof.
  induction files as [|file files IH]; intros acc t o t' Hrun; cbn [forOf] in Hrun.
  - injection Hrun as <- <-.
    split; [discriminate|]. exists 0%nat. split; [reflexivity|].
    split; [simpl; rewrite app_nil_r; reflexivity|].
    split; [|discriminate].
    intros results [= <-]. split; [reflexivity|]. exists [].
    rewrite app_nil_r. auto.
  - assert (Hmodels : dataFileModels (file :: files)
                      = match captureModelName file with
                        | Some modelName => modelName :: dataFileModels files
                        | None => dataFileModels files
                        end) by reflexivity.
    rewrite Hmodels. clear Hmodels.
    unfold syncAllStep at 1 in Hrun.
    destruct (captureModelName file) as [modelName|] eqn:Hcap.
    2:{ rewrite bind_ret in Hrun. apply (IH _ _ _ _ Hrun). }
    destruct (cascaded_body_runs E (syncExcelData E fuel) modelName
                (independentOptions options) t eq_refl) as (Hne & d & Hd & HP).
    rewrite <- syncExcelData_unfold in Hne, Hd.
    pose proof (syncExcelData_body_echo E (syncExcelData E fuel) modelName
                  (independentOptions options) t) as Hecho.
    rewrite <- syncExcelData_unfold in Hecho.
    unfold bind at 1 in Hrun. unfold bind at 1 in Hrun.
    destruct (syncExcelData E (S fuel) modelName (independentOptions options) t)
      as [[r|msg|] t1] eqn:Hnested; cbn [fst snd] in Hne, Hd; [| |congruence].
    + unfold ret at 1 in Hrun.
      destruct (IH _ _ _ _ Hrun) as (Hfuel & k & Hk & Hstarts & Hret & Hthrow).
      split; [exact Hfuel|]. exists (S k). split; [simpl; lia|].
      split.
      { rewrite Hstarts, Hd, syncStarts_app. cbn [syncStarts omap list_omap].
        fold (syncStarts d). rewrite (syncStarts_leaf d HP), <- app_assoc.
        reflexivity. }
      split.
      * intros results Hres. destruct (Hret results Hres) as (-> & news & -> & Hn & Hp).
        split; [reflexivity|]. exists (r :: news).
        rewrite <- app_assoc. split; [reflexivity|].
        destruct (Hecho r t1 eq_refl) as (Hname & Hpath & _).
        cbn [List.map]. rewrite Hn, Hp, Hname, Hpath. auto.
      * intros msg Hmsg. destruct (Hthrow msg Hmsg) as (m & t0 & Hm & Hpos & Hthrown).
        exists m, t0. split; [|split; [lia|exact Hthrown]].
        destruct k as [|k]; [lia|]. simpl in Hm |- *.
        rewrite Nat.sub_0_r in Hm. exact Hm.
    + injection Hrun as <- <-.
      split; [discriminate|]. exists 1%nat. split; [simpl; lia|].
      split.
      { rewrite Hd, syncStarts_app. cbn [syncStarts omap list_omap].
        fold (syncStarts d). rewrite (syncStarts_leaf d HP). simpl.
        rewrite ?take_0. reflexivity. }
      split; [discriminate|].
      intros msg' [= <-]. exists modelName, t. split; [reflexivity|].
      split; [lia|]. rewrite Hnested. reflexivity.
Qed.

Lemma dataFileModels_filter files :
  dataFileModels (List.filter matchesDataFile files) = dataFileModels files.
Proof.
  induction files as [|file files IH]; [reflexivity|].
  cbn [List.filter]. unfold dataFileModels in *.
  destruct (matchesDataFile file) eqn:Hm; cbn [omap list_omap]; rewrite IH.
  - reflexivity.
  - destruct (captureModelName file) as [m|] eqn:Hcap; [|reflexivity].
    apply captureModelName_matches in Hcap. congruence.
Qed.

(** X12.  [syncAllExcelData] over a data directory that lists [files].  With
    fuel for one call it never runs short.  It syncs the models of the data
    files in listing order, each with the cascade disabled, and enters no
    other sync.  When it returns, it returns one result per data file, in the
    same order, failed syncs included; each result names its model and its
    file path, which is the caller's [filePath] when the options carry one.
    When it throws, the error is the one thrown by the sync of a model, and
    the models listed after that one are not synced. *)
Theorem X12_sync_all_in_listing_order E readdirSync fuel options files t
    (Hdir : existsSync E (DATA_DIR E) = true)
    (Hfiles : readdirSync (DATA_DIR E) = Ok files) :
  (syncAllExcelData E readdirSync (S fuel) options t).1 <> OutOfFuel
  /\ exists k,
       (k <= length (dataFileModels files))%nat
       /\ syncStarts (syncAllExcelData E readdirSync (S fuel) options t).2
          = syncStarts t
            ++ List.map (fun modelName => (modelName, true))
                        (take k (dataFileModels files))
       /\ (forall results,
             (syncAllExcelData E readdirSync (S fuel) options t).1 = Return results ->
             k = length (dataFileModels files)
             /\ List.map model_name results = dataFileModels files
             /\ List.map file_path results
                = List.map (fun modelName => dataFilePathOf E modelName options)
                           (dataFileModels files))
       /\ (forall msg,
             (syncAllExcelData E readdirSync (S fuel) options t).1 = Throw msg ->
             exists modelName t0,
               dataFileModels files !! (k - 1)%nat = Some modelName
               /\ (0 < k)%nat
               /\ (syncExcelData E (S fuel) modelName (independentOptions options) t0).1
                  = Throw msg).
Proof.
  unfold syncAllExcelData. cbv zeta. rewrite Hdir, Hfiles. cbn [negb].
  destruct (forOf (syncAllStep (syncExcelData E (S fuel)) options) []
                  (List.filter matchesDataFile files) t) as [o t'] eqn:Hrun.
  destruct (forOf_syncAll E fuel options _ _ _ _ _ Hrun)
    as (Hfuel & k & Hk & Hstarts & Hret & Hthrow).
  rewrite dataFileModels_filter in Hk, Hstarts, Hret, Hthrow. cbn [fst snd].
  split; [exact Hfuel|]. exists k. split; [exact Hk|]. split; [exact Hstarts|].
  split; [|exact Hthrow].
  intros results Hres. destruct (Hret results Hres) as (Hlen & news & -> & Hn & Hp).
  auto.
Qed.

Lemma X12_sync_all_in_listing_order_witness :
  (exists results,
      (syncAllExcelData directoryEnv sampleListing 1 defaultOptions []).1 = Return results
      /\ List.map model_name results = ["partner"; "user"; "order"]
      /\ List.map success results = [true; false; true]
      /\ syncStarts (syncAllExcelData directoryEnv sampleListing 1 defaultOptions []).2
         = [("partner", true); ("user", true); ("order", true)])
  /\ (syncAllExcelData directoryEnv agentListing 1 defaultOptions []).1
     = Throw "No schema fields found for model: agent"
  /\ syncStarts (syncAllExcelData directoryEnv agentListing 1 defaultOptions []).2
     = [("partner", true); ("agent", true)].
Proof.
  assert (Hret : exists results,
             (syncAllExcelData directoryEnv sampleListing 1 defaultOptions []).1
               = Return results
             /\ List.map success results = [true; false; true])
    by (eexists; split; vm_compute; reflexivity).
  destruct Hret as (results & Hret & Hsuccess).
  destruct (X12_sync_all_in_listing_order directoryEnv sampleListing 0 defaultOptions
              ["notes.txt"; "SAMPLE_partner_data.xlsx"; "SAMPLE__data.xlsx";
               "SAMPLE_user_data.xlsx"; "SAMPLE_order_data.xlsx"] [] eq_refl eq_refl)
    as (_ & k & _ & Hstarts & Hall & _).
  destruct (Hall results Hret) as (-> & Hnames & _).
  split; [|split; vm_compute; reflexivity].
  exists results. split; [exact Hret|]. split; [exact Hnames|].
  split; [exact Hsuccess|exact Hstarts].
Defined.

Lemma forOf_syncAll_skips self options files : forall acc,
  dataFileModels files = [] ->
  forOf (syncAllStep self options) acc files = ret acc.
Proof.
  induction files as [|file files IH]; intros acc Hnone; [reflexivity|].
  unfold dataFileModels in Hnone. cbn [omap list_omap] in Hnone.
  cbn [forOf]. unfold syncAllStep at 1.
  destruct (captureModelName file); [discriminate|].
  change (forOf (syncAllStep self options) acc files = ret acc).
  apply IH, Hnone.
Qed.

(** X13.  When the data directory does not exist, or lists no file from
    which a model name can be taken, [syncAllExcelData] returns the empty
    list without calling any service and without entering any sync, so that
    it needs no fuel.  An error of the directory listing is thrown as it
    is. *)
Theorem X13_nothing_to_sync E readdirSync fuel options t
    (Hnone : existsSync E (DATA_DIR E) = false
             \/ (exists files, readdirSync (DATA_DIR E) = Ok files
                               /\ dataFileModels files = [])
             \/ exists msg, readdirSync (DATA_DIR E) = Fail msg) :
  syncAllExcelData E readdirSync fuel options t =
    (match existsSync E (DATA_DIR E), readdirSync (DATA_DIR E) with
     | true, Fail msg => Throw msg
     | _, _ => Return []
     end, t).
Proof.
  unfold syncAllExcelData. cbv zeta.
  destruct (existsSync E (DATA_DIR E)); [|reflexivity]. cbn [negb].
  destruct Hnone as [Hno | [(files & Hfiles & Hmodels) | (msg & Hmsg)]];
    [discriminate| |rewrite Hmsg; reflexivity].
  rewrite Hfiles, forOf_syncAll_skips; [reflexivity|].
  rewrite dataFileModels_filter. exact Hmodels.
Qed.

Lemma X13_nothing_to_sync_witness :
  syncAllExcelData directoryEnv strayListing 0 defaultOptions [] = (Return [], [])
  /\ matchesDataFile "SAMPLE__data.xlsx" = true.
Proof.
  split; [|reflexivity].
  apply (X13_nothing_to_sync directoryEnv strayListing 0 defaultOptions []).
  right. left. eexists. split; reflexivity.
Defined.

(** ** Graph edges and cascade targets *)

(** X14.  The graph updater and the cascade agree on FK targets.  If a field
    that the schema lists among the FK fields of the model gives rise to a
    graph edge, then the target model of that edge is the model the field
    refers to, it is one of the models the cascade syncs, and the id set that
    the cascade holds for it contains every id counted in the edge, so the
    edge's [unique_targets] never exceeds the size of that set. *)
Theorem X14_edge_targets_are_cascade_targets E modelName modelId records f rel
    (Hf : f ∈ default [] (getFkFieldsFromSchema E modelName))
    (Hrel : rel ∈ edgeFor E modelName modelId records f) :
  fk_location_model f = Some (target_model rel)
  /\ target_model rel ∈ fkTargetNames E modelName records
  /\ exists ids,
       targetEntry E records (default [] (getFkFieldsFromSchema E modelName))
                   (target_model rel) = Some ids
       /\ (forall n, n ∈ resolvedIds E records f -> n ∈ ids)
       /\ unique_targets rel <= Z.of_nat (size ids).
Proof.
  unfold edgeFor in Hrel.
  destruct (isGraphFkField f) eqn:Hgraph; [|inversion Hrel].
  destruct (resolvedIds E records f) as [|n0 rest] eqn:Hids; [inversion Hrel|].
  apply list_elem_of_singleton in Hrel. subst rel. cbn [target_model unique_targets].
  unfold isGraphFkField in Hgraph.
  apply andb_true_iff in Hgraph as [Hgraph _].
  apply andb_true_iff in Hgraph as [_ Hmodel].
  destruct (fk_location_model f) as [target|] eqn:Htarget; [|discriminate].
  simpl in Hmodel. apply negb_true_iff, String.eqb_neq in Hmodel.
  change (default EmptyString (Some target)) with target.
  assert (Hsub : forall n, n ∈ n0 :: rest ->
                           n ∈ fkIdsFor E records
                                 (default [] (getFkFieldsFromSchema E modelName)) target).
  { intros n Hn. rewrite <- Hids in Hn. unfold resolvedIds in Hn.
    apply list_elem_of_omap in Hn as (record & Hrecord & Hfk).
    apply fkIdsFor_elem. exists f, record. auto. }
  assert (Hentry : targetEntry E records (default [] (getFkFieldsFromSchema E modelName))
                     target
                   = Some (fkIdsFor E records
                             (default [] (getFkFieldsFromSchema E modelName)) target)).
  { unfold targetEntry. rewrite decide_False; [reflexivity|].
    intros Hempty. specialize (Hsub n0 ltac:(left)). rewrite Hempty in Hsub.
    set_solver. }
  split; [reflexivity|]. split.
  - apply fkTargetNames_spec. rewrite Hentry. eauto.
  - eexists. split; [exact Hentry|]. split; [exact Hsub|].
    apply inj_le.
    rewrite <- (size_list_to_set (C := gset Z) (remove_dups (n0 :: rest)))
      by apply NoDup_remove_dups.
    apply subseteq_size. intros n Hn.
    rewrite elem_of_list_to_set, elem_of_remove_dups in Hn. apply Hsub, Hn.
Qed.

Lemma X14_edge_targets_are_cascade_targets_witness :
  "partner" ∈ fkTargetNames advisoryEnv "order" orderRecords.
Proof.
  destruct (X14_edge_targets_are_cascade_targets advisoryEnv "order" 9 orderRecords
              (fkField 11 "partner" "Partner" "partner" 3)
              (relationshipOf advisoryEnv "order" 9 orderRecords
                 (fkField 11 "partner" "Partner" "partner" 3) {[ 5; 7 ]}))
    as (_ & Hin & _).
  - vm_compute. left.
  - vm_compute. left.
  - exact Hin.
Defined.

(** ** Dry runs *)

(** A dry run of the body, for any [self]: it returns after the file read at
    the latest. *)
Lemma dry_run_body E self modelName options t :
  dryRun options = true ->
  exists r d,
    syncExcelData_body E self modelName options t = (Return r, t ++ d)
    /\ Forall (fun e => isReadOnlyEvent e = true) d
    /\ records_synced r = 0 /\ records_failed r = 0 /\ cascaded_models r = None.
Proof.
  intros Hdry.
  destruct (loads_or_fatal E modelName options) as [Hfatal | (records & Hloads)].
  - destruct (syncExcelData_body_fatal E self modelName options t Hfatal)
      as (r & d & Hrun & _ & _ & _ & Hsynced & Hfailed & Hcascaded & Hpre).
    exists r, (ESyncStart modelName options :: d). split; [exact Hrun|].
    split; [|auto]. constructor; [reflexivity|].
    destruct Hpre as (rest & Hrest).
    assert (Hall : Forall (fun e => isReadOnlyEvent e = true) (d ++ rest))
      by (rewrite <- Hrest; repeat constructor).
    apply Forall_app in Hall as [Hall _]. exact Hall.
  - rewrite (syncExcelData_body_loads _ _ _ _ _ _ Hloads). cbv zeta iota.
    rewrite Hdry.
    destruct (length records =? 0)%nat; unfold earlyResult; rewrite bind_observe;
      eexists _, _; (split; [reflexivity|]); (split; [repeat constructor|]);
      cbn; auto.
Qed.

(** The loop of [syncAllExcelData] in a dry run. *)
Lemma forOf_syncAll_dry_run E fuel options files :
  dryRun options = true ->
  forall acc t,
    Forall (fun r => records_synced r = 0) acc ->
    exists results d,
      forOf (syncAllStep (syncExcelData E (S fuel)) options) acc files t
        = (Return results, t ++ d)
      /\ Forall (fun e => isReadOnlyEvent e = true) d
      /\ Forall (fun r => records_synced r = 0) results.
Proof.
  intros Hdry. induction files as [|file files IH]; intros acc t Hacc; cbn [forOf].
  - exists acc, []. rewrite app_nil_r. split; [reflexivity|]. split; [constructor|exact Hacc].
  - unfold syncAllStep at 1. destruct (captureModelName file) as [modelName|].
    2:{ rewrite bind_ret. apply IH, Hacc. }
    destruct (dry_run_body E (syncExcelData E fuel) modelName (independentOptions options)
                t Hdry) as (r & d & Hrun & Hd & Hsynced & _).
    rewrite <- syncExcelData_unfold in Hrun.
    unfold bind at 1. unfold bind at 1. rewrite Hrun. unfold ret at 1.
    destruct (IH (acc ++ [r]) (t ++ d)) as (results & d' & Hrest & Hd' & Hres).
    { apply Forall_app. split; [exact Hacc|]. constructor; [exact Hsynced|constructor]. }
    exists results, (d ++ d'). rewrite Hrest, app_assoc.
    split; [reflexivity|]. split; [apply Forall_app; auto|exact Hres].
Qed.

(** X19.  A dry run only reads.  With [dryRun] set, a call of
    [syncExcelData] always returns a result, whatever the schema and the
    services would do: its events are its entry, the two model lookups and
    the file read at most, so it asks for no schema fields, embeds and writes
    nothing, creates no index and cascades to no model even when the cascade
    is enabled; its counters of synced and failed records are zero.  The
    same holds for [syncAllExcelData] over every data file: unless the
    directory listing itself fails, it returns its results and the trace
    holds only such events. *)
Theorem X19_dry_run_only_reads E readdirSync fuel options t
    (Hdry : dryRun options = true) :
  (forall modelName,
      exists r d,
        syncExcelData E (S fuel) modelName options t = (Return r, t ++ d)
        /\ Forall (fun e => isReadOnlyEvent e = true) d
        /\ records_synced r = 0 /\ records_failed r = 0 /\ cascaded_models r = None)
  /\ ((exists results d,
         syncAllExcelData E readdirSync (S fuel) options t = (Return results, t ++ d)
         /\ Forall (fun e => isReadOnlyEvent e = true) d
         /\ Forall (fun r => records_synced r = 0) results)
      \/ exists msg,
           readdirSync (DATA_DIR E) = Fail msg
           /\ syncAllExcelData E readdirSync (S fuel) options t = (Throw msg, t)).
Proof.
  split.
  - intros modelName. rewrite syncExcelData_unfold. apply dry_run_body, Hdry.
  - unfold syncAllExcelData. cbv zeta.
    destruct (existsSync E (DATA_DIR E)); cbn [negb].
    2:{ left. exists [], []. rewrite app_nil_r. repeat split; constructor. }
    destruct (readdirSync (DATA_DIR E)) as [files|msg]; [left|right; eauto].
    apply forOf_syncAll_dry_run; [exact Hdry|constructor].
Qed.

Lemma X19_dry_run_only_reads_witness :
  exists results,
    (syncAllExcelData directoryEnv sampleListing 1 dryRunOptions []).1 = Return results
    /\ List.map records_read results = [2; 0; 2]
    /\ List.map success results = [true; false; true]
    /\ Forall (fun e => isReadOnlyEvent e = true)
              (syncAllExcelData directoryEnv sampleListing 1 dryRunOptions []).2.
Proof.
  destruct (X19_dry_run_only_reads directoryEnv sampleListing 0 dryRunOptions [] eq_refl)
    as [_ [(results & d & Hrun & Hd & _) | (msg & Hmsg & _)]]; [|discriminate].
  exists results. rewrite Hrun. cbn [fst snd app].
  assert (Hcheck : forall results',
             (syncAllExcelData directoryEnv sampleListing 1 dryRunOptions []).1
               = Return results' ->
             List.map records_read results' = [2; 0; 2]
             /\ List.map success results' = [true; false; true]).
  { intros results'. vm_compute. intros [= <-]. split; reflexivity. }
  rewrite Hrun in Hcheck. destruct (Hcheck results eq_refl) as [Hread Hok].
  auto.
Defined.

(** ** Cascaded models of a result *)

(** The cascade loop adds models in the order of its targets, each at most
    once, whatever the nested calls do. *)
Lemma forOf_cascade_sublist self dry frc targets : forall acc t cms t',
  forOf (cascadeStep self dry frc) acc targets t = (Return cms, t') ->
  exists added,
    cms = acc ++ added
    /\ List.map cm_model_name added `sublist_of` List.map fst targets.
Proof.
  induction targets as [|x rest IH]; intros acc t cms t' Hrun; simpl in Hrun.
  - injection Hrun as <- _. exists []. rewrite app_nil_r. split; [reflexivity|constructor].
  - apply bind_Return in Hrun as (acc' & t1 & Hstep & Hrest).
    destruct (IH _ _ _ _ Hrest) as (added & -> & Hsub).
    unfold cascadeStep, try_catch, bind in Hstep.
    destruct (self x.1 _ t) as [[rn|msg|] tn']; [| |discriminate].
    + destruct (success rn); injection Hstep as <- _.
      * exists ({| cm_model_name := x.1; cm_records_synced := records_synced rn |}
                :: added).
        rewrite <- app_assoc. split; [reflexivity|].
        simpl. apply sublist_skip, Hsub.
      * exists added. split; [reflexivity|]. simpl. apply sublist_cons, Hsub.
    + injection Hstep as <- _. exists added. split; [reflexivity|].
      simpl. apply sublist_cons, Hsub.
Qed.

(** X21.  The cascaded models of a result.  When a result of [syncExcelData]
    lists cascaded models, the list is not empty, the call was neither a dry
    run nor one with the cascade skipped, and the models listed are FK
    targets of the loaded rows in the order in which the cascade visits them,
    each listed at most once. *)
Theorem X21_cascaded_models_follow_targets E fuel modelName options t r cms
    (Hrun : (syncExcelData E fuel modelName options t).1 = Return r)
    (Hcms : cascaded_models r = Some cms) :
  cms <> [] /\ skipCascade options = false /\ dryRun options = false
  /\ NoDup (List.map cm_model_name cms)
  /\ exists records,
       loads E modelName options records
       /\ List.map cm_model_name cms `sublist_of` fkTargetNames E modelName records.
Proof.
  destruct fuel as [|fuel]; [discriminate|].
  rewrite syncExcelData_unfold in Hrun. apply outcome_pair in Hrun.
  destruct (loads_or_fatal E modelName options) as [Hfatal | (records & Hloads)].
  { destruct (syncExcelData_body_fatal E (syncExcelData E fuel) modelName options t Hfatal)
      as (r' & d & Hrun' & _ & _ & _ & _ & _ & Hnone & _).
    rewrite Hrun in Hrun'. injection Hrun' as <- _. congruence. }
  destruct (syncExcelData_body_result _ _ _ _ _ _ _ _ Hloads Hrun)
    as [(_ & _ & _ & _ & _ & Hnone)
       | (Hlen & Hdry & fields & cascaded & t1 & t2 & _ & _ & Hres)];
    [congruence|].
  cbv zeta in Hres. destruct Hres as (_ & _ & _ & _ & _ & Hlist & Hcascade).
  rewrite Hlist in Hcms.
  destruct (0 <? length cascaded)%nat eqn:Hsome; [|discriminate].
  injection Hcms as <-.
  assert (Hne : cascaded <> []) by (intros ->; discriminate).
  unfold cascadeOf in Hcascade.
  destruct (skipCascade options) eqn:Hskip; cbn [negb] in Hcascade.
  { injection Hcascade as <- _. congruence. }
  unfold bind at 1 in Hcascade. rewrite extractFkTargets_returns in Hcascade.
  fold (fkTargetNames E modelName records).
  destruct (0 <? length (foldl (extractFkTargetsField E records) []
                           (default [] (getFkFieldsFromSchema E modelName))))%nat;
    [|unfold ret in Hcascade; injection Hcascade as <- _; congruence].
  destruct (forOf_cascade_sublist _ _ _ _ _ _ _ _ Hcascade) as (added & -> & Hsub).
  simpl in Hsub |- *.
  assert (Hsub' : List.map cm_model_name added
                  `sublist_of` fkTargetNames E modelName records) by exact Hsub.
  split; [exact Hne|]. split; [reflexivity|]. split; [exact Hdry|].
  split; [|exists records; auto].
  eapply sublist_NoDup; [apply fkTargetNames_spec|exact Hsub'].
Qed.

Lemma X21_cascaded_models_follow_targets_witness :
  exists r,
    (syncExcelData advisoryEnv 2 "order" defaultOptions []).1 = Return r
    /\ cascaded_models r = Some [ {| cm_model_name := "partner"; cm_records_synced := 2 |} ]
    /\ NoDup (List.map cm_model_name
                [ {| cm_model_name := "partner"; cm_records_synced := 2 |} ]).
Proof.
  assert (Hret : exists r,
             (syncExcelData advisoryEnv 2 "order" defaultOptions []).1 = Return r
             /\ cascaded_models r
                = Some [ {| cm_model_name := "partner"; cm_records_synced := 2 |} ])
    by (eexists; split; vm_compute; reflexivity).
  destruct Hret as (r & Hret & Hcms). exists r. split; [exact Hret|]. split; [exact Hcms|].
  apply (X21_cascaded_models_follow_targets advisoryEnv 2 "order" defaultOptions [] r _
           Hret Hcms).
Defined.

(** * Properties of the simple schema converter *)

Section SimpleSchemaProperties.
Import SimpleSchema.

(** ** Validation *)

Lemma sameValueZero_eq a b : sameValueZero a b = true -> a = b.
Proof.
  destruct a, b; simpl; try discriminate; intros H; try reflexivity.
  - apply Bool.eqb_prop in H. congruence.
  - apply Z.eqb_eq in H. congruence.
  - apply String.eqb_eq in H. congruence.
Qed.

Lemma Map_find_app m k v key :
  Map_find (m ++ [(k, v)]) key =
    match Map_find m key with
    | Some x => Some x
    | None => if sameValueZero k key then Some v else None
    end.
Proof.
  induction m as [|[k' v'] m IH]; simpl; [reflexivity|].
  destruct (sameValueZero k' key); [reflexivity|exact IH].
Qed.

Lemma grows_refl st : grows true st st.
Proof.
  exists []. rewrite app_nil_r, andb_true_r. repeat split; auto.
Qed.

Lemma grows_addError msg st : grows false st (addError msg st).
Proof.
  exists [msg]. simpl. rewrite andb_false_r.
  split; [reflexivity|]. split; [reflexivity|]. split; discriminate.
Qed.

Lemma grows_addWarning msg st : grows true st (addWarning msg st).
Proof.
  exists []. simpl. rewrite app_nil_r, andb_true_r. repeat split; auto.
Qed.

Lemma grows_trans a b st1 st2 st3 :
  grows a st1 st2 -> grows b st2 st3 -> grows (a && b) st1 st3.
Proof.
  intros (new1 & He1 & Hv1 & Hok1) (new2 & He2 & Hv2 & Hok2).
  exists (new1 ++ new2). rewrite He2, He1, Hv2, Hv1, <- app_assoc, andb_assoc.
  split; [reflexivity|]. split; [reflexivity|].
  rewrite andb_true_iff, Hok1, Hok2. split.
  - intros [-> ->]. reflexivity.
  - intros H. apply app_eq_nil in H. exact H.
Qed.

Lemma grows_if (c : bool) msg st :
  grows (negb c) st (if c then addError msg st else st).
Proof. destruct c; [apply grows_addError|apply grows_refl]. Qed.

Lemma grows_errors ok st st' e :
  grows ok st st' -> e ∈ errors (result st) -> e ∈ errors (result st').
Proof. intros (new & -> & _) He. apply elem_of_app. left. exact He. Qed.

Lemma checkFieldId_spec rt rowNum row st :
  grows (isNumber rt (prop row "Field_ID")
         && isFresh (fieldIdMap st) (prop row "Field_ID"))
        st (checkFieldId rt rowNum row st)
  /\ fieldIdMap (checkFieldId rt rowNum row st)
     = (if isNumber rt (prop row "Field_ID")
           && isFresh (fieldIdMap st) (prop row "Field_ID")
        then fieldIdMap st ++ [(prop row "Field_ID", rowNum)]
        else fieldIdMap st)
  /\ (isNumber rt (prop row "Field_ID") = true ->
      forall firstRow,
        Map_find (fieldIdMap st) (prop row "Field_ID") = Some firstRow ->
        duplicateMessage (prop row "Field_ID") firstRow rowNum
          ∈ errors (result (checkFieldId rt rowNum row st))).
Proof.
  unfold checkFieldId, isNumber, isFresh. cbv zeta.
  destruct (is_nullish (prop row "Field_ID")); simpl.
  { split; [apply grows_addError|]. split; [reflexivity|discriminate]. }
  destruct (isNaN rt (prop row "Field_ID")); simpl.
  { split; [apply grows_addError|]. split; [reflexivity|discriminate]. }
  destruct (Map_find (fieldIdMap st) (prop row "Field_ID")) as [firstRow|].
  - split; [apply grows_addError|]. split; [reflexivity|].
    intros _ first [= <-]. simpl. apply elem_of_app. right. left.
  - split.
    + exists []. simpl. rewrite app_nil_r, andb_true_r. repeat split; auto.
    + split; [reflexivity|]. intros _ first. discriminate.
Qed.

Lemma checkModelId_spec rt rowNum row st :
  grows (isNumber rt (prop row "Model_ID")) st (checkModelId rt rowNum row st)
  /\ fieldIdMap (checkModelId rt rowNum row st) = fieldIdMap st.
Proof.
  unfold checkModelId, isNumber. cbv zeta.
  destruct (is_nullish (prop row "Model_ID")); simpl;
    [split; [apply grows_addError|reflexivity]|].
  destruct (isNaN rt (prop row "Model_ID")); simpl;
    [split; [apply grows_addError|reflexivity]|].
  split; [apply grows_refl|reflexivity].
Qed.

Lemma missingOrEmpty_spec rt expr v missing :
  missingOrEmpty rt expr v = Ok missing -> missing = negb (isFilled rt v).
Proof.
  unfold missingOrEmpty, isFilled.
  destruct v as [| |[]|n|s|xs|kvs]; simpl; try (intros [= <-]; reflexivity);
    try discriminate.
  - destruct (n =? 0); simpl; [intros [= <-]; reflexivity|discriminate].
  - destruct (String.eqb s EmptyString); simpl; intros [= <-];
      [reflexivity|rewrite negb_involutive; reflexivity].
Qed.

Lemma missingOrEmpty_filled rt expr v :
  isFilled rt v = true -> missingOrEmpty rt expr v = Ok false.
Proof.
  unfold missingOrEmpty, isFilled. destruct v as [| | | |s| |]; try discriminate.
  simpl. destruct (String.eqb s EmptyString); simpl; [discriminate|].
  destruct (String.eqb (trim rt s) EmptyString); [discriminate|reflexivity].
Qed.

Lemma lowerFieldType_filled rt v :
  isFilled rt v = true -> exists fieldType, lowerFieldType rt v = Ok fieldType.
Proof.
  unfold lowerFieldType, isFilled. destruct v as [| | | |s| |]; try discriminate.
  simpl. eauto.
Qed.

Lemma grows_warned msg st st' : grows true st st' -> grows true st (addWarning msg st').
Proof. intros G. apply (grows_trans true true _ _ _ G), grows_addWarning. Qed.

Lemma checkFkMetadata_spec rowNum row st :
  grows true st (checkFkMetadata rowNum row st)
  /\ fieldIdMap (checkFkMetadata rowNum row st) = fieldIdMap st.
Proof.
  unfold checkFkMetadata. cbv zeta.
  destruct (negb (js_truthy (getFkField row "FK location field model")));
    destruct (is_nullish (getFkField row "FK location field model id"));
    destruct (is_nullish (getFkField row "FK location record Id"));
    (split; [|reflexivity]);
    repeat first [apply grows_refl | apply grows_warned].
Qed.

(** One call of the callback of [forEach], when it does not throw. *)
Lemma validateRow_spec rt st row index st' :
  validateRow rt st row index = Ok st' ->
  grows (rowOk rt row && isFresh (fieldIdMap st) (prop row "Field_ID")) st st'
  /\ fieldIdMap st'
     = (if isNumber rt (prop row "Field_ID")
           && isFresh (fieldIdMap st) (prop row "Field_ID")
        then fieldIdMap st ++ [(prop row "Field_ID", (index + 2)%nat)]
        else fieldIdMap st)
  /\ (isNumber rt (prop row "Field_ID") = true ->
      forall firstRow,
        Map_find (fieldIdMap st) (prop row "Field_ID") = Some firstRow ->
        duplicateMessage (prop row "Field_ID") firstRow (index + 2)
          ∈ errors (result st')).
Proof.
  unfold validateRow. cbv zeta.
  destruct (checkFieldId_spec rt (index + 2) row st) as (G1 & M1 & D1).
  destruct (checkModelId_spec rt (index + 2) row (checkFieldId rt (index + 2) row st))
    as (G2 & M2).
  destruct (missingOrEmpty rt "row.Field_Name" (prop row "Field_Name"))
    as [m1|] eqn:H1; [|discriminate].
  destruct (missingOrEmpty rt "row.Field_Type" (prop row "Field_Type"))
    as [m2|] eqn:H2; [|discriminate].
  destruct (missingOrEmpty rt "row.Model_Name" (prop row "Model_Name"))
    as [m3|] eqn:H3; [|discriminate].
  destruct (lowerFieldType rt (prop row "Field_Type")) as [fieldType|]; [|discriminate].
  cbn [andThen]. intros [= <-].
  apply missingOrEmpty_spec in H1, H2, H3. subst m1 m2 m3.
  rewrite !negb_involutive || idtac.
  set (st2 := checkModelId rt (index + 2) row (checkFieldId rt (index + 2) row st)) in *.
  set (e1 := "Row " +:+ pretty (index + 2)%nat +:+ ": Field_Name is missing or empty").
  set (e2 := "Row " +:+ pretty (index + 2)%nat +:+ ": Field_Type is missing or empty").
  set (e3 := "Row " +:+ pretty (index + 2)%nat +:+ ": Model_Name is missing or empty").
  set (st3 := if negb (isFilled rt (prop row "Field_Name")) then addError e1 st2 else st2).
  set (st4 := if negb (isFilled rt (prop row "Field_Type")) then addError e2 st3 else st3).
  set (st5 := if negb (isFilled rt (prop row "Model_Name")) then addError e3 st4 else st4).
  assert (G3 : grows (isFilled rt (prop row "Field_Name")) st2 st3).
  { rewrite <- (negb_involutive (isFilled rt (prop row "Field_Name"))). apply grows_if. }
  assert (G4 : grows (isFilled rt (prop row "Field_Type")) st3 st4).
  { rewrite <- (negb_involutive (isFilled rt (prop row "Field_Type"))). apply grows_if. }
  assert (G5 : grows (isFilled rt (prop row "Model_Name")) st4 st5).
  { rewrite <- (negb_involutive (isFilled rt (prop row "Model_Name"))). apply grows_if. }
  assert (M5 : fieldIdMap st5 = fieldIdMap st2).
  { unfold st5, st4, st3.
    destruct (negb (isFilled rt (prop row "Field_Name")));
      destruct (negb (isFilled rt (prop row "Field_Type")));
      destruct (negb (isFilled rt (prop row "Model_Name"))); reflexivity. }
  assert (G6 : grows true st5 (if isFkType fieldType
                               then checkFkMetadata (index + 2) row st5 else st5)
               /\ fieldIdMap (if isFkType fieldType
                              then checkFkMetadata (index + 2) row st5 else st5)
                  = fieldIdMap st5).
  { destruct (isFkType fieldType); [apply checkFkMetadata_spec|].
    split; [apply grows_refl|reflexivity]. }
  destruct G6 as [G6 M6].
  pose proof (grows_trans _ _ _ _ _ G2 (grows_trans _ _ _ _ _ G3
                (grows_trans _ _ _ _ _ G4 (grows_trans _ _ _ _ _ G5 G6)))) as Grest.
  split; [|split].
  - pose proof (grows_trans _ _ _ _ _ G1 Grest) as G.
    replace (rowOk rt row && isFresh (fieldIdMap st) (prop row "Field_ID"))
      with (isNumber rt (prop row "Field_ID")
            && isFresh (fieldIdMap st) (prop row "Field_ID")
            && (isNumber rt (prop row "Model_ID")
                && (isFilled rt (prop row "Field_Name")
                    && (isFilled rt (prop row "Field_Type")
                        && (isFilled rt (prop row "Model_Name") && true)))));
      [exact G|].
    unfold rowOk.
    destruct (isNumber rt (prop row "Field_ID")), (isNumber rt (prop row "Model_ID")),
      (isFilled rt (prop row "Field_Name")), (isFilled rt (prop row "Field_Type")),
      (isFilled rt (prop row "Model_Name")),
      (isFresh (fieldIdMap st) (prop row "Field_ID")); reflexivity.
  - rewrite M6, M5, M2. exact M1.
  - intros Hnum firstRow Hfind.
    apply (grows_errors _ _ _ _ Grest). apply (D1 Hnum firstRow Hfind).
Qed.

Lemma validateRow_total rt st row index :
  rowOk rt row = true -> exists st', validateRow rt st row index = Ok st'.
Proof.
  unfold rowOk. rewrite !andb_true_iff. intros ((((_ & _) & Hn) & Ht) & Hm).
  unfold validateRow. cbv zeta.
  rewrite (missingOrEmpty_filled rt _ _ Hn), (missingOrEmpty_filled rt _ _ Ht),
    (missingOrEmpty_filled rt _ _ Hm).
  destruct (lowerFieldType_filled rt _ Ht) as (fieldType & ->).
  cbn [andThen]. eauto.
Qed.

Lemma forallb_lookup {A} (f : A -> bool) (l : list A) i x :
  forallb f l = true -> l !! i = Some x -> f x = true.
Proof.
  intros Hall Hi. rewrite forallb_forall in Hall. apply Hall.
  apply list_elem_of_In. eapply list_elem_of_lookup_2, Hi.
Qed.

Lemma firstWithId_app rt done rows key k :
  (k < length done)%nat ->
  firstWithId rt (done ++ rows) key k <-> firstWithId rt done key k.
Proof.
  intros Hk. unfold firstWithId. rewrite lookup_app_l by exact Hk. split.
  - intros [Hrow Hfirst]. split; [exact Hrow|].
    intros k' row' Hk' Hrow'. apply (Hfirst k' row' Hk').
    rewrite lookup_app_l by lia. exact Hrow'.
  - intros [Hrow Hfirst]. split; [exact Hrow|].
    intros k' row' Hk' Hrow'. apply (Hfirst k' row' Hk').
    rewrite lookup_app_l in Hrow' by lia. exact Hrow'.
Qed.

Lemma firstWithId_unique rt rows key k1 k2 :
  firstWithId rt rows key k1 -> firstWithId rt rows key k2 -> k1 = k2.
Proof.
  intros [(row1 & Hr1 & Hn1 & Hs1) Hf1] [(row2 & Hr2 & Hn2 & Hs2) Hf2].
  destruct (Nat.lt_trichotomy k1 k2) as [Hlt | [Heq | Hgt]]; [|exact Heq|].
  - rewrite (Hf2 k1 row1 Hlt Hr1 Hn1) in Hs1. discriminate.
  - rewrite (Hf1 k2 row2 Hgt Hr2 Hn2) in Hs2. discriminate.
Qed.

(** The loop invariant of [validateSimpleSchema] is kept by a row. *)
Lemma agrees_step rt done st row st' :
  agrees rt done st ->
  validateRow rt st row (length done) = Ok st' ->
  agrees rt (done ++ [row]) st'.
Proof.
  intros (Hve & Hvr & Hmap) Hrow.
  destruct (validateRow_spec rt st row (length done) st' Hrow)
    as ((new & Herr & Hvalid & Hok) & Hm & _).
  assert (Hfresh : forallb (rowOk rt) done = true ->
                   isFresh (fieldIdMap st) (prop row "Field_ID") = true
                   <-> forall k rowk, done !! k = Some rowk ->
                         sameValueZero (prop rowk "Field_ID") (prop row "Field_ID") = false).
  { intros Hall. unfold isFresh. specialize (Hmap (prop row "Field_ID")).
    destruct (Map_find (fieldIdMap st) (prop row "Field_ID")) as [firstRow|].
    - split; [discriminate|]. intros Hnone.
      destruct Hmap as (k & _ & (rowk & Hk & _ & Hsame) & _).
      rewrite (Hnone k rowk Hk) in Hsame. discriminate.
    - split; [|reflexivity]. intros _ k rowk Hk. apply (Hmap k rowk Hk).
      pose proof (forallb_lookup _ _ _ _ Hall Hk) as Hrk. unfold rowOk in Hrk.
      rewrite !andb_true_iff in Hrk. tauto. }
  split; [|split].
  - rewrite Hvalid, Herr, andb_true_iff, Hve, Hok. split.
    + intros [-> ->]. reflexivity.
    + intros H. apply app_eq_nil in H. exact H.
  - rewrite Hvalid, forallb_app, !andb_true_iff, Hvr. cbn [forallb].
    rewrite andb_true_r. split.
    + intros [[Hall Hdist] [Hrk Hfr]]. split; [auto|].
      pose proof (proj1 (Hfresh Hall) Hfr) as Hnone. clear Hfr. rename Hnone into Hfr.
      intros i j rowi rowj Hij Hi Hj.
      destruct (decide (j < length done)%nat) as [Hjd|Hjd].
      * rewrite lookup_app_l in Hi, Hj by lia. apply (Hdist i j rowi rowj Hij Hi Hj).
      * pose proof (lookup_lt_Some _ _ _ Hj) as Hjlen.
        rewrite length_app in Hjlen. simpl in Hjlen.
        assert (j = length done) by lia. subst j.
        rewrite list_lookup_middle in Hj by reflexivity. injection Hj as <-.
        rewrite lookup_app_l in Hi by lia. apply (Hfr i rowi Hi).
    + intros [[Hall Hrk] Hdist].
      assert (Hdone : distinctFieldIds done).
      { intros i j rowi rowj Hij Hi Hj.
        pose proof (lookup_lt_Some _ _ _ Hj) as Hjlen.
        apply (Hdist i j rowi rowj Hij); rewrite lookup_app_l by lia; assumption. }
      split; [auto|]. split; [exact Hrk|].
      apply (proj2 (Hfresh Hall)). intros k rowk Hk.
      pose proof (lookup_lt_Some _ _ _ Hk) as Hklen.
      apply (Hdist k (length done) rowk row Hklen).
      * rewrite lookup_app_l by lia. exact Hk.
      * apply list_lookup_middle. reflexivity.
  - rewrite Hm. intros key. specialize (Hmap key).
    assert (Hold : forall firstRow,
               (exists k, firstRow = (k + 2)%nat /\ firstWithId rt done key k) ->
               exists k, firstRow = (k + 2)%nat /\ firstWithId rt (done ++ [row]) key k).
    { intros firstRow (k & Hk & Hfirst). exists k. split; [exact Hk|].
      apply firstWithId_app; [|exact Hfirst].
      destruct Hfirst as [(rowk & Hrowk & _) _]. eapply lookup_lt_Some, Hrowk. }
    assert (Hnew : forall k rowk,
               (forall k' row', done !! k' = Some row' ->
                                isNumber rt (prop row' "Field_ID") = true ->
                                sameValueZero (prop row' "Field_ID") key = false) ->
               (isNumber rt (prop row "Field_ID") = true ->
                sameValueZero (prop row "Field_ID") key = false) ->
               (done ++ [row]) !! k = Some rowk ->
               isNumber rt (prop rowk "Field_ID") = true ->
               sameValueZero (prop rowk "Field_ID") key = false).
    { intros k rowk Hdone Hlast Hk Hnum.
      destruct (decide (k < length done)%nat) as [Hkd|Hkd].
      - rewrite lookup_app_l in Hk by lia. apply (Hdone k rowk Hk Hnum).
      - pose proof (lookup_lt_Some _ _ _ Hk) as Hklen.
        rewrite length_app in Hklen. simpl in Hklen.
        assert (k = length done) by lia. subst k.
        rewrite list_lookup_middle in Hk by reflexivity. injection Hk as <-.
        apply Hlast, Hnum. }
    destruct (isNumber rt (prop row "Field_ID")) eqn:Hnum; cbn [andb].
    + unfold isFresh.
      destruct (Map_find (fieldIdMap st) (prop row "Field_ID")) as [seen|] eqn:Hseen.
      * destruct (Map_find (fieldIdMap st) key) as [firstRow|] eqn:Hfind;
          [apply Hold, Hmap|].
        intros k rowk. apply Hnew; [exact Hmap|]. intros _.
        destruct (sameValueZero (prop row "Field_ID") key) eqn:Hsame; [|reflexivity].
        apply sameValueZero_eq in Hsame. congruence.
      * rewrite Map_find_app.
        destruct (Map_find (fieldIdMap st) key) as [firstRow|] eqn:Hfind;
          [apply Hold, Hmap|].
        destruct (sameValueZero (prop row "Field_ID") key) eqn:Hsame.
        -- exists (length done). split; [reflexivity|]. split.
           ++ exists row. split; [apply list_lookup_middle; reflexivity|]. auto.
           ++ intros k' row' Hk' Hrow'. rewrite lookup_app_l in Hrow' by lia.
              apply (Hmap k' row' Hrow').
        -- intros k rowk. apply Hnew; [exact Hmap|]. auto.
    + destruct (Map_find (fieldIdMap st) key) as [firstRow|] eqn:Hfind;
        [apply Hold, Hmap|].
      intros k rowk. apply Hnew; [exact Hmap|]. discriminate.
Qed.

Lemma agrees_initial rt :
  agrees rt [] {| result := {| valid := true; errors := []; warnings := [] |};
                  fieldIdMap := [] |}.
Proof.
  split; [simpl; tauto|]. split.
  - simpl. split; [|reflexivity]. intros _. split; [reflexivity|].
    intros i j rowi rowj _ Hi. discriminate.
  - intros key. simpl. intros k row Hk. discriminate.
Qed.

(** The loop of [validateSimpleSchema], from any state that agrees with the
    rows before. *)
Lemma forEach_agrees rt rows : forall done st st',
  agrees rt done st ->
  forEach (validateRow rt) rows (length done) st = Ok st' ->
  agrees rt (done ++ rows) st'
  /\ forall e, e ∈ errors (result st) -> e ∈ errors (result st').
Proof.
  induction rows as [|row rest IH]; intros done st st' Hagrees Hrun; simpl in Hrun.
  - injection Hrun as <-. rewrite app_nil_r. auto.
  - destruct (validateRow rt st row (length done)) as [st1|] eqn:Hrow; [|discriminate].
    cbn [andThen] in Hrun.
    pose proof (agrees_step rt done st row st1 Hagrees Hrow) as Hstep.
    destruct (validateRow_spec rt st row (length done) st1 Hrow) as (Hgrows & _).
    replace (S (length done)) with (length (done ++ [row])) in Hrun
      by (rewrite length_app; simpl; lia).
    destruct (IH _ _ _ Hstep Hrun) as [Hfinal Hkeep].
    rewrite <- app_assoc in Hfinal. split; [exact Hfinal|].
    intros e He. apply Hkeep. apply (grows_errors _ _ _ _ Hgrows He).
Qed.

Lemma forEach_total rt rows : forall index st,
  forallb (rowOk rt) rows = true ->
  exists st', forEach (validateRow rt) rows index st = Ok st'.
Proof.
  induction rows as [|row rest IH]; intros index st Hall; simpl; [eauto|].
  simpl in Hall. apply andb_true_iff in Hall as [Hrow Hrest].
  destruct (validateRow_total rt st row index Hrow) as (st1 & ->).
  cbn [andThen]. apply IH, Hrest.
Qed.

(** What a result of [validateSimpleSchema] says of the rows. *)
Lemma validateSimpleSchema_spec rt rows r :
  validateSimpleSchema rt rows = Ok r ->
  (valid r = true <-> errors r = [])
  /\ (valid r = true
      <-> rows <> [] /\ forallb (rowOk rt) rows = true /\ distinctFieldIds rows).
Proof.
  unfold validateSimpleSchema. destruct rows as [|row rest].
  - simpl. intros [= <-]. simpl. split; [split; discriminate|].
    split; [discriminate|]. intros [H _]. congruence.
  - change (length (row :: rest) =? 0)%nat with false. cbv iota.
    destruct (forEach _ _ _ _) as [st'|] eqn:Hrun; [|discriminate].
    cbn [andThen]. intros [= <-].
    destruct (forEach_agrees rt (row :: rest) [] _ _ (agrees_initial rt) Hrun)
      as [(Hve & Hvr & _) _].
    simpl in Hvr. split; [exact Hve|]. rewrite Hvr.
    split; [intros [? ?]; auto|intros (_ & ? & ?); auto].
Qed.

(** X15.  What [validateSimpleSchema] decides.  In every result it returns,
    [valid] holds exactly when [errors] is empty, so warnings about missing
    FK metadata never make a schema invalid.  A valid result is returned
    exactly when there is at least one row, every row has a [Field_ID] and a
    [Model_ID] that are not null, undefined or NaN and a [Field_Name], a
    [Field_Type] and a [Model_Name] that are strings, not empty after
    trimming, and no two rows have the same [Field_ID]. *)
Theorem X15_valid_iff_rows_well_formed rt rows :
  (forall r, validateSimpleSchema rt rows = Ok r ->
             (valid r = true <-> errors r = []))
  /\ ((exists r, validateSimpleSchema rt rows = Ok r /\ valid r = true)
      <-> rows <> [] /\ forallb (rowOk rt) rows = true /\ distinctFieldIds rows).
Proof.
  split.
  - intros r Hrun. apply (validateSimpleSchema_spec rt rows r Hrun).
  - split.
    + intros (r & Hrun & Hvalid).
      apply (validateSimpleSchema_spec rt rows r Hrun), Hvalid.
    + intros (Hne & Hall & Hdist).
      assert (Hret : exists r, validateSimpleSchema rt rows = Ok r).
      { unfold validateSimpleSchema. destruct rows as [|row rest]; [congruence|].
        change (length (row :: rest) =? 0)%nat with false. cbv iota.
        destruct (forEach_total rt (row :: rest) 0
                    {| result := {| valid := true; errors := []; warnings := [] |};
                       fieldIdMap := [] |} Hall) as (st' & ->).
        cbn [andThen]. eauto. }
      destruct Hret as (r & Hrun). exists r. split; [exact Hrun|].
      apply (validateSimpleSchema_spec rt rows r Hrun). auto.
Qed.

(** The row that repeats an id is reported with the sheet row of the first
    row that carries the id. *)
Lemma forEach_duplicates rt rows : forall done st st',
  agrees rt done st ->
  forEach (validateRow rt) rows (length done) st = Ok st' ->
  forall p rowj k,
    rows !! p = Some rowj ->
    isNumber rt (prop rowj "Field_ID") = true ->
    firstWithId rt (done ++ rows) (prop rowj "Field_ID") k ->
    (k < length done + p)%nat ->
    duplicateMessage (prop rowj "Field_ID") (k + 2) (length done + p + 2)
      ∈ errors (result st').
Proof.
  induction rows as [|row rest IH]; intros done st st' Hagrees Hrun p rowj k Hp Hnum
    Hfirst Hk; [discriminate|].
  simpl in Hrun.
  destruct (validateRow rt st row (length done)) as [st1|] eqn:Hrow; [|discriminate].
  cbn [andThen] in Hrun.
  pose proof (agrees_step rt done st row st1 Hagrees Hrow) as Hstep.
  replace (S (length done)) with (length (done ++ [row])) in Hrun
    by (rewrite length_app; simpl; lia).
  destruct p as [|p].
  - injection Hp as <-. rewrite Nat.add_0_r in Hk |- *.
    apply (firstWithId_app rt done (row :: rest) _ k Hk) in Hfirst.
    destruct (validateRow_spec rt st row (length done) st1 Hrow) as (_ & _ & Hdup).
    destruct (forEach_agrees rt rest _ _ _ Hstep Hrun) as [_ Hkeep].
    apply Hkeep, (Hdup Hnum).
    destruct Hagrees as (_ & _ & Hmap). specialize (Hmap (prop row "Field_ID")).
    destruct (Map_find (fieldIdMap st) (prop row "Field_ID")) as [firstRow|].
    + destruct Hmap as (k0 & -> & Hk0).
      rewrite (firstWithId_unique rt done _ k0 k Hk0 Hfirst). reflexivity.
    + destruct Hfirst as [(rowk & Hrowk & Hnk & Hsame) _].
      rewrite (Hmap k rowk Hrowk Hnk) in Hsame. discriminate.
  - simpl in Hp.
    replace (length done + S p + 2)%nat with (length (done ++ [row]) + p + 2)%nat
      by (rewrite length_app; simpl; lia).
    apply (IH _ _ _ Hstep Hrun p rowj k Hp Hnum).
    + rewrite <- app_assoc. exact Hfirst.
    + rewrite length_app. simpl. lia.
Qed.

(** X16.  Duplicates are reported against the first occurrence.  When row
    [j] carries a usable [Field_ID] that an earlier row carries too, the
    errors of [validateSimpleSchema] hold the message that names the id, the
    sheet row of the first row with that id and the sheet row of row [j]
    (sheet rows count from 2), and the schema is invalid. *)
Theorem X16_duplicate_names_first_row rt rows r j rowj k
    (Hrun : validateSimpleSchema rt rows = Ok r)
    (Hj : rows !! j = Some rowj)
    (Hnum : isNumber rt (prop rowj "Field_ID") = true)
    (Hfirst : firstWithId rt rows (prop rowj "Field_ID") k)
    (Hk : (k < j)%nat) :
  duplicateMessage (prop rowj "Field_ID") (k + 2) (j + 2) ∈ errors r
  /\ valid r = false.
Proof.
  assert (Hmsg : duplicateMessage (prop rowj "Field_ID") (k + 2) (j + 2) ∈ errors r).
  { unfold validateSimpleSchema in Hrun. destruct rows as [|row rest]; [discriminate|].
    change (length (row :: rest) =? 0)%nat with false in Hrun. cbv iota in Hrun.
    destruct (forEach _ _ _ _) as [st'|] eqn:Hloop; [|discriminate].
    cbn [andThen] in Hrun. injection Hrun as <-.
    apply (forEach_duplicates rt (row :: rest) [] _ _ (agrees_initial rt) Hloop
             j rowj k Hj Hnum Hfirst Hk). }
  split; [exact Hmsg|].
  destruct (validateSimpleSchema_spec rt rows r Hrun) as [Hve _].
  destruct (valid r); [|reflexivity].
  rewrite (proj1 Hve eq_refl) in Hmsg. inversion Hmsg.
Qed.

Lemma X16_duplicate_names_first_row_witness :
  exists r,
    validateSimpleSchema sampleRuntime repeatedIdRows = Ok r
    /\ "Duplicate Field_ID 201 found in rows 2 and 4" ∈ errors r
    /\ valid r = false /\ warnings r = [].
Proof.
  assert (Hret : exists r, validateSimpleSchema sampleRuntime repeatedIdRows = Ok r
                           /\ warnings r = [])
    by (eexists; split; vm_compute; reflexivity).
  destruct Hret as (r & Hret & Hwarn). exists r. split; [exact Hret|].
  destruct (X16_duplicate_names_first_row sampleRuntime repeatedIdRows r 2
              (schemaRow 201 2 "total" "float" "order") 0 Hret eq_refl eq_refl)
    as [Hmsg Hinvalid].
  - split.
    + exists (schemaRow 201 2 "name" "char" "order"). repeat split; reflexivity.
    + intros k' row' Hk'. lia.
  - lia.
  - split; [exact Hmsg|]. split; [exact Hinvalid|exact Hwarn].
Defined.

(** ** Warnings *)

Lemma warnings_checkFieldId rt rowNum row st :
  warnings (result (checkFieldId rt rowNum row st)) = warnings (result st).
Proof.
  unfold checkFieldId. cbv zeta.
  destruct (is_nullish _); [reflexivity|]. destruct (isNaN rt _); [reflexivity|].
  destruct (Map_find _ _); reflexivity.
Qed.

Lemma warnings_checkModelId rt rowNum row st :
  warnings (result (checkModelId rt rowNum row st)) = warnings (result st).
Proof.
  unfold checkModelId. cbv zeta.
  destruct (is_nullish _); [reflexivity|]. destruct (isNaN rt _); reflexivity.
Qed.

Lemma warnings_if_addError (c : bool) msg st :
  warnings (result (if c then addError msg st else st)) = warnings (result st).
Proof. destruct c; reflexivity. Qed.

Lemma warnings_checkFkMetadata rowNum row st :
  exists new,
    warnings (result (checkFkMetadata rowNum row st)) = warnings (result st) ++ new
    /\ (new = [] <-> fkComplete row = true)
    /\ (length new <= 3)%nat.
Proof.
  unfold checkFkMetadata, fkComplete. cbv zeta.
  destruct (js_truthy (getFkField row "FK location field model"));
    destruct (is_nullish (getFkField row "FK location field model id"));
    destruct (is_nullish (getFkField row "FK location record Id"));
    cbn [negb andb addWarning warnings result];
    rewrite <- ?app_assoc; eexists;
    (split; [first [reflexivity | symmetry; apply app_nil_r]|]);
    (split; [split; [try discriminate; reflexivity|try discriminate; reflexivity]
            |simpl; lia]).
Qed.

Lemma lowerFieldType_isFkRow rt row fieldType :
  lowerFieldType rt (prop row "Field_Type") = Ok fieldType ->
  isFkType fieldType = isFkRow rt row.
Proof.
  unfold lowerFieldType, isFkRow.
  destruct (prop row "Field_Type") as [| | | |s| |]; simpl; try discriminate;
    try (intros [= <-]; reflexivity).
  destruct (String.eqb (toLowerCase rt s) EmptyString) eqn:Hempty; simpl;
    intros [= <-]; [|reflexivity].
  apply String.eqb_eq in Hempty. rewrite Hempty. reflexivity.
Qed.

(** The warnings of one call of the callback of [forEach]. *)
Lemma validateRow_warnings rt st row index st' :
  validateRow rt st row index = Ok st' ->
  exists new,
    warnings (result st') = warnings (result st) ++ new
    /\ (new = [] <-> (isFkRow rt row = true -> fkComplete row = true))
    /\ (length new <= 3)%nat.
Proof.
  unfold validateRow. cbv zeta.
  destruct (missingOrEmpty rt "row.Field_Name" _) as [m1|]; [|discriminate].
  destruct (missingOrEmpty rt "row.Field_Type" _) as [m2|]; [|discriminate].
  destruct (missingOrEmpty rt "row.Model_Name" _) as [m3|]; [|discriminate].
  destruct (lowerFieldType rt (prop row "Field_Type")) as [fieldType|] eqn:Hlower;
    [|discriminate].
  cbn [andThen]. intros [= <-].
  rewrite (lowerFieldType_isFkRow rt row fieldType Hlower).
  destruct (isFkRow rt row).
  - match goal with
    | |- context [checkFkMetadata ?n ?r ?s] =>
        destruct (warnings_checkFkMetadata n r s) as (new & Hnew & Hiff & Hlen)
    end.
    exists new. split; [|split; [|exact Hlen]].
    + rewrite Hnew, !warnings_if_addError, warnings_checkModelId, warnings_checkFieldId.
      reflexivity.
    + rewrite Hiff. split; [auto|]. intros H. apply H. reflexivity.
  - exists []. rewrite app_nil_r. split; [|split; [|simpl; lia]].
    + rewrite !warnings_if_addError, warnings_checkModelId, warnings_checkFieldId.
      reflexivity.
    + split; [intros _; discriminate|reflexivity].
Qed.

Lemma forEach_warnings rt rows : forall index st st',
  forEach (validateRow rt) rows index st = Ok st' ->
  exists more,
    warnings (result st') = warnings (result st) ++ more
    /\ (more = [] <-> forall row, row ∈ rows -> isFkRow rt row = true ->
                                  fkComplete row = true)
    /\ (length more <= 3 * length rows)%nat.
Proof.
  induction rows as [|row rest IH]; intros index st st' Hrun; simpl in Hrun.
  - injection Hrun as <-. exists []. rewrite app_nil_r. split; [reflexivity|].
    split; [|simpl; lia]. split; [intros _ row Hin; inversion Hin|reflexivity].
  - destruct (validateRow rt st row index) as [st1|] eqn:Hrow; [|discriminate].
    cbn [andThen] in Hrun.
    destruct (validateRow_warnings rt st row index st1 Hrow) as (new & Hnew & Hiff & Hlen).
    destruct (IH _ _ _ Hrun) as (more & Hmore & Hall & Hlens).
    exists (new ++ more). rewrite Hmore, Hnew, <- app_assoc.
    split; [reflexivity|]. split.
    + split.
      * intros H. apply app_eq_nil in H as [Hn Hm].
        intros row' Hin. apply elem_of_cons in Hin as [-> | Hin].
        -- apply Hiff, Hn.
        -- apply (proj1 Hall Hm row' Hin).
      * intros H.
        rewrite (proj2 Hiff (H row ltac:(left))).
        rewrite (proj2 Hall (fun row' Hin => H row' ltac:(right; exact Hin))).
        reflexivity.
    + rewrite length_app. simpl. lia.
Qed.

(** X23.  When [validateSimpleSchema] warns.  A result it returns carries no
    warning exactly when every row that is an FK field (a [Field_Type] that
    lower-cases to many2one, many2many or one2many) has its three items of FK
    metadata, each under the exact column name or the one with a leading
    space: a truthy FK model and an FK model id and record id that are
    neither null nor undefined.  A row adds at most three warnings. *)
Theorem X23_warnings_iff_fk_metadata_missing rt rows r
    (Hrun : validateSimpleSchema rt rows = Ok r) :
  (warnings r = []
   <-> forall row, row ∈ rows -> isFkRow rt row = true -> fkComplete row = true)
  /\ (length (warnings r) <= 3 * length rows)%nat.
Proof.
  unfold validateSimpleSchema in Hrun. destruct rows as [|row rest].
  - injection Hrun as <-. simpl. split; [|lia].
    split; [intros _ row Hin; inversion Hin|reflexivity].
  - change (length (row :: rest) =? 0)%nat with false in Hrun. cbv iota in Hrun.
    destruct (forEach _ _ _ _) as [st'|] eqn:Hloop; [|discriminate].
    cbn [andThen] in Hrun. injection Hrun as <-.
    destruct (forEach_warnings rt _ _ _ _ Hloop) as (more & Hmore & Hall & Hlen).
    simpl in Hmore. rewrite Hmore. split; [exact Hall|exact Hlen].
Qed.

Lemma X23_warnings_iff_fk_metadata_missing_witness :
  (exists r, validateSimpleSchema sampleRuntime [partnerFieldRow] = Ok r
             /\ warnings r = [])
  /\ exists r, validateSimpleSchema sampleRuntime [partnerFieldRow; bareFkRow] = Ok r
               /\ valid r = true /\ length (warnings r) = 3%nat.
Proof.
  split.
  - assert (Hret : exists r, validateSimpleSchema sampleRuntime [partnerFieldRow] = Ok r)
      by (eexists; vm_compute; reflexivity).
    destruct Hret as (r & Hret). exists r. split; [exact Hret|].
    apply (X23_warnings_iff_fk_metadata_missing sampleRuntime [partnerFieldRow] r Hret).
    intros row Hin _. apply list_elem_of_singleton in Hin. subst row. reflexivity.
  - eexists. repeat split; vm_compute; reflexivity.
Defined.

(** ** Conversion *)

Lemma mapRows_spec {A} (callback : gmap string value -> answer A) rows : forall out,
  mapRows callback rows = Ok out ->
  length out = length rows
  /\ forall i row, rows !! i = Some row ->
                   exists o, out !! i = Some o /\ callback row = Ok o.
Proof.
  induction rows as [|row rest IH]; intros out Hrun; simpl in Hrun.
  - injection Hrun as <-. split; [reflexivity|]. intros i row Hi. discriminate.
  - destruct (callback row) as [o|] eqn:Hrow; [|discriminate]. cbn [andThen] in Hrun.
    destruct (mapRows callback rest) as [others|]; [|discriminate].
    cbn [andThen] in Hrun. injection Hrun as <-.
    destruct (IH others eq_refl) as [Hlen Hall].
    split; [simpl; congruence|].
    intros [|i] row' Hi; simpl in Hi.
    + injection Hi as <-. exists o. auto.
    + apply (Hall i row' Hi).
Qed.

Lemma defined_is_Some (v : value) :
  is_Some (if negb (is_undefined v) then Some v else None) <-> v <> VUndefined.
Proof.
  destruct v; simpl; split; intros H; try discriminate; eauto.
  - destruct H; discriminate.
  - congruence.
Qed.

(** One call of the callback of [rows.map], when it does not throw. *)
Lemma convertRow_inv rt row o :
  convertRow rt row = Ok o ->
  exists uuid fkUuid isStored,
    buildSchemaUuidV2Simple rt (prop row "Field_ID") (prop row "Model_ID") = Ok uuid
    /\ match fkUuid with
       | Some u =>
           is_undefined (getFkField row "FK location field model id") = false
           /\ is_undefined (getFkField row "FK location record Id") = false
           /\ buildSchemaFkRefUuidV2 rt (getFkField row "FK location field model id")
                                     (getFkField row "FK location record Id") = Ok u
       | None => True
       end
    /\ o = {| qdrant_id := uuid;
              semantic_text := generateSemanticText row fkUuid;
              raw_payload := generatePayloadString row uuid;
              field_id := prop row "Field_ID";
              model_id := prop row "Model_ID";
              field_name := prop row "Field_Name";
              field_label := prop row "Field_Label";
              field_type := prop row "Field_Type";
              model_name := prop row "Model_Name";
              stored := isStored;
              fk_location_model :=
                if js_truthy (getFkField row "FK location field model")
                then Some (getFkField row "FK location field model") else None;
              fk_location_model_id :=
                if negb (is_undefined (getFkField row "FK location field model id"))
                then Some (getFkField row "FK location field model id") else None;
              fk_location_record_id :=
                if negb (is_undefined (getFkField row "FK location record Id"))
                then Some (getFkField row "FK location record Id") else None;
              fk_qdrant_id := if truthy_str fkUuid then fkUuid else None |}.
Proof.
  unfold convertRow. cbv zeta.
  destruct (buildSchemaUuidV2Simple rt _ _) as [uuid|]; [|discriminate].
  cbn [andThen].
  destruct (negb (is_undefined (getFkField row "FK location field model id"))
            && negb (is_undefined (getFkField row "FK location record Id"))) eqn:Hboth.
  - destruct (buildSchemaFkRefUuidV2 rt _ _) as [u|] eqn:Hbuilt; [|discriminate].
    cbn [andThen].
    destruct (storedOf rt (prop row "Stored")) as [isStored|]; [|discriminate].
    cbn [andThen]. intros [= <-].
    exists uuid, (Some u), isStored. split; [reflexivity|]. split; [|reflexivity].
    apply andb_true_iff in Hboth as [Hmid Hrid].
    apply negb_true_iff in Hmid, Hrid. auto.
  - cbn [andThen].
    destruct (storedOf rt (prop row "Stored")) as [isStored|]; [|discriminate].
    cbn [andThen]. intros [= <-].
    exists uuid, None, isStored. auto.
Qed.

(** X17.  What [convertSimpleSchemaToNexsus] returns.  It returns only for a
    schema that [validateSimpleSchema] finds valid (every row well formed, no
    repeated [Field_ID]), and then returns one row per input row, in input
    order.  The output row of an input row carries the identifier built from
    the row's [Field_ID] and [Model_ID], the six cells of the row unchanged,
    the payload string generated for that identifier, and the semantic text
    generated for its FK identifier; an FK identifier is present only if both
    the FK model id and the FK record id cells are defined, in which case it
    is the non-empty identifier built from them, and the FK model id and
    record id are copied exactly when their cells are defined. *)
Theorem X17_conversion_keeps_rows rt rows out
    (Hrun : convertSimpleSchemaToNexsus rt rows = Ok out) :
  (exists r, validateSimpleSchema rt rows = Ok r /\ valid r = true /\ errors r = [])
  /\ rows <> [] /\ forallb (rowOk rt) rows = true /\ distinctFieldIds rows
  /\ length out = length rows
  /\ forall i row, rows !! i = Some row ->
       exists o,
         out !! i = Some o
         /\ buildSchemaUuidV2Simple rt (prop row "Field_ID") (prop row "Model_ID")
            = Ok (qdrant_id o)
         /\ field_id o = prop row "Field_ID" /\ model_id o = prop row "Model_ID"
         /\ field_name o = prop row "Field_Name"
         /\ field_label o = prop row "Field_Label"
         /\ field_type o = prop row "Field_Type"
         /\ model_name o = prop row "Model_Name"
         /\ raw_payload o = generatePayloadString row (qdrant_id o)
         /\ semantic_text o = generateSemanticText row (fk_qdrant_id o)
         /\ (forall fkUuid, fk_qdrant_id o = Some fkUuid ->
               fkUuid <> EmptyString
               /\ fk_location_model_id o
                  = Some (getFkField row "FK location field model id")
               /\ fk_location_record_id o
                  = Some (getFkField row "FK location record Id")
               /\ buildSchemaFkRefUuidV2 rt
                    (getFkField row "FK location field model id")
                    (getFkField row "FK location record Id") = Ok fkUuid)
         /\ (is_Some (fk_location_model_id o)
             <-> getFkField row "FK location field model id" <> VUndefined)
         /\ (is_Some (fk_location_record_id o)
             <-> getFkField row "FK location record Id" <> VUndefined).
Proof.
  unfold convertSimpleSchemaToNexsus in Hrun.
  destruct (validateSimpleSchema rt rows) as [r|] eqn:Hvalidate; [|discriminate].
  cbn [andThen] in Hrun.
  destruct (valid r) eqn:Hvalid; [|discriminate]. cbn [negb] in Hrun.
  destruct (validateSimpleSchema_spec rt rows r Hvalidate) as [Hve Hvr].
  destruct (proj1 Hvr Hvalid) as (Hne & Hall & Hdist).
  split; [exists r; split; [reflexivity|]; split; [exact Hvalid|apply Hve, Hvalid]|].
  split; [exact Hne|]. split; [exact Hall|]. split; [exact Hdist|].
  destruct (mapRows_spec _ _ _ Hrun) as [Hlen Hrows].
  split; [exact Hlen|].
  intros i row Hi. destruct (Hrows i row Hi) as (o & Ho & Hconv).
  exists o. split; [exact Ho|].
  destruct (convertRow_inv rt row o Hconv) as (uuid & fkUuid & isStored & Huuid & Hfk & ->).
  cbn [qdrant_id field_id model_id field_name field_label field_type model_name
       raw_payload semantic_text fk_qdrant_id fk_location_model_id
       fk_location_record_id].
  repeat (split; [first [exact Huuid|reflexivity]|]).
  split; [|split; [|split; apply defined_is_Some]].
  - destruct fkUuid as [u|]; [|reflexivity]. cbn [truthy_str].
    destruct (String.eqb u EmptyString) eqn:Hempty; [|reflexivity].
    apply String.eqb_eq in Hempty. subst u. reflexivity.
  - intros u. destruct fkUuid as [u'|]; [|discriminate]. cbn [truthy_str].
    destruct (String.eqb u' EmptyString) eqn:Hempty; cbn [negb]; [discriminate|].
    intros [= ->]. destruct Hfk as (Hmid & Hrid & Hbuilt).
    rewrite Hmid, Hrid. apply String.eqb_neq in Hempty. auto.
Qed.

Lemma X17_conversion_keeps_rows_witness :
  exists out,
    convertSimpleSchemaToNexsus sampleRuntime
      [schemaRow 201 2 "name" "char" "order"; partnerFieldRow] = Ok out
    /\ length out = 2%nat
    /\ List.map qdrant_id out = ["00000003-2-201"; "00000003-2-202"]
    /\ List.map fk_qdrant_id out = [None; Some "00000002-3-301"]
    /\ List.map stored out = [true; true].
Proof.
  assert (Hret : exists out,
             convertSimpleSchemaToNexsus sampleRuntime
               [schemaRow 201 2 "name" "char" "order"; partnerFieldRow] = Ok out
             /\ List.map qdrant_id out = ["00000003-2-201"; "00000003-2-202"]
             /\ List.map fk_qdrant_id out = [None; Some "00000002-3-301"]
             /\ List.map stored out = [true; true])
    by (eexists; repeat split; vm_compute; reflexivity).
  destruct Hret as (out & Hret & Hids & Hfk & Hstored).
  destruct (X17_conversion_keeps_rows sampleRuntime _ out Hret)
    as (_ & _ & _ & _ & Hlen & _).
  exists out. auto.
Defined.

(** Under one model id, the sample helper gives different identifiers to
    different numeric field ids. *)
Lemma sampleRuntime_separates modelId n m u :
  buildSchemaUuidV2Simple sampleRuntime (VNum n) modelId = Ok u ->
  buildSchemaUuidV2Simple sampleRuntime (VNum m) modelId = Ok u ->
  n = m.
Proof.
  cbn [buildSchemaUuidV2Simple sampleRuntime]. intros [= <-] [= Heq].
  do 3 apply string_app_inv_head in Heq.
  apply pretty_Z_inj in Heq. congruence.
Qed.

(** X22.  Point ids follow field ids.  Of two rows of a sheet that
    [convertSimpleSchemaToNexsus] converts, the [Field_ID] cells differ as
    keys of the duplicate check, and the point ids of their output rows are
    the identifiers that the helper builds from each row's [Field_ID] and
    [Model_ID].  When both cells are numbers they are different numbers, and
    the point ids differ provided that, under the model ids of the two rows,
    the helper gives different identifiers to different numeric field ids.
    The duplicate check alone gives no more: a number and its numeral as text
    are different keys, so such rows are both converted, and a helper that
    formats its arguments as text gives both the same point id. *)
Theorem X22_point_ids_follow_field_ids rt rows out i j rowi rowj
    (Hrun : convertSimpleSchemaToNexsus rt rows = Ok out)
    (Hij : (i < j)%nat)
    (Hi : rows !! i = Some rowi)
    (Hj : rows !! j = Some rowj) :
  sameValueZero (prop rowi "Field_ID") (prop rowj "Field_ID") = false
  /\ exists oi oj,
       out !! i = Some oi /\ out !! j = Some oj
       /\ buildSchemaUuidV2Simple rt (prop rowi "Field_ID") (prop rowi "Model_ID")
          = Ok (qdrant_id oi)
       /\ buildSchemaUuidV2Simple rt (prop rowj "Field_ID") (prop rowj "Model_ID")
          = Ok (qdrant_id oj)
       /\ forall n m,
            prop rowi "Field_ID" = VNum n -> prop rowj "Field_ID" = VNum m ->
            n <> m
            /\ ((forall n' m' u,
                    buildSchemaUuidV2Simple rt (VNum n') (prop rowi "Model_ID") = Ok u ->
                    buildSchemaUuidV2Simple rt (VNum m') (prop rowj "Model_ID") = Ok u ->
                    n' = m') ->
                qdrant_id oi <> qdrant_id oj).
Proof.
  unfold convertSimpleSchemaToNexsus in Hrun.
  destruct (validateSimpleSchema rt rows) as [r|] eqn:Hvalidate; [|discriminate].
  cbn [andThen] in Hrun.
  destruct (valid r) eqn:Hvalid; [|discriminate]. cbn [negb] in Hrun.
  destruct (validateSimpleSchema_spec rt rows r Hvalidate) as [_ Hvr].
  destruct (proj1 Hvr Hvalid) as (_ & _ & Hdist).
  destruct (mapRows_spec _ _ _ Hrun) as [Hlen Hrows].
  pose proof (Hdist i j rowi rowj Hij Hi Hj) as Hkeys.
  split; [exact Hkeys|].
  destruct (Hrows i rowi Hi) as (oi & Hoi & Hci).
  destruct (Hrows j rowj Hj) as (oj & Hoj & Hcj).
  exists oi, oj. split; [exact Hoi|]. split; [exact Hoj|].
  destruct (convertRow_inv rt rowi oi Hci) as (ui & fki & sti & Hui & _ & Hei).
  destruct (convertRow_inv rt rowj oj Hcj) as (uj & fkj & stj & Huj & _ & Hej).
  rewrite Hei, Hej. cbn [qdrant_id].
  split; [exact Hui|]. split; [exact Huj|].
  intros n m Hn Hm. rewrite Hn, Hm in Hkeys. rewrite Hn in Hui. rewrite Hm in Huj.
  assert (Hne : n <> m).
  { intros ->. cbn in Hkeys. rewrite Z.eqb_refl in Hkeys. discriminate. }
  split; [exact Hne|].
  intros Hsep Heq. subst uj. exact (Hne (Hsep n m ui Hui Huj)).
Qed.

Lemma X22_point_ids_follow_field_ids_witness :
  (exists out,
      convertSimpleSchemaToNexsus sampleRuntime
        [schemaRow 201 2 "name" "char" "order"; partnerFieldRow] = Ok out
      /\ forall oi oj, out !! 0%nat = Some oi -> out !! 1%nat = Some oj ->
                       qdrant_id oi <> qdrant_id oj)
  /\ (exists out,
        convertSimpleSchemaToNexsus sampleRuntime
          [schemaRow 201 2 "name" "char" "order"; numeralIdRow] = Ok out
        /\ sameValueZero (VNum 201) (VStr "201") = false
        /\ List.map qdrant_id out = ["00000003-2-201"; "00000003-2-201"]).
Proof.
  split.
  - assert (Hret : exists out,
               convertSimpleSchemaToNexsus sampleRuntime
                 [schemaRow 201 2 "name" "char" "order"; partnerFieldRow] = Ok out)
      by (eexists; vm_compute; reflexivity).
    destruct Hret as (out & Hret). exists out. split; [exact Hret|].
    intros oi oj Hoi Hoj.
    destruct (X22_point_ids_follow_field_ids sampleRuntime _ out 0 1
                (schemaRow 201 2 "name" "char" "order") partnerFieldRow Hret)
      as (_ & oi' & oj' & Hoi' & Hoj' & _ & _ & Hnum);
      [lia|reflexivity|reflexivity|].
    assert (oi' = oi) by congruence. assert (oj' = oj) by congruence. subst oi' oj'.
    apply (Hnum 201 202); [reflexivity|reflexivity|].
    exact (sampleRuntime_separates (VNum 2)).
  - assert (Hret : exists out,
               convertSimpleSchemaToNexsus sampleRuntime
                 [schemaRow 201 2 "name" "char" "order"; numeralIdRow] = Ok out
               /\ List.map qdrant_id out = ["00000003-2-201"; "00000003-2-201"])
      by (eexists; split; vm_compute; reflexivity).
    destruct Hret as (out & Hret & Hids). exists out. split; [exact Hret|].
    split; [|exact Hids].
    exact (proj1 (X22_point_ids_follow_field_ids sampleRuntime _ out 0 1
                    (schemaRow 201 2 "name" "char" "order") numeralIdRow Hret
                    ltac:(lia) eq_refl eq_refl)).
Defined.

(** ** Text and payload *)

Lemma string_app_assoc (a b c : string) : (a +:+ b) +:+ c = a +:+ (b +:+ c).
Proof. induction a as [|x a IH]; [reflexivity|exact (f_equal (String x) IH)]. Qed.

Lemma string_app_nil_r (a : string) : a +:+ EmptyString = a.
Proof. induction a as [|x a IH]; [reflexivity|exact (f_equal (String x) IH)]. Qed.

Lemma app_if (c : bool) (text more : string) :
  (if c then text +:+ more else text) = text +:+ (if c then more else EmptyString).
Proof. destruct c; [reflexivity|]. rewrite string_app_nil_r. reflexivity. Qed.

Lemma app_if_not (c : bool) (text more : string) :
  (if c then text else text +:+ more) = text +:+ (if c then EmptyString else more).
Proof. destruct c; [|reflexivity]. rewrite string_app_nil_r. reflexivity. Qed.

Lemma if_negb {A} (c : bool) (x y : A) :
  (if negb c then x else y) = (if c then y else x).
Proof. destruct c; reflexivity. Qed.

Lemma defined_and_not_null (v : value) :
  negb (is_undefined v) && negb (is_nullish v) = negb (is_nullish v).
Proof. destruct v; reflexivity. Qed.

(** X18.  The semantic text and the payload string of a row carry the same
    description of the field.  The payload is the point id and the data type
    followed by the description; the text is the model name followed by the
    same description and, when an FK identifier is given, that identifier.
    The description lists the seven cells of the row and then the FK model,
    the FK model id and the FK record id that the row carries (under the
    exact column name or the one with a leading space), so FK metadata
    appears in the text exactly when it appears in the payload. *)
Theorem X18_text_and_payload_share_description row uuid fkUuid :
  generatePayloadString row uuid
    = "point_id - " +:+ uuid +:+ ", Data_type - 3, " +:+ fieldDescription row
  /\ generateSemanticText row fkUuid
     = "In model " +:+ js_String (prop row "Model_Name") +:+ ", "
       +:+ fieldDescription row
       +:+ (if truthy_str fkUuid
            then ", Qdrant ID for FK - " +:+ default EmptyString fkUuid
            else EmptyString).
Proof.
  unfold generatePayloadString, generateSemanticText, fieldDescription. cbv zeta.
  rewrite !defined_and_not_null, !if_negb.
  repeat first [rewrite app_if | rewrite app_if_not].
  rewrite !string_app_assoc. split; reflexivity.
Qed.

(** ** Cells of the wrong type *)

Lemma forEach_throws body rows row :
  row ∈ rows ->
  (forall st index, exists msg, body st row index = Fail msg) ->
  forall index st, exists msg, forEach body rows index st = Fail msg.
Proof.
  intros Hin Hrow. induction rows as [|row' rest IH]; intros index st;
    [inversion Hin|].
  simpl. apply elem_of_cons in Hin as [<- | Hin].
  - destruct (Hrow st index) as (msg & ->). cbn. eauto.
  - destruct (body st row' index) as [st1|msg]; cbn; [apply IH, Hin|eauto].
Qed.

Lemma mapRows_throws {A} (callback : gmap string value -> answer A) rows row :
  row ∈ rows ->
  (exists msg, callback row = Fail msg) ->
  exists msg, mapRows callback rows = Fail msg.
Proof.
  intros Hin (msg & Hrow). induction rows as [|row' rest IH]; [inversion Hin|].
  simpl. apply elem_of_cons in Hin as [<- | Hin].
  - rewrite Hrow. cbn. eauto.
  - destruct (callback row') as [a|msg']; cbn; [|eauto].
    destruct (IH Hin) as (msg' & ->). cbn. eauto.
Qed.

Lemma missingOrEmpty_throws rt expr v :
  isTruthyNonString v = true -> exists msg, missingOrEmpty rt expr v = Fail msg.
Proof.
  unfold isTruthyNonString, missingOrEmpty. intros H.
  apply andb_true_iff in H as [-> H]. cbn [negb].
  destruct v; try discriminate; eauto.
Qed.

Lemma lowerFieldType_throws rt v :
  isDefinedNonString v = true -> exists msg, lowerFieldType rt v = Fail msg.
Proof.
  unfold isDefinedNonString, lowerFieldType. intros H.
  apply andb_true_iff in H as [Hn H]. apply negb_true_iff in Hn. rewrite Hn.
  destruct v; try discriminate; eauto.
Qed.

(** X20.  Cells of the wrong type make the converter throw instead of
    reporting an error.  If some row holds a [Field_Name] or a [Model_Name]
    that is truthy and not a string, or a [Field_Type] that is neither null,
    undefined nor a string, then [validateSimpleSchema] throws (a call of
    [trim] or [toLowerCase] on that cell), whatever the other rows hold.
    The [Stored] cell is not validated: if some row holds one that is neither
    null, undefined nor a string, [convertSimpleSchemaToNexsus] throws, also
    for a schema that validation finds valid. *)
Theorem X20_wrong_cell_types_throw rt rows row
    (Hrow : row ∈ rows) :
  (isTruthyNonString (prop row "Field_Name") = true
   \/ isDefinedNonString (prop row "Field_Type") = true
   \/ isTruthyNonString (prop row "Model_Name") = true ->
   (exists msg, validateSimpleSchema rt rows = Fail msg)
   /\ exists msg, convertSimpleSchemaToNexsus rt rows = Fail msg)
  /\ (isDefinedNonString (prop row "Stored") = true ->
      exists msg, convertSimpleSchemaToNexsus rt rows = Fail msg).
Proof.
  split.
  - intros Hbad.
    assert (Hthrow : exists msg, validateSimpleSchema rt rows = Fail msg).
    { unfold validateSimpleSchema.
      destruct rows as [|row0 rest]; [inversion Hrow|].
      change (length (row0 :: rest) =? 0)%nat with false. cbv iota.
      destruct (forEach_throws (validateRow rt) (row0 :: rest) row Hrow) with
        (index := 0%nat)
        (st := {| result := {| valid := true; errors := []; warnings := [] |};
                  fieldIdMap := [] |}) as (msg & ->); [|cbn; eauto].
      intros st index. unfold validateRow. cbv zeta.
      destruct (missingOrEmpty rt "row.Field_Name" (prop row "Field_Name"))
        as [m1|msg1] eqn:H1; cbn [andThen]; [|eauto].
      destruct (missingOrEmpty rt "row.Field_Type" (prop row "Field_Type"))
        as [m2|msg2] eqn:H2; cbn [andThen]; [|eauto].
      destruct (missingOrEmpty rt "row.Model_Name" (prop row "Model_Name"))
        as [m3|msg3] eqn:H3; cbn [andThen]; [|eauto].
      destruct Hbad as [Hname | [Htype | Hmodel]].
      - destruct (missingOrEmpty_throws rt "row.Field_Name" _ Hname) as (msg & Hmsg).
        congruence.
      - destruct (lowerFieldType_throws rt _ Htype) as (msg & ->). cbn. eauto.
      - destruct (missingOrEmpty_throws rt "row.Model_Name" _ Hmodel) as (msg & Hmsg).
        congruence. }
    split; [exact Hthrow|].
    destruct Hthrow as (msg & Hmsg). unfold convertSimpleSchemaToNexsus.
    rewrite Hmsg. cbn. eauto.
  - intros Hstored. unfold convertSimpleSchemaToNexsus.
    destruct (validateSimpleSchema rt rows) as [r|msg]; cbn [andThen]; [|eauto].
    destruct (valid r); cbn [negb]; [|eauto].
    apply (mapRows_throws _ _ row Hrow).
    unfold convertRow.
    destruct (buildSchemaUuidV2Simple rt _ _) as [uuid|msg]; cbn [andThen]; [|eauto].
    match goal with
    | |- exists _, andThen ?m _ = _ => destruct m as [fkUuid|msg]; cbn [andThen]; [|eauto]
    end.
    unfold isDefinedNonString in Hstored. unfold storedOf.
    apply andb_true_iff in Hstored as [Hn Hs]. apply negb_true_iff in Hn. rewrite Hn.
    destruct (prop row "Stored"); try discriminate; cbn; eauto.
Qed.

Lemma X20_wrong_cell_types_throw_witness :
  (exists r, validateSimpleSchema sampleRuntime [numericStoredRow] = Ok r
             /\ valid r = true)
  /\ exists msg, convertSimpleSchemaToNexsus sampleRuntime [numericStoredRow] = Fail msg.
Proof.
  split; [eexists; split; vm_compute; reflexivity|].
  destruct (X20_wrong_cell_types_throw sampleRuntime [numericStoredRow] numericStoredRow)
    as [_ Hthrows]; [left|].
  apply Hthrows. reflexivity.
Defined.

End SimpleSchemaProperties.
